(** * Topiary Park Living: the data integration script and its gateway

    A shallow embedding of the browser script in its two variants, the one
    that queries the two upstream tables itself (src/js/app.js) and the one
    that asks the gateway ([fetchData], [renderPricing], [renderFAQ]), and
    of the serverless gateway (the [handler] function), followed by the
    properties of the specification that concern them and by further
    properties of the code.

    Conventions of the embedding.
    - A JavaScript number is a [number]: [NaN], a signed infinity or a
      finite value kept as the exact rational its decimal literal denotes.
      The rounding and the range of binary64 are not modelled and negative
      zero is identified with zero; a statement that would depend on
      rounding carries an explicit bound.
    - A JavaScript string is kept as the bytes of its UTF-8 encoding (a
      string with a lone surrogate has none and is left out).  White space
      is every WhiteSpace and LineTerminator code point of ECMAScript, the
      no-break space, the byte order mark and the Unicode spaces among
      them, recognised by its encoding.
    - Field values of upstream records are the values of the data model:
      absent ([VUndefined]), [VNull], numbers and strings.  Records are
      well-formed: each has its [fields].
    - The page is a store of the elements that carry an [id], each with its
      class list (an ordered token list, as [DOMTokenList] is) and its
      content; ids are unique in the page.  Markup is kept as a tree of the
      fragments the script builds; a value interpolated into a template is
      kept as the value, and the text of a script element as the JSON value
      that [JSON.stringify] serializes.
    - A suspended [async] function is a pair of transitions: the part that
      runs up to the [await] and the part that resumes with the outcome of
      the awaited request.  The event loop may run other transitions in
      between. *)

From Stdlib Require Import ZArith QArith Lia Ascii String DecimalString DecimalPos DecimalN.
From stdpp Require Import base option list strings gmap.

Local Open Scope string_scope.
Local Open Scope list_scope.
Local Open Scope Z_scope.

(** ** JavaScript values *)

Module JS.

Inductive number :=
| NaN
| Infinity (negative : bool)
| Finite (q : Q).

Inductive value :=
| VUndefined
| VNull
| VNumber (x : number)
| VString (s : string).

Record error := { name : string; message : string }.

Definition Error (msg : string) : error := {| name := "Error"; message := msg |}.
Definition TypeError (msg : string) : error := {| name := "TypeError"; message := msg |}.

(** Completion of a synchronous call that mutates a state [A]: mutations
    made before a throw persist. *)
Inductive completion (A : Type) :=
| Normal (a : A)
| Throw (e : error) (a : A).
Arguments Normal {A} a.
Arguments Throw {A} e a.

(** ToString of a non-negative integer (below 10^21, where the decimal
    digits are written out). *)
Definition decimal (n : Z) : string :=
  NilZero.string_of_uint (N.to_uint (Z.to_N n)).

(** *** Lexical helpers *)

Definition code (c : ascii) : N := N_of_ascii c.

Definition is_digit (c : ascii) : bool :=
  ((48 <=? code c) && (code c <=? 57))%N.

Definition digit_value (c : ascii) : Z := Z.of_N (code c) - 48.

(** The WhiteSpace and LineTerminator code points whose encoding is one
    byte: U+0009 to U+000D and U+0020. *)
Definition is_white_space (c : ascii) : bool :=
  (((9 <=? code c) && (code c <=? 13)) || (code c =? 32))%N.

(** The one whose encoding is two bytes: U+00A0. *)
Definition is_white_space2 (c1 c2 : ascii) : bool :=
  ((code c1 =? 194) && (code c2 =? 160))%N.

(** Those whose encoding is three bytes: U+1680, U+2000 to U+200A, U+2028,
    U+2029, U+202F, U+205F, U+3000 and U+FEFF. *)
Definition is_white_space3 (c1 c2 c3 : ascii) : bool :=
  let b1 := code c1 in
  let b2 := code c2 in
  let b3 := code c3 in
  (((b1 =? 225) && (b2 =? 154) && (b3 =? 128))
   || ((b1 =? 226) && (b2 =? 128)
       && (((128 <=? b3) && (b3 <=? 138)) || (b3 =? 168) || (b3 =? 169) || (b3 =? 175)))
   || ((b1 =? 226) && (b2 =? 129) && (b3 =? 159))
   || ((b1 =? 227) && (b2 =? 128) && (b3 =? 128))
   || ((b1 =? 239) && (b2 =? 187) && (b3 =? 191)))%N.

Fixpoint trim_start (s : string) : string :=
  match s with
  | EmptyString => EmptyString
  | String c r =>
      if is_white_space c then trim_start r
      else
        match r with
        | EmptyString => s
        | String c1 r1 =>
            if is_white_space2 c c1 then trim_start r1
            else
              match r1 with
              | EmptyString => s
              | String c2 r2 => if is_white_space3 c c1 c2 then trim_start r2 else s
              end
        end
  end.

(** A string of white space and nothing else. *)
Fixpoint only_white_space (s : string) : bool :=
  match s with
  | EmptyString => true
  | String c r =>
      if is_white_space c then only_white_space r
      else
        match r with
        | EmptyString => false
        | String c1 r1 =>
            if is_white_space2 c c1 then only_white_space r1
            else
              match r1 with
              | EmptyString => false
              | String c2 r2 =>
                  if is_white_space3 c c1 c2 then only_white_space r2 else false
              end
        end
  end.

(** The bytes of [s] up to the white space it ends with.  No encoding of a
    white space code point starts inside the encoding of a code point, so
    the test never succeeds in the middle of one. *)
Fixpoint trim_end (s : string) : string :=
  match s with
  | EmptyString => EmptyString
  | String c r => if only_white_space s then EmptyString else String c (trim_end r)
  end.

Definition trim (s : string) : string := trim_end (trim_start s).

(** The longest run of decimal digits at the head of [s]: its digits, most
    significant first, and what follows. *)
Fixpoint span_digits (s : string) : list Z * string :=
  match s with
  | String c r =>
      if is_digit c
      then let '(ds, rest) := span_digits r in (digit_value c :: ds, rest)
      else ([], s)
  | EmptyString => ([], s)
  end.

Definition digits_value (ds : list Z) : Z :=
  fold_left (fun acc d => 10 * acc + d) ds 0.

Fixpoint strip_prefix (p s : string) : option string :=
  match p, s with
  | EmptyString, _ => Some s
  | String a p', String b s' => if Ascii.eqb a b then strip_prefix p' s' else None
  | String _ _, EmptyString => None
  end.

(** [m * 10 ^ e] as a rational. *)
Definition scale10 (m e : Z) : Q :=
  if 0 <=? e then Qmake (m * 10 ^ e) 1 else Qmake m (Z.to_pos (10 ^ (- e))).

(** ExponentPart, when one is present at the head of [s]. *)
Definition exponent_part (s : string) : Z * string :=
  match s with
  | String c r =>
      if (Ascii.eqb c "e" || Ascii.eqb c "E")%bool then
        let '(sign, r1) :=
          match r with
          | String "+" r' => (1, r')
          | String "-" r' => (-1, r')
          | _ => (1, r)
          end in
        match span_digits r1 with
        | ([], _) => (0, s)
        | (ds, r2) => (sign * digits_value ds, r2)
        end
      else (0, s)
  | EmptyString => (0, s)
  end.

(** The longest prefix of [s] that is a StrUnsignedDecimalLiteral, as its
    value and the rest of [s]. *)
Definition str_unsigned_decimal_literal (s : string) : option (number * string) :=
  match strip_prefix "Infinity" s with
  | Some rest => Some (Infinity false, rest)
  | None =>
      let '(ds1, r1) := span_digits s in
      let '(ds2, r2, dotted) :=
        match r1 with
        | String "." r =>
            let '(ds, r') := span_digits r in
            match ds1, ds with
            | [], [] => ([], r1, false)
            | _, _ => (ds, r', true)
            end
        | _ => ([], r1, false)
        end in
      match ds1, ds2, dotted with
      | [], [], _ => None
      | _, _, _ =>
          let '(e, r3) := exponent_part r2 in
          Some (Finite (scale10 (digits_value (ds1 ++ ds2)) (e - Z.of_nat (length ds2))), r3)
      end
  end.

Definition negate (x : number) : number :=
  match x with
  | NaN => NaN
  | Infinity b => Infinity (negb b)
  | Finite q => Finite (Qopp q)
  end.

(** The longest prefix of [s] that is a StrDecimalLiteral. *)
Definition str_decimal_literal (s : string) : option (number * string) :=
  match s with
  | String "+" r => str_unsigned_decimal_literal r
  | String "-" r =>
      match str_unsigned_decimal_literal r with
      | Some (x, rest) => Some (negate x, rest)
      | None => None
      end
  | _ => str_unsigned_decimal_literal s
  end.

(** [parseFloat(string)]. *)
Definition parseFloat (s : string) : number :=
  match str_decimal_literal (trim_start s) with
  | Some (x, _) => x
  | None => NaN
  end.

(** *** ToNumber *)

Definition radix_digit (radix : Z) (c : ascii) : option Z :=
  let n := Z.of_N (code c) in
  let d :=
    if is_digit c then n - 48
    else if (97 <=? n) && (n <=? 102) then n - 87
    else if (65 <=? n) && (n <=? 70) then n - 55
    else radix in
  if d <? radix then Some d else None.

Fixpoint radix_value (radix : Z) (acc : Z) (s : string) : option Z :=
  match s with
  | EmptyString => Some acc
  | String c r =>
      match radix_digit radix c with
      | Some d => radix_value radix (radix * acc + d) r
      | None => None
      end
  end.

(** NonDecimalIntegerLiteral: [0x], [0o] and [0b] forms. *)
Definition non_decimal_integer_literal (s : string) : option Z :=
  match s with
  | String "0" (String c (String d r)) =>
      let body := String d r in
      if (Ascii.eqb c "x" || Ascii.eqb c "X")%bool then radix_value 16 0 body
      else if (Ascii.eqb c "o" || Ascii.eqb c "O")%bool then radix_value 8 0 body
      else if (Ascii.eqb c "b" || Ascii.eqb c "B")%bool then radix_value 2 0 body
      else None
  | _ => None
  end.

(** StringToNumber. *)
Definition StringToNumber (s : string) : number :=
  match trim s with
  | EmptyString => Finite 0
  | t =>
      match non_decimal_integer_literal t with
      | Some n => Finite (inject_Z n)
      | None =>
          match str_decimal_literal t with
          | Some (x, EmptyString) => x
          | _ => NaN
          end
      end
  end.

Definition ToNumber (v : value) : number :=
  match v with
  | VUndefined => NaN
  | VNull => Finite 0
  | VNumber x => x
  | VString s => StringToNumber s
  end.

Definition number_isNaN (x : number) : bool :=
  match x with NaN => true | _ => false end.

(** The global [isNaN(value)]. *)
Definition isNaN (v : value) : bool := number_isNaN (ToNumber v).

(** ToBoolean. *)
Definition truthy (v : value) : bool :=
  match v with
  | VUndefined | VNull => false
  | VNumber NaN => false
  | VNumber (Infinity _) => true
  | VNumber (Finite q) => negb (Qeq_bool q 0)
  | VString s => negb (String.eqb s "")
  end.

(** [a || b]. *)
Definition or (a b : value) : value := if truthy a then a else b.

(** [typeof v === 'string']. *)
Definition is_string (v : value) : bool :=
  match v with VString _ => true | _ => false end.

(** [v !== null]. *)
Definition not_null (v : value) : bool :=
  match v with VNull => false | _ => true end.

(** *** Math.min and Math.max *)

Definition number_ltb (a b : number) : bool :=
  match a, b with
  | NaN, _ | _, NaN => false
  | Infinity true, Infinity true => false
  | Infinity true, _ => true
  | _, Infinity true => false
  | Infinity false, _ => false
  | Finite _, Infinity false => true
  | Finite p, Finite q => negb (Qle_bool q p)
  end.

Definition Math_min (args : list value) : number :=
  let coerced := map ToNumber args in
  if existsb number_isNaN coerced then NaN
  else fold_left (fun lowest x => if number_ltb x lowest then x else lowest)
                 coerced (Infinity false).

Definition Math_max (args : list value) : number :=
  let coerced := map ToNumber args in
  if existsb number_isNaN coerced then NaN
  else fold_left (fun highest x => if number_ltb highest x then x else highest)
                 coerced (Infinity true).

(** *** JSON *)

#[warnings="-register-all"]
Inductive json :=
| JNull
| JBool (b : bool)
| JNumber (q : Q)
| JString (s : string)
| JArray (items : list json)
| JObject (members : list (string * json)).

(** What [JSON.stringify] writes for a number: non-finite numbers become
    [null]. *)
Definition json_of_number (x : number) : json :=
  match x with
  | Finite q => JNumber q
  | _ => JNull
  end.

(** A property [key: v] of an object literal as [JSON.stringify] writes it:
    a property whose value is [undefined] is left out. *)
Definition json_property (key : string) (v : value) : list (string * json) :=
  match v with
  | VUndefined => []
  | VNull => [(key, JNull)]
  | VNumber x => [(key, json_of_number x)]
  | VString s => [(key, JString s)]
  end.

(** ToBoolean on a parsed JSON value. *)
Definition json_truthy (j : json) : bool :=
  match j with
  | JNull => false
  | JBool b => b
  | JNumber q => negb (Qeq_bool q 0)
  | JString s => negb (String.eqb s "")
  | JArray _ | JObject _ => true
  end.

Fixpoint assoc (key : string) (members : list (string * json)) : option json :=
  match members with
  | [] => None
  | (k, v) :: rest => if String.eqb k key then Some v else assoc key rest
  end.

(** [j.key] on a parsed JSON value: [None] is [undefined]; reading a
    property of [null] throws. *)
Definition get (j : json) (key : string) : error + option json :=
  match j with
  | JNull =>
      inl (TypeError ("Cannot read properties of null (reading '" +:+ key +:+ "')"))
  | JObject members => inr (assoc key members)
  | _ => inr None
  end.

End JS.

(** ** Intl.NumberFormat, as [formatCurrency] configures it *)

Module Intl.
Import JS.

(** Commas between groups of three digits; [rev_digits] is least
    significant first and [k] counts the digits of the group being filled. *)
Fixpoint group_from_right (rev_digits : list ascii) (k : nat) : list ascii :=
  match rev_digits with
  | [] => []
  | c :: r =>
      if Nat.eqb k 3 then ","%char :: c :: group_from_right r 1
      else c :: group_from_right r (S k)
  end.

Definition grouped (n : Z) : string :=
  string_of_list_ascii
    (rev (group_from_right (rev (list_ascii_of_string (decimal n))) 0)).

(** Rounding to no fraction digit, mode [halfExpand]: the magnitude of the
    nearest integer, ties away from zero. *)
Definition round_magnitude (q : Q) : Z :=
  let a := Z.abs (Qnum q) in
  let d := Z.pos (Qden q) in
  (2 * a + d) / (2 * d).

(** [new Intl.NumberFormat('en-US', { style: 'currency', currency: 'USD',
    minimumFractionDigits: 0, maximumFractionDigits: 0 }).format(x)]. *)
Definition format_usd (x : number) : string :=
  match x with
  | NaN => "$NaN"
  | Infinity false => "$∞"
  | Infinity true => "-$∞"
  | Finite q =>
      (if Qle_bool 0 q then "" else "-") +:+ "$" +:+ grouped (round_magnitude q)
  end.

End Intl.

(** ** The document *)

Module DOM.
Import JS.

(** A row of the pricing table, by the three interpolations of the row
    template: the unit name, the text of the price cell, and the promotion,
    which the row shows as a badge when it is truthy.  Every row ends with
    the cell [Available Now]. *)
Record pricing_row := { unit : value; price_text : string; promo : value }.

(** A panel of the FAQ accordion, by the two interpolations of the panel
    template: the question on the button and the answer in the content
    element.  Its position in the accordion gives the ids of its elements. *)
Record faq_panel := { heading : value; body : value }.

(** [`faq-${index}`]. *)
Definition panel_id (index : nat) : string :=
  "faq-" +:+ decimal (Z.of_nat index).

(** The markup the script assigns to [innerHTML] and [textContent]. *)
Inductive markup :=
| Empty                                (* nothing *)
| Static                               (* what the page ships with *)
| LoadingIndicator                     (* the spinner and Loading details... *)
| ErrorBox (message : string)          (* the message, then Please contact us for current rates. *)
| Notice (text : string)               (* one centred paragraph *)
| PricingTable (rows : list pricing_row)
                                       (* header Unit Type, Price, Availability; then the rows *)
| FaqAccordion (panels : list faq_panel)
                                       (* per panel: button with icon, content element *)
| RichText (html : value)              (* the answer inside a content element *)
| Chevron                              (* the path of a panel icon *)
| Text (j : json).                     (* text that is the serialization of [j] *)

(** An element: its tag, its [type] attribute, its class list and its
    content.  Its id is its key in the document. *)
Record element :=
  { tagName : string; type : string; classList : list string; content : markup }.

Definition set_classList (cl : list string) (e : element) : element :=
  {| tagName := tagName e; type := type e; classList := cl; content := content e |}.

Definition set_content (m : markup) (e : element) : element :=
  {| tagName := tagName e; type := type e; classList := classList e; content := m |}.

Definition set_type (t : string) (e : element) : element :=
  {| tagName := tagName e; type := t; classList := classList e; content := content e |}.

(** *** DOMTokenList *)

Definition contains (token : string) (cl : list string) : bool :=
  existsb (String.eqb token) cl.

Definition add (token : string) (cl : list string) : list string :=
  if contains token cl then cl else cl ++ [token].

Definition remove (token : string) (cl : list string) : list string :=
  List.filter (fun t => negb (String.eqb token t)) cl.

Definition remove_all (tokens : list string) (cl : list string) : list string :=
  fold_left (fun acc t => remove t acc) tokens cl.

(** *** Elements by id *)

Abbreviation dom := (gmap string element).

Definition getElementById (id : string) (doc : dom) : option element :=
  doc !! id.

Definition createElement (tag : string) : element :=
  {| tagName := tag; type := ""; classList := []; content := Empty |}.

(** The two elements with an id inside the panel at position [index], with
    the classes the template gives them. *)
Definition panel_elements (index : nat) (p : faq_panel) : list (string * element) :=
  [ ("icon-" +:+ panel_id index,
     {| tagName := "svg"; type := "";
        classList := ["w-5"; "h-5"; "text-primary"; "transform";
                      "transition-transform"; "duration-200"];
        content := Chevron |});
    (panel_id index,
     {| tagName := "div"; type := "";
        classList := ["hidden"; "bg-gray-50"; "p-4"; "border-t"; "border-gray-100";
                      "text-secondary"; "leading-relaxed"; "prose"; "max-w-none"];
        content := RichText (body p) |}) ].

Fixpoint panels_elements (index : nat) (panels : list faq_panel)
  : list (string * element) :=
  match panels with
  | [] => []
  | p :: rest => panel_elements index p ++ panels_elements (S index) rest
  end.

(** Elements with an id inside a piece of markup. *)
Definition identified_elements (m : markup) : list (string * element) :=
  match m with
  | FaqAccordion panels => panels_elements 0 panels
  | _ => []
  end.

Definition detach (ids : list string) (doc : dom) : dom :=
  fold_right (fun id d => delete id d) doc ids.

Definition attach (els : list (string * element)) (doc : dom) : dom :=
  fold_right (fun '(id, e) d => <[id := e]> d) doc els.

(** [element.innerHTML = m] for the element [id]: the identified elements of
    the old content leave the document, those of [m] enter it. *)
Definition set_innerHTML (id : string) (m : markup) (doc : dom) : dom :=
  match doc !! id with
  | None => doc
  | Some e =>
      let doc1 := detach (map fst (identified_elements (content e))) doc in
      let doc2 := attach (identified_elements m) doc1 in
      <[id := set_content m e]> doc2
  end.

End DOM.

(** ** Requests and their outcomes *)

Module Net.
Import JS.

Record fetch_request := { url : string; authorization : option string }.

(** A response whose body, read with [response.json()], parses to a [B] or
    makes the read reject. *)
Record http_response (B : Type) := { ok : bool; status : Z; body_json : error + B }.
Arguments ok {B} _.
Arguments status {B} _.
Arguments body_json {B} _.

(** How the promise returned by [fetch] settles. *)
Inductive settled (B : Type) :=
| Rejected (reason : error)
| Fulfilled (response : http_response B).
Arguments Rejected {B} reason.
Arguments Fulfilled {B} response.

(** A fetch fails by a network error or by a non-success status. *)
Definition failed {B : Type} (o : settled B) : bool :=
  match o with
  | Rejected _ => true
  | Fulfilled r => negb (ok r)
  end.

Definition BASE_ID : string := "appd7mB2vELacH4Fh".
Definition PRICING_TABLE_ID : string := "tbliVrYxBgWFJ3AF1".
Definition FAQ_TABLE_ID : string := "tblkfsPmorGvt1o2q".

Definition table_request (table token : string) : fetch_request :=
  {| url := "https://api.airtable.com/v0/" +:+ BASE_ID +:+ "/" +:+ table;
     authorization := Some ("Bearer " +:+ token) |}.

End Net.

(** ** The browser script: what its two variants share *)

Module App.
Import JS DOM Net.

(** A record of an upstream table. *)
Record record := { id : string; fields : gmap string value }.

(** [record.fields[key]]. *)
Definition field (r : record) (key : string) : value :=
  default VUndefined (fields r !! key).

(** The entries of [pricingData] and of [faqData]. *)
Record pricing_item := { price : value }.
Record faq_item := { question : value; answer : value }.

(** What the script works on: the document, its two module-level lists and
    what it has written with [console.error]. *)
Record page :=
  { document : dom;
    globalPricingData : list pricing_item;
    globalFaqData : list faq_item;
    console : list (string * error) }.

Definition set_document (d : dom) (s : page) : page :=
  {| document := d; globalPricingData := globalPricingData s;
     globalFaqData := globalFaqData s; console := console s |}.

Definition set_globalPricingData (p : list pricing_item) (s : page) : page :=
  {| document := document s; globalPricingData := p;
     globalFaqData := globalFaqData s; console := console s |}.

Definition set_globalFaqData (f : list faq_item) (s : page) : page :=
  {| document := document s; globalPricingData := globalPricingData s;
     globalFaqData := f; console := console s |}.

Definition console_error (label : string) (e : error) (s : page) : page :=
  {| document := document s; globalPricingData := globalPricingData s;
     globalFaqData := globalFaqData s; console := console s ++ [(label, e)] |}.

Definition pricingContainer : string := "pricing-table-container".
Definition faqContainer : string := "faq-accordion-container".

Definition formatCurrency (amount : value) : string :=
  Intl.format_usd (ToNumber amount).

Definition showLoading (container : string) (s : page) : page :=
  set_document (set_innerHTML container LoadingIndicator (document s)) s.

(** *** Structured data *)

Definition injectJsonLd (schemaData : json) (scriptId : string) (s : page) : page :=
  let d :=
    match getElementById scriptId (document s) with
    | Some _ => document s
    | None =>
        <[scriptId := set_type "application/ld+json" (createElement "script")]>
          (document s)
    end in
  set_document (alter (set_content (Text schemaData)) scriptId d) s.

Definition offerSchema (pricing : list pricing_item) : json :=
  let prices := map price pricing in
  let minPrice := Math_min prices in
  let maxPrice := Math_max prices in
  JObject
    [ ("@context", JString "https://schema.org");
      ("@type", JString "Offer");
      ("priceCurrency", JString "USD");
      ("lowPrice", json_of_number minPrice);
      ("highPrice", json_of_number maxPrice);
      ("offerCount", JNumber (inject_Z (Z.of_nat (length pricing))));
      ("availability", JString "https://schema.org/InStock") ].

Definition faqSchema (faq : list faq_item) : json :=
  JObject
    [ ("@context", JString "https://schema.org");
      ("@type", JString "FAQPage");
      ("mainEntity",
       JArray
         (map (fun item =>
                 JObject
                   ([("@type", JString "Question")]
                    ++ json_property "name" (question item)
                    ++ [("acceptedAnswer",
                         JObject ([("@type", JString "Answer")]
                                  ++ json_property "text" (answer item)))]))
              faq)) ].

Definition updateSchema (newPricingData : option (list pricing_item))
    (newFaqData : option (list faq_item)) (s : page) : page :=
  let s := match newPricingData with
           | Some p => set_globalPricingData p s
           | None => s
           end in
  let s := match newFaqData with
           | Some f => set_globalFaqData f s
           | None => s
           end in
  let s := if (0 <? length (globalPricingData s))%nat
           then injectJsonLd (offerSchema (globalPricingData s)) "dynamic-offer-schema" s
           else s in
  if (0 <? length (globalFaqData s))%nat
  then injectJsonLd (faqSchema (globalFaqData s)) "dynamic-faq-schema" s
  else s.

(** *** The pricing table *)

Definition pricing_row_of (r : record) : pricing_row :=
  {| unit := or (or (field r "Unit Name") (field r "Name")) (VString "Apartment");
     price_text := if truthy (field r "Current Price")
                   then formatCurrency (field r "Current Price")
                   else "Call for pricing";
     promo := field r "Promotions" |}.

(** [rawPrice.replace(/[$,]/g, '')]. *)
Fixpoint strip_currency (s : string) : string :=
  match s with
  | EmptyString => EmptyString
  | String c r =>
      if (Ascii.eqb c "$" || Ascii.eqb c ",")%bool then strip_currency r
      else String c (strip_currency r)
  end.

Definition pricing_item_of (r : record) : pricing_item :=
  let rawPrice := field r "Current Price" in
  let rawPrice := match rawPrice with
                  | VString s => VNumber (parseFloat (strip_currency s))
                  | _ => rawPrice
                  end in
  {| price := rawPrice |}.

Definition kept (item : pricing_item) : bool :=
  negb (isNaN (price item)) && not_null (price item).

Definition pricingData_of (records : list record) : list pricing_item :=
  List.filter kept (map pricing_item_of records).

Definition no_availability : markup := Notice "No availability at this time.".

(** *** The FAQ accordion *)

Definition faq_panel_of (r : record) : faq_panel :=
  {| heading := or (field r "Question") (VString "Question");
     body := or (field r "Answer") (VString "Answer") |}.

Definition faq_item_of (r : record) : faq_item :=
  {| question := or (field r "Question") (VString "Question");
     answer := or (field r "Answer") (VString "Answer") |}.

Definition faqData_of (records : list record) : list faq_item :=
  map faq_item_of records.

Definition no_faqs : markup := Notice "No FAQs available.".

Definition classList_update (f : list string -> list string) (id : string) (s : page) : page :=
  set_document (alter (fun e => set_classList (f (classList e)) e) id (document s)) s.

(** [window.toggleAccordion]. *)
Definition toggleAccordion (id : string) (s : page) : completion page :=
  let content := id in
  let icon := "icon-" +:+ id in
  let null_classList := TypeError "Cannot read properties of null (reading 'classList')" in
  match getElementById content (document s) with
  | None => Throw null_classList s
  | Some c =>
      if contains "hidden" (classList c) then
        let s := classList_update (remove "hidden") content s in
        match getElementById icon (document s) with
        | None => Throw null_classList s
        | Some _ => Normal (classList_update (add "rotate-180") icon s)
        end
      else
        let s := classList_update (add "hidden") content s in
        match getElementById icon (document s) with
        | None => Throw null_classList s
        | Some _ => Normal (classList_update (remove "rotate-180") icon s)
        end
  end.

End App.

(** ** src/js/app.js: the script that queries the tables itself *)

Module Direct.
Import JS DOM Net App.

(** The body of a table listing. *)
Record table_payload := { records : option (list record) }.

Definition showError (container : string) (s : page) : page :=
  set_document
    (set_innerHTML container (ErrorBox "Unable to load current rates.") (document s)) s.

Definition undefined_length : error :=
  TypeError "Cannot read properties of undefined (reading 'length')".

(** [fetchPricing] up to its first [await]; [token] is
    [AIRTABLE_ACCESS_TOKEN]. *)
Definition fetchPricing_start (token : string) (s : page) : page * option fetch_request :=
  match getElementById pricingContainer (document s) with
  | None => (s, None)
  | Some _ => (showLoading pricingContainer s, Some (table_request PRICING_TABLE_ID token))
  end.

(** [fetchPricing] from the moment the request settles. *)
Definition fetchPricing_resume (o : settled table_payload) (s : page) : page :=
  let catch error :=
    showError pricingContainer (console_error "Pricing Fetch Error:" error s) in
  match o with
  | Rejected reason => catch reason
  | Fulfilled response =>
      if negb (ok response) then catch (Error "Failed to fetch pricing")
      else
        match body_json response with
        | inl reason => catch reason
        | inr data =>
            match records data with
            | None => catch undefined_length
            | Some records =>
                if (length records =? 0)%nat then
                  set_document
                    (set_innerHTML pricingContainer no_availability (document s)) s
                else
                  let tableHTML := PricingTable (map pricing_row_of records) in
                  let s := set_document
                             (set_innerHTML pricingContainer tableHTML (document s)) s in
                  let s := classList_update
                             (remove_all ["h-64"; "flex"; "items-center"; "justify-center"])
                             pricingContainer s in
                  let pricingData := pricingData_of records in
                  updateSchema (Some pricingData) None s
            end
        end
  end.

(** [fetchFAQ] up to its first [await]. *)
Definition fetchFAQ_start (token : string) (s : page) : page * option fetch_request :=
  match getElementById faqContainer (document s) with
  | None => (s, None)
  | Some _ => (showLoading faqContainer s, Some (table_request FAQ_TABLE_ID token))
  end.

(** [fetchFAQ] from the moment the request settles. *)
Definition fetchFAQ_resume (o : settled table_payload) (s : page) : page :=
  let catch error :=
    showError faqContainer (console_error "FAQ Fetch Error:" error s) in
  match o with
  | Rejected reason => catch reason
  | Fulfilled response =>
      if negb (ok response) then catch (Error "Failed to fetch FAQ")
      else
        match body_json response with
        | inl reason => catch reason
        | inr data =>
            match records data with
            | None => catch undefined_length
            | Some records =>
                if (length records =? 0)%nat then
                  set_document (set_innerHTML faqContainer no_faqs (document s)) s
                else
                  let accordionHTML := FaqAccordion (map faq_panel_of records) in
                  let s := set_document
                             (set_innerHTML faqContainer accordionHTML (document s)) s in
                  let s := classList_update
                             (remove_all ["min-h-[200px]"; "flex"; "items-center";
                                          "justify-center"])
                             faqContainer s in
                  let faqData := faqData_of records in
                  updateSchema None (Some faqData) s
            end
        end
  end.

End Direct.

(** ** The variant that asks the gateway *)

Module Proxied.
Import JS DOM Net App.

(** The body of [/api/rates]. *)
Record rates_payload :=
  { pricing : option (list record); faq : option (list record) }.

Definition showError (element : string) (message : option string) (s : page) : page :=
  set_document
    (set_innerHTML element
       (ErrorBox (default "Unable to load current rates." message)) (document s)) s.

Definition renderPricing (records : option (list record)) (s : page) : page :=
  match getElementById pricingContainer (document s) with
  | None => s
  | Some _ =>
      match records with
      | None | Some [] =>
          set_document (set_innerHTML pricingContainer no_availability (document s)) s
      | Some records =>
          let tableHTML := PricingTable (map pricing_row_of records) in
          let s := set_document
                     (set_innerHTML pricingContainer tableHTML (document s)) s in
          let s := classList_update
                     (remove_all ["h-64"; "flex"; "items-center"; "justify-center"])
                     pricingContainer s in
          let s := classList_update
                     (remove_all ["h-80"; "flex"; "items-center"; "justify-center"])
                     pricingContainer s in
          let pricingData := pricingData_of records in
          updateSchema (Some pricingData) None s
      end
  end.

Definition renderFAQ (records : option (list record)) (s : page) : page :=
  match getElementById faqContainer (document s) with
  | None => s
  | Some _ =>
      match records with
      | None | Some [] =>
          set_document (set_innerHTML faqContainer no_faqs (document s)) s
      | Some records =>
          let accordionHTML := FaqAccordion (map faq_panel_of records) in
          let s := set_document
                     (set_innerHTML faqContainer accordionHTML (document s)) s in
          let s := classList_update
                     (remove_all ["min-h-[200px]"; "flex"; "items-center"; "justify-center"])
                     faqContainer s in
          let faqData := faqData_of records in
          updateSchema None (Some faqData) s
      end
  end.

(** [fetchData] up to its first [await]. *)
Definition fetchData_start (s : page) : page * option fetch_request :=
  match getElementById pricingContainer (document s),
        getElementById faqContainer (document s) with
  | Some _, Some _ =>
      (showLoading faqContainer (showLoading pricingContainer s),
       Some {| url := "/api/rates"; authorization := None |})
  | _, _ => (s, None)
  end.

(** [fetchData] from the moment the request settles. *)
Definition fetchData_resume (o : settled rates_payload) (s : page) : page :=
  let catch error :=
    showError faqContainer None
      (showError pricingContainer None (console_error "Data Fetch Error:" error s)) in
  match o with
  | Rejected reason => catch reason
  | Fulfilled response =>
      if negb (ok response)
      then catch (Error ("HTTP error! status: " +:+ decimal (status response)))
      else
        match body_json response with
        | inl reason => catch reason
        | inr data => renderFAQ (faq data) (renderPricing (pricing data) s)
        end
  end.

End Proxied.

(** ** The gateway *)

Module Gateway.
Import JS Net.

Record request := { method : string }.

(** [process.env]. *)
Record environment := { AIRTABLE_API_KEY : option string }.

Record response :=
  { statusCode : Z; headers : list (string * string); body : option json }.

(** What one call of the handler leaves behind: the response it sent and
    what it wrote with [console.error]. *)
Record reply := { sent : response; logged : list (string * error) }.

Definition cors_headers : list (string * string) :=
  [ ("Access-Control-Allow-Origin", "*");
    ("Access-Control-Allow-Methods", "GET, OPTIONS");
    ("Access-Control-Allow-Headers", "Content-Type");
    ("Content-Type", "application/json") ].

(** [response.status(code).json(value)] and [response.status(code).end()]. *)
Definition send (code : Z) (b : option json) : response :=
  {| statusCode := code; headers := cors_headers; body := b |}.

(** How the two requests settle, and which settles first. *)
Record arrivals :=
  { pricing_settled : settled json;
    faq_settled : settled json;
    pricing_first : bool }.

(** [Promise.all] of the two requests: it rejects with the reason of the
    first rejection. *)
Definition Promise_all (a : arrivals)
  : error + (http_response json * http_response json) :=
  match pricing_settled a, faq_settled a with
  | Rejected e1, Rejected e2 => inl (if pricing_first a then e1 else e2)
  | Rejected e, Fulfilled _ => inl e
  | Fulfilled _, Rejected e => inl e
  | Fulfilled p, Fulfilled f => inr (p, f)
  end.

(** [x || []]. *)
Definition or_empty (x : option json) : json :=
  match x with
  | Some j => if json_truthy j then j else JArray []
  | None => JArray []
  end.

(** A call of the handler either answers at once or issues the two requests
    and answers when they have settled. *)
Inductive run :=
| Respond (r : response)
| Await (pricing faq : fetch_request) (resume : arrivals -> reply).

Definition handler (request : request) (env : environment) : run :=
  if String.eqb (method request) "OPTIONS" then Respond (send 200 None)
  else if negb (String.eqb (method request) "GET") then
    Respond (send 405 (Some (JObject [("error", JString "Method not allowed")])))
  else
    match AIRTABLE_API_KEY env with
    | None | Some EmptyString =>
        Respond
          (send 500
             (Some (JObject [ ("error", JString "Server configuration error");
                              ("message", JString "Airtable API key not configured") ])))
    | Some key =>
        Await (table_request PRICING_TABLE_ID key) (table_request FAQ_TABLE_ID key)
          (fun a =>
             let catch error :=
               {| sent := send 500
                            (Some (JObject [ ("error", JString "Failed to fetch data");
                                             ("message", JString (message error)) ]));
                  logged := [("Airtable API Error:", error)] |} in
             match Promise_all a with
             | inl reason => catch reason
             | inr (pricingResponse, faqResponse) =>
                 if negb (ok pricingResponse) || negb (ok faqResponse)
                 then catch (Error "Failed to fetch data from Airtable")
                 else
                   match body_json pricingResponse with
                   | inl reason => catch reason
                   | inr pricingData =>
                       match body_json faqResponse with
                       | inl reason => catch reason
                       | inr faqData =>
                           match get pricingData "records" with
                           | inl e => catch e
                           | inr pricing_records =>
                               match get faqData "records" with
                               | inl e => catch e
                               | inr faq_records =>
                                   {| sent := send 200
                                                (Some (JObject
                                                         [ ("pricing", or_empty pricing_records);
                                                           ("faq", or_empty faq_records) ]));
                                      logged := [] |}
                               end
                           end
                       end
                   end
             end)
    end.

(** The answer of a call, given how its requests settle if it issues them. *)
Definition answer (r : run) (a : arrivals) : reply :=
  match r with
  | Respond resp => {| sent := resp; logged := [] |}
  | Await _ _ resume => resume a
  end.

(** The requests a call issues. *)
Definition requests (r : run) : list fetch_request :=
  match r with
  | Respond _ => []
  | Await p f _ => [p; f]
  end.

(** [response.ok] as the client that receives the answer sees it. *)
Definition seen_ok (r : response) : bool :=
  (200 <=? statusCode r) && (statusCode r <=? 299).

End Gateway.

(** ** Sample data *)

Module Sample.
Import JS DOM Net App.

Definition container (classes : list string) : element :=
  {| tagName := "div"; type := ""; classList := classes; content := Static |}.

(** The page as the script finds it: both containers with their placeholder
    classes, nothing cached, nothing published. *)
Definition loaded_page : page :=
  {| document :=
       <[pricingContainer := container ["h-64"; "flex"; "items-center"; "justify-center"]]>
         (<[faqContainer :=
              container ["min-h-[200px]"; "flex"; "items-center"; "justify-center"]]> ∅);
     globalPricingData := [];
     globalFaqData := [];
     console := [] |}.

Definition priced (unit_name : string) (p : value) : record :=
  {| id := "rec" +:+ unit_name;
     fields := <["Unit Name" := VString unit_name]> (<["Current Price" := p]> ∅) |}.

Definition unpriced (unit_name : string) : record :=
  {| id := "rec" +:+ unit_name; fields := <["Unit Name" := VString unit_name]> ∅ |}.

Definition asked (q a : string) : record :=
  {| id := "rec" +:+ q;
     fields := <["Question" := VString q]> (<["Answer" := VString a]> ∅) |}.

Definition amount (n : Z) : value := VNumber (Finite (inject_Z n)).

Definition studio : record := priced "Studio" (VString "$1,250").
Definition loft : record := unpriced "Loft".
Definition den : record := priced "Den" (VString "TBD").
Definition pets : record := asked "Are pets allowed?" "Yes.".

(** The page once a studio and a question have been rendered and
    published. *)
Definition listed_page : page :=
  Proxied.renderFAQ (Some [pets]) (Proxied.renderPricing (Some [studio]) loaded_page).

Definition three_prices : list pricing_item :=
  [ {| price := amount 1000 |}; {| price := amount 1500 |}; {| price := amount 1200 |} ].

Definition one_question : list faq_item :=
  [ {| question := VString "Are pets allowed?"; answer := VString "Yes." |} ].

Definition network_down : error := TypeError "fetch failed".

Definition listing (records : list json) : json :=
  JObject [("records", JArray records)].

Definition delivered {B : Type} (b : B) : settled B :=
  Fulfilled {| ok := true; status := 200; body_json := inr b |}.

Definition refused {B : Type} (code : Z) (b : B) : settled B :=
  Fulfilled {| ok := false; status := code; body_json := inr b |}.

(** The two elements of the first panel of [listed_page], as rendered. *)
Definition closed_panel : element :=
  {| tagName := "div"; type := "";
     classList := ["hidden"; "bg-gray-50"; "p-4"; "border-t"; "border-gray-100";
                   "text-secondary"; "leading-relaxed"; "prose"; "max-w-none"];
     content := RichText (VString "Yes.") |}.

Definition closed_icon : element :=
  {| tagName := "svg"; type := "";
     classList := ["w-5"; "h-5"; "text-primary"; "transform";
                   "transition-transform"; "duration-200"];
     content := Chevron |}.

Definition get_request : Gateway.request := {| Gateway.method := "GET" |}.

Definition configured : Gateway.environment :=
  {| Gateway.AIRTABLE_API_KEY := Some "key" |}.

Definition unconfigured : Gateway.environment :=
  {| Gateway.AIRTABLE_API_KEY := None |}.

(** A unit and a question as the upstream service lists them, and as the
    script reads them. *)
Definition a_unit : json :=
  JObject [ ("id", JString "recFlat");
            ("fields", JObject [ ("Unit Name", JString "Flat");
                                 ("Current Price", JNumber (inject_Z 1000)) ]) ].

Definition a_question : json :=
  JObject [ ("id", JString "recAre pets allowed?");
            ("fields", JObject [ ("Question", JString "Are pets allowed?");
                                 ("Answer", JString "Yes.") ]) ].

Definition flat : record := priced "Flat" (amount 1000).

(** The pricing request meets a network error, the FAQ request succeeds. *)
Definition pricing_down : Gateway.arrivals :=
  {| Gateway.pricing_settled := Rejected network_down;
     Gateway.faq_settled := delivered (listing [a_question]);
     Gateway.pricing_first := true |}.

(** Both requests succeed; the FAQ payload has no [records] member. *)
Definition both_delivered : Gateway.arrivals :=
  {| Gateway.pricing_settled := delivered (listing [a_unit]);
     Gateway.faq_settled := delivered (JObject []);
     Gateway.pricing_first := false |}.

(** Both requests succeed and carry records. *)
Definition both_listed : Gateway.arrivals :=
  {| Gateway.pricing_settled := delivered (listing [a_unit]);
     Gateway.faq_settled := delivered (listing [a_question]);
     Gateway.pricing_first := true |}.

End Sample.

(** ** Vocabulary of the statements *)

Import JS DOM Net App.

(** The list a table listing carries, as the specification reads it: the
    [records] member of the payload, the empty list when the payload has
    none.  Undefined for a payload that is not an object or whose member is
    not a list. *)
Definition listed_records (payload : json) : option (list json) :=
  match payload with
  | JObject members =>
      match assoc "records" members with
      | None => Some []
      | Some (JArray l) => Some l
      | Some _ => None
      end
  | _ => None
  end.

Definition rejected {B : Type} (o : settled B) : bool :=
  match o with Rejected _ => true | Fulfilled _ => false end.

Definition configuration_error_body : json :=
  JObject [ ("error", JString "Server configuration error");
            ("message", JString "Airtable API key not configured") ].

Definition fetch_error_body (msg : string) : json :=
  JObject [ ("error", JString "Failed to fetch data"); ("message", JString msg) ].

Definition combined_body (pricing faq : list json) : json :=
  JObject [ ("pricing", JArray pricing); ("faq", JArray faq) ].

(** The ids of the two script elements the publisher writes. *)
Definition offer_id : string := "dynamic-offer-schema".

Definition faq_id : string := "dynamic-faq-schema".

(** The content of the element [id] of the page, when there is one. *)
Definition published (id : string) (s : page) : option markup :=
  content <$> (document s !! id).

(** The script element [injectJsonLd] creates, before its text is set. *)
Definition fresh_script : element :=
  {| tagName := "script"; type := "application/ld+json"; classList := [];
     content := Empty |}.

(** What [injectJsonLd] does to the document. *)
Definition publish (j : json) (scriptId : string) (d : dom) : dom :=
  <[scriptId := set_content (Text j) (default fresh_script (d !! scriptId))]> d.

(** A publication guarded by the length of the cached list. *)
Definition publish_if {A : Type} (l : list A) (j : json) (scriptId : string) (d : dom) : dom :=
  if (0 <? length l)%nat then publish j scriptId d else d.

(** Each cached list that is not empty is the one its published document
    was computed from. *)
Definition synced (s : page) : Prop :=
  (globalPricingData s <> [] ->
   published offer_id s = Some (Text (offerSchema (globalPricingData s))))
  /\ (globalFaqData s <> [] ->
      published faq_id s = Some (Text (faqSchema (globalFaqData s)))).

Definition digit_headed (s : string) : bool :=
  match s with
  | String c _ => is_digit c
  | EmptyString => false
  end.

(** Ids of the shape [faq-N] and [icon-faq-N]. *)
Definition is_panel_key (k : string) : bool :=
  match strip_prefix "faq-" k with
  | Some r => digit_headed r
  | None =>
      match strip_prefix "icon-faq-" k with
      | Some r => digit_headed r
      | None => false
      end
  end.

(** A cached entry whose price is the finite number [q]. *)
Definition priced_at (q : Q) : pricing_item := {| price := VNumber (Finite q) |}.

(** The Aggregate Offer Summary with the given bounds and count. *)
Definition offer_summary (low high : Q) (count : nat) : json :=
  JObject
    [ ("@context", JString "https://schema.org");
      ("@type", JString "Offer");
      ("priceCurrency", JString "USD");
      ("lowPrice", JNumber low);
      ("highPrice", JNumber high);
      ("offerCount", JNumber (inject_Z (Z.of_nat count)));
      ("availability", JString "https://schema.org/InStock") ].

(** The two kinds of records. *)
Inductive kind := Pricing | Faq.

Definition container_of (k : kind) : string :=
  match k with Pricing => pricingContainer | Faq => faqContainer end.

Definition no_data_message (k : kind) : string :=
  match k with
  | Pricing => "No availability at this time."
  | Faq => "No FAQs available."
  end.

(** The fetch-and-render of a kind in the script that queries the tables
    itself, from the moment its request settles. *)
Definition direct_resume (k : kind) : settled Direct.table_payload -> page -> page :=
  match k with
  | Pricing => Direct.fetchPricing_resume
  | Faq => Direct.fetchFAQ_resume
  end.

(** The renderer of a kind in the variant that asks the gateway. *)
Definition proxied_render (k : kind) : option (list record) -> page -> page :=
  match k with
  | Pricing => Proxied.renderPricing
  | Faq => Proxied.renderFAQ
  end.

(** A table listing that arrives with a success status. *)
Definition table_listing (code : Z) (records : list record) : settled Direct.table_payload :=
  Fulfilled {| ok := true; status := code;
               body_json := inr {| Direct.records := Some records |} |}.

(** Page [s'] is page [s] with [m] as the content of [container]: both
    script elements and both cached lists are those of [s]. *)
Definition notice_only (container : string) (m : markup) (s s' : page) : Prop :=
  published container s' = Some m
  /\ document s' !! offer_id = document s !! offer_id
  /\ document s' !! faq_id = document s !! faq_id
  /\ globalPricingData s' = globalPricingData s
  /\ globalFaqData s' = globalFaqData s.

(** A price that is absent or fails to parse: no value, or a string from
    which [parseFloat] reads no number once [$] and [,] are removed. *)
Definition unusable_price (v : value) : bool :=
  match v with
  | VUndefined | VNull => true
  | VNumber x => number_isNaN x
  | VString s => number_isNaN (parseFloat (strip_currency s))
  end.

(** A price that is absent: no value, or the empty string. *)
Definition absent_price (v : value) : bool :=
  match v with
  | VUndefined | VNull => true
  | VString s => String.eqb s ""
  | VNumber _ => false
  end.

(** The digits of a string made of digits, [$] and [,] only. *)
Fixpoint currency_digits (s : string) : option (list Z) :=
  match s with
  | EmptyString => Some []
  | String c r =>
      if is_digit c then cons (digit_value c) <$> currency_digits r
      else if (Ascii.eqb c "$" || Ascii.eqb c ",")%bool then currency_digits r
      else None
  end.

(** The page a call leaves behind, however it completes. *)
Definition page_of (c : completion page) : page :=
  match c with Normal s | Throw _ s => s end.

(** The class list of the element [id] of the page. *)
Definition classes (id : string) (s : page) : option (list string) :=
  classList <$> (document s !! id).

(** The page after two successive calls of [toggleAccordion] that both
    return. *)
Definition toggled_twice (id : string) (s : page) : option page :=
  match toggleAccordion id s with
  | Normal s1 =>
      match toggleAccordion id s1 with
      | Normal s2 => Some s2
      | Throw _ _ => None
      end
  | Throw _ _ => None
  end.

(** The class list of the element [id] after two such calls. *)
Definition classes_after_two_toggles (id : string) (s : page) : option (list string) :=
  match toggled_twice id s with
  | Some s2 => classes id s2
  | None => None
  end.

(** Pages with the same cached lists and the same elements, except perhaps
    the elements whose id is in [own]. *)
Definition agree_outside (own : string -> Prop) (s1 s2 : page) : Prop :=
  globalPricingData s1 = globalPricingData s2
  /\ globalFaqData s1 = globalFaqData s2
  /\ forall k, ~ own k -> document s1 !! k = document s2 !! k.

(** The element the pricing fetch-and-render writes. *)
Definition pricing_own (k : string) : Prop := k = pricingContainer.

(** The elements the FAQ fetch-and-render writes: its container and the
    panels in it. *)
Definition faq_own (k : string) : Prop := k = faqContainer \/ is_panel_key k = true.

(** The content of [container] has no element with an id in it. *)
Definition holds_no_panel (container : string) (s : page) : Prop :=
  forall e, document s !! container = Some e -> identified_elements (content e) = [].

(** Pages with the same elements, except perhaps those whose id is in
    [own]. *)
Definition agree_docs (own : string -> Prop) (s1 s2 : page) : Prop :=
  forall k, ~ own k -> document s1 !! k = document s2 !! k.

(** The two script elements. *)
Definition metadata (k : string) : Prop := k = offer_id \/ k = faq_id.

Definition pricing_or_metadata (k : string) : Prop := pricing_own k \/ metadata k.

Definition faq_or_metadata (k : string) : Prop := faq_own k \/ metadata k.

(** ** Further vocabulary *)

(** The digits of a decimal numeral, most significant first. *)
Fixpoint digits_of_uint (d : Decimal.uint) : list Z :=
  match d with
  | Decimal.Nil => []
  | Decimal.D0 l => 0 :: digits_of_uint l
  | Decimal.D1 l => 1 :: digits_of_uint l
  | Decimal.D2 l => 2 :: digits_of_uint l
  | Decimal.D3 l => 3 :: digits_of_uint l
  | Decimal.D4 l => 4 :: digits_of_uint l
  | Decimal.D5 l => 5 :: digits_of_uint l
  | Decimal.D6 l => 6 :: digits_of_uint l
  | Decimal.D7 l => 7 :: digits_of_uint l
  | Decimal.D8 l => 8 :: digits_of_uint l
  | Decimal.D9 l => 9 :: digits_of_uint l
  end.

(** A cached price that is a number other than NaN. *)
Definition usable_item (item : pricing_item) : Prop :=
  exists x, price item = VNumber x /\ number_isNaN x = false.

(** A cached question and answer that are both truthy. *)
Definition worded_item (item : faq_item) : Prop :=
  truthy (question item) = true /\ truthy (answer item) = true.

(** Every cached entry is one the renderers can have produced. *)
Definition well_cached (s : page) : Prop :=
  Forall usable_item (globalPricingData s) /\ Forall worded_item (globalFaqData s).

(** What happens to a page: a function of the script runs up to its
    [await], a request settles and its function runs to the end, or a panel
    button is clicked. *)
Inductive event :=
| PricingRequested (token : string)
| PricingSettled (o : settled Direct.table_payload)
| FaqRequested (token : string)
| FaqSettled (o : settled Direct.table_payload)
| RatesRequested
| RatesSettled (o : settled Proxied.rates_payload)
| Clicked (id : string).

(** The page after an event. *)
Definition after (e : event) (s : page) : page :=
  match e with
  | PricingRequested token => fst (Direct.fetchPricing_start token s)
  | PricingSettled o => Direct.fetchPricing_resume o s
  | FaqRequested token => fst (Direct.fetchFAQ_start token s)
  | FaqSettled o => Direct.fetchFAQ_resume o s
  | RatesRequested => fst (Proxied.fetchData_start s)
  | RatesSettled o => Proxied.fetchData_resume o s
  | Clicked id => page_of (toggleAccordion id s)
  end.

(** The page after a sequence of events, in the order the event loop runs
    them. *)
Definition history (events : list event) (s : page) : page :=
  fold_left (fun s e => after e s) events s.

(** The content element of a panel as the template writes it, closed. *)
Definition closed_panel_with (answer : value) : element :=
  {| tagName := "div"; type := "";
     classList := ["hidden"; "bg-gray-50"; "p-4"; "border-t"; "border-gray-100";
                   "text-secondary"; "leading-relaxed"; "prose"; "max-w-none"];
     content := RichText answer |}.

(** The icon of a panel as the template writes it, not rotated. *)
Definition panel_icon : element :=
  {| tagName := "svg"; type := "";
     classList := ["w-5"; "h-5"; "text-primary"; "transform";
                   "transition-transform"; "duration-200"];
     content := Chevron |}.

(** The two variants of the script: the one that queries the tables itself
    and the one that asks the gateway. *)
Inductive variant := Querying | Asking.

(** The renderer of a kind in a variant, given the records of a successful
    fetch. *)
Definition rendered (v : variant) (k : kind) (records : list record) (s : page) : page :=
  match v with
  | Querying => direct_resume k (table_listing 200 records) s
  | Asking => proxied_render k (Some records) s
  end.

(** The classes a renderer takes off its container after a render. *)
Definition placeholder_classes (v : variant) (k : kind) : list string :=
  match k, v with
  | Pricing, Querying => ["h-64"; "flex"; "items-center"; "justify-center"]
  | Pricing, Asking => ["h-64"; "h-80"; "flex"; "items-center"; "justify-center"]
  | Faq, _ => ["min-h-[200px]"; "flex"; "items-center"; "justify-center"]
  end.

(** A class list without the given tokens, the others in their order. *)
Definition without (tokens : list string) (cl : list string) : list string :=
  List.filter (fun t => negb (contains t tokens)) cl.

(** The characters the price normalization removes. *)
Definition currency_mark (c : ascii) : bool := (Ascii.eqb c "$" || Ascii.eqb c ",")%bool.

(** A string with a [$] or a [,] in it. *)
Fixpoint has_currency_mark (s : string) : bool :=
  match s with
  | EmptyString => false
  | String c r => currency_mark c || has_currency_mark r
  end.

(** A record whose price counts in the summary. *)
Definition usable_record (r : record) : bool :=
  negb (unusable_price (field r "Current Price")).

(** The records of a table listing that can be read: the request is
    fulfilled with a success status and its body parses to a payload that
    has [records]. *)
Definition readable_listing (o : settled Direct.table_payload) : option (list record) :=
  match o with
  | Rejected _ => None
  | Fulfilled r =>
      if ok r then
        match body_json r with
        | inl _ => None
        | inr data => Direct.records data
        end
      else None
  end.

(** The payload of [/api/rates] that can be read. *)
Definition readable_rates (o : settled Proxied.rates_payload) : option Proxied.rates_payload :=
  match o with
  | Rejected _ => None
  | Fulfilled r =>
      if ok r then
        match body_json r with
        | inl _ => None
        | inr data => Some data
        end
      else None
  end.

(** The label under which a failed fetch of a kind is logged. *)
Definition fetch_error_label (k : kind) : string :=
  match k with
  | Pricing => "Pricing Fetch Error:"
  | Faq => "FAQ Fetch Error:"
  end.

(** The message of the error thrown for a non-success status. *)
Definition status_error_message (k : kind) : string :=
  match k with
  | Pricing => "Failed to fetch pricing"
  | Faq => "Failed to fetch FAQ"
  end.



(** What [showError] shows. *)
Definition unable_to_load : markup := ErrorBox "Unable to load current rates.".

(** U+00A0, the no-break space, in UTF-8. *)
Definition no_break_space : string := String "194" (String "160" EmptyString).

(** * Auxiliary facts *)

(** ** Publishing *)

Lemma injectJsonLd_publish (j : json) (scriptId : string) (s : page) :
  injectJsonLd j scriptId s = set_document (publish j scriptId (document s)) s.
Proof.
  unfold injectJsonLd, publish, getElementById. f_equal.
  destruct (document s !! scriptId) as [e|] eqn:He; simpl.
  - apply map_eq. intros k. rewrite lookup_alter, lookup_insert.
    case_decide; subst; [rewrite He|]; reflexivity.
  - rewrite alter_insert_eq. reflexivity.
Qed.

Lemma publish_publish (j j' : json) (id : string) (d : dom) :
  publish j id (publish j' id d) = publish j id d.
Proof.
  unfold publish. rewrite lookup_insert_eq, insert_insert_eq. reflexivity.
Qed.

Lemma publish_commute (j1 j2 : json) (id1 id2 : string) (d : dom) :
  id1 <> id2 -> publish j1 id1 (publish j2 id2 d) = publish j2 id2 (publish j1 id1 d).
Proof.
  intros Hne. unfold publish.
  rewrite !lookup_insert_ne by congruence.
  apply insert_insert_ne. congruence.
Qed.

Lemma publish_same (j : json) (id : string) (d : dom) :
  content <$> (d !! id) = Some (Text j) -> publish j id d = d.
Proof.
  intros H. unfold publish.
  destruct (d !! id) as [e|] eqn:He; [|discriminate].
  simpl in *. apply insert_id. rewrite He. f_equal.
  destruct e; simpl in *. unfold set_content; simpl. congruence.
Qed.

Lemma lookup_publish_eq (j : json) (id : string) (d : dom) :
  content <$> (publish j id d !! id) = Some (Text j).
Proof. unfold publish. rewrite lookup_insert_eq. reflexivity. Qed.

Lemma lookup_publish_ne (j : json) (id k : string) (d : dom) :
  id <> k -> publish j id d !! k = d !! k.
Proof. intros. unfold publish. apply lookup_insert_ne; done. Qed.

Lemma updateSchema_eq (a : option (list pricing_item)) (b : option (list faq_item)) (s : page) :
  updateSchema a b s =
    {| document :=
         publish_if (default (globalFaqData s) b)
           (faqSchema (default (globalFaqData s) b)) faq_id
           (publish_if (default (globalPricingData s) a)
              (offerSchema (default (globalPricingData s) a)) offer_id (document s));
       globalPricingData := default (globalPricingData s) a;
       globalFaqData := default (globalFaqData s) b;
       console := console s |}.
Proof.
  destruct s as [d P F c].
  unfold updateSchema, publish_if.
  destruct a as [p|], b as [f|];
    unfold set_globalPricingData, set_globalFaqData;
    cbn [from_option Datatypes.id globalPricingData globalFaqData document console];
    rewrite ?injectJsonLd_publish; unfold set_document;
    repeat match goal with
      | |- context [(0 <? length ?l)%nat] =>
          is_var l; destruct (0 <? length l)%nat;
          cbn [globalPricingData globalFaqData document console]
      end; reflexivity.
Qed.

(** ** Elements by id *)

Lemma decimal_head (n : Z) : digit_headed (decimal n) = true.
Proof.
  unfold decimal. destruct (N.to_uint (Z.to_N n)); reflexivity.
Qed.

Lemma panel_id_key (i : nat) :
  is_panel_key (panel_id i) = true /\ is_panel_key ("icon-" +:+ panel_id i) = true.
Proof.
  unfold panel_id. pose proof (decimal_head (Z.of_nat i)) as H.
  destruct (decimal (Z.of_nat i)) as [|c r]; [discriminate|].
  split; exact H.
Qed.

Lemma panels_elements_keys (panels : list faq_panel) (i : nat) (k : string) :
  In k (map fst (panels_elements i panels)) -> is_panel_key k = true.
Proof.
  revert i. induction panels as [|p rest IH]; intros i; simpl; [tauto|].
  intros [<-|[<-|H]]; [apply panel_id_key | apply panel_id_key | eauto].
Qed.

Lemma identified_elements_keys (m : markup) (k : string) :
  In k (map fst (identified_elements m)) -> is_panel_key k = true.
Proof.
  destruct m; simpl; try tauto. apply panels_elements_keys.
Qed.

Lemma lookup_detach_ne (ids : list string) (d : dom) (k : string) :
  ~ In k ids -> detach ids d !! k = d !! k.
Proof.
  induction ids as [|i ids IH]; simpl; [reflexivity|].
  intros H. rewrite lookup_delete_ne by tauto. apply IH. tauto.
Qed.

Lemma lookup_attach_ne (els : list (string * element)) (d : dom) (k : string) :
  ~ In k (map fst els) -> attach els d !! k = d !! k.
Proof.
  induction els as [|[i e] els IH]; simpl; [reflexivity|].
  intros H. rewrite lookup_insert_ne by tauto. apply IH. tauto.
Qed.

Lemma lookup_set_innerHTML_ne (id : string) (m : markup) (d : dom) (k : string) :
  k <> id -> is_panel_key k = false -> set_innerHTML id m d !! k = d !! k.
Proof.
  intros Hne Hk. unfold set_innerHTML.
  destruct (d !! id) as [e|]; [|reflexivity].
  rewrite lookup_insert_ne by congruence.
  rewrite lookup_attach_ne, lookup_detach_ne; [reflexivity| |];
    intros Hin; apply identified_elements_keys in Hin; congruence.
Qed.

Lemma lookup_set_innerHTML_eq (id : string) (m : markup) (d : dom) (e : element) :
  d !! id = Some e -> set_innerHTML id m d !! id = Some (set_content m e).
Proof.
  intros H. unfold set_innerHTML. rewrite H. apply lookup_insert_eq.
Qed.

(** ** The publisher *)

Lemma publish_if_idem {A : Type} (l : list A) (j : json) (id : string) (d : dom) :
  publish_if l j id (publish_if l j id d) = publish_if l j id d.
Proof.
  unfold publish_if. destruct (0 <? length l)%nat; [apply publish_publish | reflexivity].
Qed.

Lemma publish_if_commute {A B : Type} (l1 : list A) (l2 : list B) (j1 j2 : json)
    (id1 id2 : string) (d : dom) :
  id1 <> id2 ->
  publish_if l1 j1 id1 (publish_if l2 j2 id2 d)
  = publish_if l2 j2 id2 (publish_if l1 j1 id1 d).
Proof.
  intros Hne. unfold publish_if.
  destruct (0 <? length l1)%nat, (0 <? length l2)%nat; try reflexivity.
  apply publish_commute, Hne.
Qed.

Lemma publish_absorb {A : Type} (l : list A) (j j' : json) (id : string) (d : dom) :
  publish j id (publish_if l j' id d) = publish j id d.
Proof.
  unfold publish_if. destruct (0 <? length l)%nat; [apply publish_publish | reflexivity].
Qed.

Lemma publish_if_nonempty {A : Type} (l : list A) (j : json) (id : string) (d : dom) :
  l <> [] -> publish_if l j id d = publish j id d.
Proof. intros H. unfold publish_if. destruct l; [congruence | reflexivity]. Qed.

Lemma publish_if_empty {A : Type} (j : json) (id : string) (d : dom) :
  publish_if (@nil A) j id d = d.
Proof. reflexivity. Qed.

Lemma lookup_publish_if_ne {A : Type} (l : list A) (j : json) (id k : string) (d : dom) :
  id <> k -> publish_if l j id d !! k = d !! k.
Proof.
  intros H. unfold publish_if. destruct (0 <? length l)%nat; [|reflexivity].
  apply lookup_publish_ne, H.
Qed.

Lemma publish_if_synced {A : Type} (l : list A) (j : json) (id : string) (d : dom) :
  (l <> [] -> content <$> (d !! id) = Some (Text j)) -> publish_if l j id d = d.
Proof.
  intros H. destruct l as [|x l]; [reflexivity|].
  rewrite publish_if_nonempty by discriminate.
  apply publish_same, H. discriminate.
Qed.

Lemma offer_faq_ids : offer_id <> faq_id.
Proof. discriminate. Qed.

Lemma updateSchema_synced (a : option (list pricing_item)) (b : option (list faq_item))
    (s : page) :
  synced (updateSchema a b s).
Proof.
  rewrite updateSchema_eq. unfold synced, published.
  cbn [document globalPricingData globalFaqData].
  split; intros H.
  - rewrite lookup_publish_if_ne by (symmetry; apply offer_faq_ids).
    rewrite publish_if_nonempty by exact H. apply lookup_publish_eq.
  - rewrite publish_if_nonempty by exact H. apply lookup_publish_eq.
Qed.

Lemma no_NaN_among_finite (qs : list Q) :
  existsb number_isNaN (map ToNumber (map price (map priced_at qs))) = false.
Proof. induction qs as [|q qs IH]; simpl; [reflexivity | exact IH]. Qed.

Lemma coerced_finite (qs : list Q) :
  map ToNumber (map price (map priced_at qs)) = map Finite qs.
Proof. induction qs as [|q qs IH]; simpl; [reflexivity | f_equal; exact IH]. Qed.

Lemma lowest_from (qs : list Q) (a : Q) :
  exists lo,
    fold_left (fun lowest x => if number_ltb x lowest then x else lowest)
              (map Finite qs) (Finite a) = Finite lo
    /\ (lo = a \/ In lo qs)
    /\ (lo <= a)%Q
    /\ (forall q, In q qs -> (lo <= q)%Q).
Proof.
  revert a. induction qs as [|x qs IH]; intros a; simpl.
  - exists a. repeat split; [left; reflexivity | apply Qle_refl | intros q []].
  - destruct (Qle_bool a x) eqn:E; simpl.
    + apply Qle_bool_iff in E.
      destruct (IH a) as (lo & Hf & Hin & Hle & Hall).
      exists lo. repeat split; [exact Hf | simpl; intuition congruence | exact Hle |].
      intros q [<-|Hq]; [eapply Qle_trans; eassumption | auto].
    + assert (Hlt : (x < a)%Q).
      { apply Qnot_le_lt. intros Hle. apply Qle_bool_iff in Hle. congruence. }
      destruct (IH x) as (lo & Hf & Hin & Hle & Hall).
      exists lo. repeat split; [exact Hf | simpl; intuition congruence | |].
      * eapply Qle_trans; [exact Hle | apply Qlt_le_weak, Hlt].
      * intros q [<-|Hq]; [exact Hle | auto].
Qed.

Lemma highest_from (qs : list Q) (a : Q) :
  exists hi,
    fold_left (fun highest x => if number_ltb highest x then x else highest)
              (map Finite qs) (Finite a) = Finite hi
    /\ (hi = a \/ In hi qs)
    /\ (a <= hi)%Q
    /\ (forall q, In q qs -> (q <= hi)%Q).
Proof.
  revert a. induction qs as [|x qs IH]; intros a; simpl.
  - exists a. repeat split; [left; reflexivity | apply Qle_refl | intros q []].
  - destruct (Qle_bool x a) eqn:E; simpl.
    + apply Qle_bool_iff in E.
      destruct (IH a) as (hi & Hf & Hin & Hle & Hall).
      exists hi. repeat split; [exact Hf | simpl; intuition congruence | exact Hle |].
      intros q [<-|Hq]; [eapply Qle_trans; eassumption | auto].
    + assert (Hlt : (a < x)%Q).
      { apply Qnot_le_lt. intros Hle. apply Qle_bool_iff in Hle. congruence. }
      destruct (IH x) as (hi & Hf & Hin & Hle & Hall).
      exists hi. repeat split; [exact Hf | simpl; intuition congruence | |].
      * eapply Qle_trans; [apply Qlt_le_weak, Hlt | exact Hle].
      * intros q [<-|Hq]; [exact Hle | auto].
Qed.

Lemma Math_min_finite (qs : list Q) :
  qs <> [] ->
  exists lo, Math_min (map price (map priced_at qs)) = Finite lo
             /\ In lo qs /\ forall q, In q qs -> (lo <= q)%Q.
Proof.
  intros Hne. unfold Math_min. rewrite no_NaN_among_finite, coerced_finite.
  destruct qs as [|x qs]; [congruence|]. simpl.
  destruct (lowest_from qs x) as (lo & Hf & Hin & Hle & Hall).
  exists lo. split; [exact Hf|]. split; [simpl; intuition congruence|].
  intros q [<-|Hq]; [exact Hle | auto].
Qed.

Lemma Math_max_finite (qs : list Q) :
  qs <> [] ->
  exists hi, Math_max (map price (map priced_at qs)) = Finite hi
             /\ In hi qs /\ forall q, In q qs -> (q <= hi)%Q.
Proof.
  intros Hne. unfold Math_max. rewrite no_NaN_among_finite, coerced_finite.
  destruct qs as [|x qs]; [congruence|]. simpl.
  destruct (highest_from qs x) as (hi & Hf & Hin & Hle & Hall).
  exists hi. split; [exact Hf|]. split; [simpl; intuition congruence|].
  intros q [<-|Hq]; [exact Hle | auto].
Qed.

Lemma published_offer_after_update (a : option (list pricing_item))
    (b : option (list faq_item)) (s : page) :
  globalPricingData (updateSchema a b s) <> [] ->
  published offer_id (updateSchema a b s)
  = Some (Text (offerSchema (globalPricingData (updateSchema a b s)))).
Proof. intros H. apply (updateSchema_synced a b s), H. Qed.

(** ** Rendering *)

Lemma lookup_updateSchema_ne (a : option (list pricing_item)) (b : option (list faq_item))
    (s : page) (k : string) :
  k <> offer_id -> k <> faq_id ->
  document (updateSchema a b s) !! k = document s !! k.
Proof.
  intros Ho Hf. rewrite updateSchema_eq. cbn [document].
  rewrite !lookup_publish_if_ne by congruence. reflexivity.
Qed.

Lemma lookup_classList_update_ne (f : list string -> list string) (id k : string) (s : page) :
  k <> id -> document (classList_update f id s) !! k = document s !! k.
Proof.
  intros H. unfold classList_update, set_document. cbn [document].
  apply lookup_alter_ne. congruence.
Qed.

Lemma published_classList_update (f : list string -> list string) (id k : string) (s : page) :
  published k (classList_update f id s) = published k s.
Proof.
  unfold published, classList_update, set_document. cbn [document].
  rewrite lookup_alter. case_decide; [subst|reflexivity].
  destruct (document s !! k); reflexivity.
Qed.

Lemma notice_shown (container : string) (m : markup) (s : page) :
  is_Some (document s !! container) ->
  container <> offer_id -> container <> faq_id ->
  notice_only container m s (set_document (set_innerHTML container m (document s)) s).
Proof.
  intros [e He] Ho Hf. unfold notice_only, published, set_document.
  cbn [document globalPricingData globalFaqData].
  repeat split.
  - rewrite (lookup_set_innerHTML_eq _ _ _ e He). reflexivity.
  - apply lookup_set_innerHTML_ne; [congruence | reflexivity].
  - apply lookup_set_innerHTML_ne; [congruence | reflexivity].
Qed.

Lemma digit_is_plain (c : ascii) :
  is_digit c = true ->
  (Ascii.eqb c "$" || Ascii.eqb c ",")%bool = false
  /\ is_white_space c = false
  /\ (forall r, str_decimal_literal (String c r) = str_unsigned_decimal_literal (String c r))
  /\ (forall r, strip_prefix "Infinity" (String c r) = None).
Proof.
  intros H.
  destruct c as [[] [] [] [] [] [] [] []]; try (cbv in H; discriminate H);
    repeat split; reflexivity.
Qed.

Lemma trim_start_digit (c : ascii) (r : string) :
  is_digit c = true -> trim_start (String c r) = String c r.
Proof.
  intros H.
  destruct c as [[] [] [] [] [] [] [] []]; try (cbv in H; discriminate H);
    destruct r as [|c1 [|c2 r2]]; reflexivity.
Qed.

Lemma strip_currency_digits (s : string) (ds : list Z) :
  currency_digits s = Some ds -> span_digits (strip_currency s) = (ds, "").
Proof.
  revert ds. induction s as [|c r IH]; intros ds; simpl.
  - intros [= <-]. reflexivity.
  - destruct (is_digit c) eqn:Hd.
    + destruct (digit_is_plain c Hd) as (-> & _).
      destruct (currency_digits r) as [ds'|]; [|discriminate].
      intros [= <-]. simpl. rewrite Hd, (IH ds' eq_refl). reflexivity.
    + destruct (Ascii.eqb c "$" || Ascii.eqb c ",")%bool; [apply IH | discriminate].
Qed.

Lemma parseFloat_digits (t : string) (ds : list Z) :
  span_digits t = (ds, "") -> ds <> [] ->
  parseFloat t = Finite (inject_Z (digits_value ds)).
Proof.
  intros Hspan Hne. destruct t as [|c r].
  - simpl in Hspan. congruence.
  - assert (Hd : is_digit c = true).
    { simpl in Hspan. destruct (is_digit c); [reflexivity|]. congruence. }
    destruct (digit_is_plain c Hd) as (_ & Hws & Hlit & Hinf).
    unfold parseFloat. rewrite (trim_start_digit c r Hd), Hlit.
    unfold str_unsigned_decimal_literal. rewrite Hinf, Hspan.
    destruct ds as [|d ds]; [congruence|].
    cbn [exponent_part length]. rewrite app_nil_r.
    unfold scale10. cbn [Z.of_nat Z.sub Z.opp Z.add Z.leb Z.compare Z.pow Z.pow_pos].
    simpl (0 <=? 0 - 0). cbv iota.
    unfold inject_Z. do 2 f_equal. simpl (10 ^ (0 - 0)). apply Z.mul_1_r.
Qed.

Lemma kept_pricing_item_of (r : record) :
  kept (pricing_item_of r) = negb (unusable_price (field r "Current Price")).
Proof.
  unfold kept, pricing_item_of, unusable_price, isNaN.
  destruct (field r "Current Price") as [| |x|s]; simpl; try reflexivity.
  - destruct x; reflexivity.
  - apply andb_true_r.
Qed.

Lemma pricingData_of_cons (r : record) (rs : list record) :
  pricingData_of (r :: rs)
  = if unusable_price (field r "Current Price") then pricingData_of rs
    else pricing_item_of r :: pricingData_of rs.
Proof.
  unfold pricingData_of. simpl. rewrite kept_pricing_item_of.
  destruct (unusable_price (field r "Current Price")); reflexivity.
Qed.

Lemma pricingData_of_app (rs1 rs2 : list record) :
  pricingData_of (rs1 ++ rs2) = pricingData_of rs1 ++ pricingData_of rs2.
Proof.
  unfold pricingData_of. rewrite map_app. apply List.filter_app.
Qed.

Lemma pricingData_of_unusable (records : list record) :
  Forall (fun r => unusable_price (field r "Current Price") = true) records ->
  pricingData_of records = [].
Proof.
  induction 1 as [|r rs Hr _ IH]; [reflexivity|].
  rewrite pricingData_of_cons, Hr. exact IH.
Qed.

Lemma price_text_absent (r : record) :
  absent_price (field r "Current Price") = true ->
  price_text (pricing_row_of r) = "Call for pricing".
Proof.
  unfold pricing_row_of. cbn [price_text].
  destruct (field r "Current Price") as [| |x|s]; simpl; try reflexivity; try discriminate.
  intros H. rewrite H. reflexivity.
Qed.

Lemma absent_price_unusable (v : value) :
  absent_price v = true -> unusable_price v = true.
Proof.
  destruct v as [| |x|s]; simpl; try reflexivity; try discriminate.
  intros H. apply String.eqb_eq in H. subst. reflexivity.
Qed.

Lemma pricing_rendered (records : list record) (s s' : page) (code : Z) :
  records <> [] ->
  is_Some (document s !! pricingContainer) ->
  s' = direct_resume Pricing (table_listing code records) s
  \/ s' = proxied_render Pricing (Some records) s ->
  exists shown,
    s' = updateSchema (Some (pricingData_of records)) None shown
    /\ published pricingContainer shown = Some (PricingTable (map pricing_row_of records))
    /\ document shown !! offer_id = document s !! offer_id
    /\ document shown !! faq_id = document s !! faq_id
    /\ globalFaqData shown = globalFaqData s
    /\ globalPricingData shown = globalPricingData s.
Proof.
  intros Hne [e He] Hs'.
  destruct records as [|r rs]; [congruence|].
  destruct Hs' as [-> | ->];
    cbn [direct_resume proxied_render table_listing];
    unfold Direct.fetchPricing_resume, Proxied.renderPricing, getElementById;
    cbn [ok body_json Direct.records negb length Nat.eqb]; rewrite ?He;
    eexists; (split; [reflexivity|]);
    rewrite ?published_classList_update;
    rewrite ?lookup_classList_update_ne by discriminate;
    unfold published, set_document, classList_update;
    cbn [document globalFaqData globalPricingData];
    rewrite (lookup_set_innerHTML_eq _ _ _ e He);
    rewrite !lookup_set_innerHTML_ne by (discriminate || reflexivity);
    repeat split; reflexivity.
Qed.

Lemma after_pricing_update (items : list pricing_item) (shown : page) :
  globalPricingData (updateSchema (Some items) None shown) = items
  /\ published pricingContainer (updateSchema (Some items) None shown)
     = published pricingContainer shown
  /\ (items = [] ->
      document (updateSchema (Some items) None shown) !! offer_id
      = document shown !! offer_id).
Proof.
  split; [rewrite updateSchema_eq; reflexivity|]. split.
  - unfold published. rewrite lookup_updateSchema_ne by discriminate. reflexivity.
  - intros ->. rewrite updateSchema_eq. cbn [document from_option Datatypes.id].
    rewrite publish_if_empty. apply lookup_publish_if_ne. discriminate.
Qed.

(** ** Class lists and the accordion *)

Lemma contains_app (t : string) (l1 l2 : list string) :
  contains t (l1 ++ l2) = (contains t l1 || contains t l2)%bool.
Proof. unfold contains. apply existsb_app. Qed.

Lemma contains_remove (t u : string) (l : list string) :
  contains u (remove t l) = (negb (String.eqb t u) && contains u l)%bool.
Proof.
  unfold contains, remove. induction l as [|x l IH]; simpl.
  - symmetry. apply andb_false_r.
  - destruct (String.eqb t x) eqn:Etx; simpl.
    + rewrite IH. apply String.eqb_eq in Etx. subst x.
      rewrite (String.eqb_sym u t). destruct (String.eqb t u); reflexivity.
    + rewrite IH. destruct (String.eqb u x) eqn:Eux; simpl.
      * apply String.eqb_eq in Eux. subst x. rewrite Etx. reflexivity.
      * reflexivity.
Qed.

Lemma contains_add (t u : string) (l : list string) :
  contains u (add t l) = (String.eqb t u || contains u l)%bool.
Proof.
  unfold add. destruct (contains t l) eqn:E.
  - destruct (String.eqb t u) eqn:Etu; [|reflexivity].
    apply String.eqb_eq in Etu. subst. exact E.
  - rewrite contains_app. simpl. rewrite (String.eqb_sym u t).
    destruct (String.eqb t u), (contains u l); reflexivity.
Qed.

Lemma remove_absent (t : string) (l : list string) :
  contains t l = false -> remove t l = l.
Proof.
  unfold contains, remove. induction l as [|x l IH]; simpl; [reflexivity|].
  intros H. apply orb_false_iff in H. destruct H as [Hx Hl].
  rewrite Hx. simpl. f_equal. apply IH, Hl.
Qed.

Lemma remove_add_absent (t : string) (l : list string) :
  contains t l = false -> remove t (add t l) = l.
Proof.
  intros H. unfold add. rewrite H. unfold remove.
  rewrite List.filter_app. simpl. rewrite String.eqb_refl. simpl.
  rewrite app_nil_r. apply remove_absent, H.
Qed.

Lemma same_tokens_add_remove (t : string) (l : list string) :
  contains t l = true -> forall u, contains u (add t (remove t l)) = contains u l.
Proof.
  intros H u. rewrite contains_add, contains_remove.
  destruct (String.eqb t u) eqn:E; simpl; [|reflexivity].
  apply String.eqb_eq in E. subst. symmetry. exact H.
Qed.

Lemma icon_id_differs (id : string) : "icon-" +:+ id <> id.
Proof.
  intros H. apply (f_equal String.length) in H.
  change ("icon-" +:+ id)
    with (String "i" (String "c" (String "o" (String "n" (String "-" id))))) in H.
  simpl in H. lia.
Qed.

Lemma lookup_classList_update_eq (f : list string -> list string) (id : string) (s : page) :
  document (classList_update f id s) !! id
  = (fun e => set_classList (f (classList e)) e) <$> (document s !! id).
Proof.
  unfold classList_update, set_document. cbn [document]. apply lookup_alter_eq.
Qed.

Lemma set_classList_same (e : element) : set_classList (classList e) e = e.
Proof. destruct e; reflexivity. Qed.

Lemma toggle_hidden (id : string) (s : page) (c i : element) :
  document s !! id = Some c ->
  document s !! ("icon-" +:+ id) = Some i ->
  contains "hidden" (classList c) = true ->
  toggleAccordion id s
  = Normal (classList_update (add "rotate-180") ("icon-" +:+ id)
              (classList_update (remove "hidden") id s)).
Proof.
  intros Hc Hi Hh. unfold toggleAccordion, getElementById. rewrite Hc, Hh.
  rewrite lookup_classList_update_ne by apply icon_id_differs.
  rewrite Hi. reflexivity.
Qed.

Lemma toggle_shown (id : string) (s : page) (c i : element) :
  document s !! id = Some c ->
  document s !! ("icon-" +:+ id) = Some i ->
  contains "hidden" (classList c) = false ->
  toggleAccordion id s
  = Normal (classList_update (remove "rotate-180") ("icon-" +:+ id)
              (classList_update (add "hidden") id s)).
Proof.
  intros Hc Hi Hh. unfold toggleAccordion, getElementById. rewrite Hc, Hh.
  rewrite lookup_classList_update_ne by apply icon_id_differs.
  rewrite Hi. reflexivity.
Qed.

Lemma after_toggle_step (f g : list string -> list string) (id : string) (s : page)
    (c i : element) :
  document s !! id = Some c ->
  document s !! ("icon-" +:+ id) = Some i ->
  let s' := classList_update g ("icon-" +:+ id) (classList_update f id s) in
  document s' !! id = Some (set_classList (f (classList c)) c)
  /\ document s' !! ("icon-" +:+ id) = Some (set_classList (g (classList i)) i)
  /\ (forall k, k <> id -> k <> "icon-" +:+ id -> document s' !! k = document s !! k)
  /\ globalPricingData s' = globalPricingData s
  /\ globalFaqData s' = globalFaqData s
  /\ (forall k, published k s' = published k s).
Proof.
  intros Hc Hi s'. subst s'.
  pose proof (icon_id_differs id) as Hne.
  repeat split.
  - rewrite lookup_classList_update_ne by congruence.
    rewrite lookup_classList_update_eq, Hc. reflexivity.
  - rewrite lookup_classList_update_eq.
    rewrite lookup_classList_update_ne by exact Hne.
    rewrite Hi. reflexivity.
  - intros k Hk Hk'. rewrite !lookup_classList_update_ne by assumption. reflexivity.
  - intros k. rewrite !published_classList_update. reflexivity.
Qed.

Lemma toggle_presentation_only (id : string) (s : page) :
  globalPricingData (page_of (toggleAccordion id s)) = globalPricingData s
  /\ globalFaqData (page_of (toggleAccordion id s)) = globalFaqData s
  /\ forall k, published k (page_of (toggleAccordion id s)) = published k s.
Proof.
  unfold toggleAccordion, getElementById.
  destruct (document s !! id) as [c|]; [|repeat split; reflexivity].
  destruct (contains "hidden" (classList c));
    match goal with
    | |- context [document ?s' !! ("icon-" +:+ id)] =>
        destruct (document s' !! ("icon-" +:+ id))
    end; cbn [page_of]; repeat split;
    intros; rewrite ?published_classList_update; reflexivity.
Qed.

Lemma set_classList_twice (a b : list string) (e : element) :
  set_classList a (set_classList b e) = set_classList a e.
Proof. reflexivity. Qed.

Lemma classList_set_classList (a : list string) (e : element) :
  classList (set_classList a e) = a.
Proof. reflexivity. Qed.

(** ** Pages that agree *)

Lemma detach_agree (ids : list string) (d1 d2 : dom) (k : string) :
  d1 !! k = d2 !! k -> detach ids d1 !! k = detach ids d2 !! k.
Proof.
  intros H. induction ids as [|i ids IH]; simpl; [exact H|].
  rewrite !lookup_delete. case_decide; [reflexivity | exact IH].
Qed.

Lemma attach_agree (els : list (string * element)) (d1 d2 : dom) (k : string) :
  d1 !! k = d2 !! k -> attach els d1 !! k = attach els d2 !! k.
Proof.
  intros H. induction els as [|[i e] els IH]; simpl; [exact H|].
  rewrite !lookup_insert. case_decide; [reflexivity | exact IH].
Qed.

Lemma set_innerHTML_agree (id : string) (m : markup) (d1 d2 : dom) (k : string) :
  d1 !! id = d2 !! id -> d1 !! k = d2 !! k ->
  set_innerHTML id m d1 !! k = set_innerHTML id m d2 !! k.
Proof.
  intros Hid Hk. unfold set_innerHTML. rewrite <- Hid.
  destruct (d1 !! id) as [e|]; [|exact Hk].
  rewrite !lookup_insert. case_decide; [reflexivity|].
  apply attach_agree, detach_agree, Hk.
Qed.

Lemma alter_agree (f : element -> element) (id : string) (d1 d2 : dom) (k : string) :
  d1 !! k = d2 !! k -> alter f id d1 !! k = alter f id d2 !! k.
Proof.
  intros H. rewrite !lookup_alter. case_decide; [subst; rewrite H; reflexivity | exact H].
Qed.

Lemma publish_agree (j : json) (id : string) (d1 d2 : dom) (k : string) :
  d1 !! id = d2 !! id -> d1 !! k = d2 !! k ->
  publish j id d1 !! k = publish j id d2 !! k.
Proof.
  intros Hid Hk. unfold publish. rewrite !lookup_insert, Hid.
  case_decide; [reflexivity | exact Hk].
Qed.

Lemma publish_if_agree {A : Type} (l : list A) (j : json) (id : string) (d1 d2 : dom)
    (k : string) :
  d1 !! id = d2 !! id -> d1 !! k = d2 !! k ->
  publish_if l j id d1 !! k = publish_if l j id d2 !! k.
Proof.
  intros Hid Hk. unfold publish_if.
  destruct (0 <? length l)%nat; [apply publish_agree; assumption | exact Hk].
Qed.

Section Agreement.

Variable own : string -> Prop.

Lemma shown_agree (id : string) (m : markup) (s1 s2 : page) :
  ~ own id -> agree_outside own s1 s2 ->
  agree_outside own (set_document (set_innerHTML id m (document s1)) s1)
                    (set_document (set_innerHTML id m (document s2)) s2).
Proof.
  intros Hid (HP & HF & Hd). unfold agree_outside, set_document.
  cbn [document globalPricingData globalFaqData].
  split; [exact HP|]. split; [exact HF|].
  intros k Hk. apply set_innerHTML_agree; auto.
Qed.

Lemma classList_update_agree (f : list string -> list string) (id : string) (s1 s2 : page) :
  agree_outside own s1 s2 ->
  agree_outside own (classList_update f id s1) (classList_update f id s2).
Proof.
  intros (HP & HF & Hd). unfold agree_outside, classList_update, set_document.
  cbn [document globalPricingData globalFaqData].
  split; [exact HP|]. split; [exact HF|].
  intros k Hk. apply alter_agree; auto.
Qed.

Lemma console_error_agree (label : string) (e : error) (s1 s2 : page) :
  agree_outside own s1 s2 ->
  agree_outside own (console_error label e s1) (console_error label e s2).
Proof. intros H. exact H. Qed.

Lemma updateSchema_agree (a : option (list pricing_item)) (b : option (list faq_item))
    (s1 s2 : page) :
  ~ own offer_id -> ~ own faq_id ->
  agree_outside own s1 s2 ->
  agree_outside own (updateSchema a b s1) (updateSchema a b s2).
Proof.
  intros Ho Hf (HP & HF & Hd). rewrite !updateSchema_eq. unfold agree_outside.
  cbn [document globalPricingData globalFaqData]. rewrite HP, HF.
  split; [reflexivity|]. split; [reflexivity|].
  intros k Hk.
  apply publish_if_agree; [|apply publish_if_agree; auto].
  rewrite !lookup_publish_if_ne by discriminate. auto.
Qed.

Lemma fetchPricing_resume_agree (o : settled Direct.table_payload) (s1 s2 : page) :
  ~ own pricingContainer -> ~ own offer_id -> ~ own faq_id ->
  agree_outside own s1 s2 ->
  agree_outside own (Direct.fetchPricing_resume o s1) (Direct.fetchPricing_resume o s2).
Proof.
  intros Hc Ho Hf H. unfold Direct.fetchPricing_resume, Direct.showError.
  destruct o as [reason|response];
    [apply shown_agree; [exact Hc | apply console_error_agree, H]|].
  destruct (negb (ok response));
    [apply shown_agree; [exact Hc | apply console_error_agree, H]|].
  destruct (body_json response) as [reason|data];
    [apply shown_agree; [exact Hc | apply console_error_agree, H]|].
  destruct (Direct.records data) as [records|];
    [|apply shown_agree; [exact Hc | apply console_error_agree, H]].
  destruct (length records =? 0)%nat; [apply shown_agree; assumption|].
  apply updateSchema_agree; [exact Ho | exact Hf|].
  apply classList_update_agree, shown_agree; assumption.
Qed.

Lemma fetchFAQ_resume_agree (o : settled Direct.table_payload) (s1 s2 : page) :
  ~ own faqContainer -> ~ own offer_id -> ~ own faq_id ->
  agree_outside own s1 s2 ->
  agree_outside own (Direct.fetchFAQ_resume o s1) (Direct.fetchFAQ_resume o s2).
Proof.
  intros Hc Ho Hf H. unfold Direct.fetchFAQ_resume, Direct.showError.
  destruct o as [reason|response];
    [apply shown_agree; [exact Hc | apply console_error_agree, H]|].
  destruct (negb (ok response));
    [apply shown_agree; [exact Hc | apply console_error_agree, H]|].
  destruct (body_json response) as [reason|data];
    [apply shown_agree; [exact Hc | apply console_error_agree, H]|].
  destruct (Direct.records data) as [records|];
    [|apply shown_agree; [exact Hc | apply console_error_agree, H]].
  destruct (length records =? 0)%nat; [apply shown_agree; assumption|].
  apply updateSchema_agree; [exact Ho | exact Hf|].
  apply classList_update_agree, shown_agree; assumption.
Qed.

End Agreement.

Lemma lookup_set_innerHTML_plain (id : string) (m : markup) (d : dom) (k : string) :
  k <> id ->
  (forall e, d !! id = Some e -> identified_elements (content e) = []) ->
  identified_elements m = [] ->
  set_innerHTML id m d !! k = d !! k.
Proof.
  intros Hk Hold Hm. unfold set_innerHTML.
  destruct (d !! id) as [e|] eqn:He; [|reflexivity].
  rewrite lookup_insert_ne by congruence.
  rewrite Hm, (Hold e eq_refl). reflexivity.
Qed.

Lemma not_panel_key (k : string) : is_panel_key k <> true -> is_panel_key k = false.
Proof. destruct (is_panel_key k); congruence. Qed.

Lemma failed_inv {B : Type} (o : settled B) :
  failed o = true ->
  (exists reason, o = Rejected reason) \/ (exists r, o = Fulfilled r /\ ok r = false).
Proof.
  destruct o as [reason|r]; simpl; intros H; [left; eauto|].
  right. exists r. split; [reflexivity|]. destruct (ok r); [discriminate | reflexivity].
Qed.

Lemma fetchPricing_resume_failed (o : settled Direct.table_payload) (s : page) :
  failed o = true ->
  exists e,
    Direct.fetchPricing_resume o s
    = Direct.showError pricingContainer (console_error "Pricing Fetch Error:" e s).
Proof.
  intros H. destruct (failed_inv o H) as [[reason ->]|(r & -> & Hok)];
    unfold Direct.fetchPricing_resume; rewrite ?Hok; eexists; reflexivity.
Qed.

Lemma fetchFAQ_resume_failed (o : settled Direct.table_payload) (s : page) :
  failed o = true ->
  exists e,
    Direct.fetchFAQ_resume o s
    = Direct.showError faqContainer (console_error "FAQ Fetch Error:" e s).
Proof.
  intros H. destruct (failed_inv o H) as [[reason ->]|(r & -> & Hok)];
    unfold Direct.fetchFAQ_resume; rewrite ?Hok; eexists; reflexivity.
Qed.

Lemma failed_pricing_frame (o : settled Direct.table_payload) (s : page) :
  failed o = true ->
  holds_no_panel pricingContainer s ->
  agree_outside pricing_own (Direct.fetchPricing_resume o s) s.
Proof.
  intros H Hplain. destruct (fetchPricing_resume_failed o s H) as [e ->].
  unfold agree_outside, Direct.showError, set_document, console_error.
  cbn [document globalPricingData globalFaqData].
  split; [reflexivity|]. split; [reflexivity|].
  intros k Hk. apply lookup_set_innerHTML_plain; [exact Hk | exact Hplain | reflexivity].
Qed.

Lemma failed_faq_frame (o : settled Direct.table_payload) (s : page) :
  failed o = true ->
  agree_outside faq_own (Direct.fetchFAQ_resume o s) s.
Proof.
  intros H. destruct (fetchFAQ_resume_failed o s H) as [e ->].
  unfold agree_outside, Direct.showError, set_document, console_error.
  cbn [document globalPricingData globalFaqData].
  split; [reflexivity|]. split; [reflexivity|].
  intros k Hk. unfold faq_own in Hk.
  apply lookup_set_innerHTML_ne; [tauto | apply not_panel_key; tauto].
Qed.

Lemma fetchFAQ_resume_elsewhere (o : settled Direct.table_payload) (s : page) (k : string) :
  k <> faqContainer -> is_panel_key k = false -> k <> offer_id -> k <> faq_id ->
  document (Direct.fetchFAQ_resume o s) !! k = document s !! k.
Proof.
  intros Hc Hp Ho Hf.
  assert (Herr : forall e,
             document (Direct.showError faqContainer
                         (console_error "FAQ Fetch Error:" e s)) !! k
             = document s !! k).
  { intros e. unfold Direct.showError, set_document, console_error. cbn [document].
    apply lookup_set_innerHTML_ne; assumption. }
  unfold Direct.fetchFAQ_resume.
  destruct o as [reason|response]; [apply Herr|].
  destruct (negb (ok response)); [apply Herr|].
  destruct (body_json response) as [reason|data]; [apply Herr|].
  destruct (Direct.records data) as [records|]; [|apply Herr].
  destruct (length records =? 0)%nat.
  - unfold set_document. cbn [document]. apply lookup_set_innerHTML_ne; assumption.
  - rewrite lookup_updateSchema_ne by assumption.
    rewrite lookup_classList_update_ne by assumption.
    unfold set_document. cbn [document]. apply lookup_set_innerHTML_ne; assumption.
Qed.

Lemma fetchData_resume_failed (r : http_response Proxied.rates_payload) (s : page)
    (p f : element) :
  ok r = false ->
  document s !! pricingContainer = Some p ->
  document s !! faqContainer = Some f ->
  published pricingContainer (Proxied.fetchData_resume (Fulfilled r) s)
  = Some (ErrorBox "Unable to load current rates.")
  /\ published faqContainer (Proxied.fetchData_resume (Fulfilled r) s)
     = Some (ErrorBox "Unable to load current rates.").
Proof.
  intros Hok Hp Hf. unfold Proxied.fetchData_resume. rewrite Hok. cbn [negb].
  unfold published, Proxied.showError, set_document, console_error.
  cbn [document from_option Datatypes.id].
  split.
  - rewrite lookup_set_innerHTML_ne by (discriminate || reflexivity).
    rewrite (lookup_set_innerHTML_eq _ _ _ p Hp). reflexivity.
  - erewrite lookup_set_innerHTML_eq; [reflexivity|].
    rewrite lookup_set_innerHTML_ne by (discriminate || reflexivity). exact Hf.
Qed.

Section Documents.

Variable own : string -> Prop.
Hypothesis own_offer : own offer_id.
Hypothesis own_faq : own faq_id.

Lemma shown_docs (id : string) (m : markup) (s1 s2 : page) :
  ~ own id -> agree_docs own s1 s2 ->
  agree_docs own (set_document (set_innerHTML id m (document s1)) s1)
                 (set_document (set_innerHTML id m (document s2)) s2).
Proof.
  intros Hid H k Hk. unfold set_document. cbn [document].
  apply set_innerHTML_agree; auto.
Qed.

Lemma classList_update_docs (f : list string -> list string) (id : string) (s1 s2 : page) :
  agree_docs own s1 s2 ->
  agree_docs own (classList_update f id s1) (classList_update f id s2).
Proof.
  intros H k Hk. unfold classList_update, set_document. cbn [document].
  apply alter_agree; auto.
Qed.

Lemma updateSchema_docs (a1 a2 : option (list pricing_item))
    (b1 b2 : option (list faq_item)) (s1 s2 : page) :
  agree_docs own s1 s2 ->
  agree_docs own (updateSchema a1 b1 s1) (updateSchema a2 b2 s2).
Proof.
  intros H k Hk.
  rewrite !lookup_updateSchema_ne by (intros ->; tauto). auto.
Qed.

Lemma fetchPricing_resume_docs (o : settled Direct.table_payload) (s1 s2 : page) :
  ~ own pricingContainer -> agree_docs own s1 s2 ->
  agree_docs own (Direct.fetchPricing_resume o s1) (Direct.fetchPricing_resume o s2).
Proof.
  intros Hc H. unfold Direct.fetchPricing_resume, Direct.showError.
  destruct o as [reason|response]; [apply shown_docs; assumption|].
  destruct (negb (ok response)); [apply shown_docs; assumption|].
  destruct (body_json response) as [reason|data]; [apply shown_docs; assumption|].
  destruct (Direct.records data) as [records|]; [|apply shown_docs; assumption].
  destruct (length records =? 0)%nat; [apply shown_docs; assumption|].
  apply updateSchema_docs, classList_update_docs, shown_docs; assumption.
Qed.

Lemma fetchFAQ_resume_docs (o : settled Direct.table_payload) (s1 s2 : page) :
  ~ own faqContainer -> agree_docs own s1 s2 ->
  agree_docs own (Direct.fetchFAQ_resume o s1) (Direct.fetchFAQ_resume o s2).
Proof.
  intros Hc H. unfold Direct.fetchFAQ_resume, Direct.showError.
  destruct o as [reason|response]; [apply shown_docs; assumption|].
  destruct (negb (ok response)); [apply shown_docs; assumption|].
  destruct (body_json response) as [reason|data]; [apply shown_docs; assumption|].
  destruct (Direct.records data) as [records|]; [|apply shown_docs; assumption].
  destruct (length records =? 0)%nat; [apply shown_docs; assumption|].
  apply updateSchema_docs, classList_update_docs, shown_docs; assumption.
Qed.

End Documents.

Lemma globalFaqData_fetchPricing_resume (o : settled Direct.table_payload) (s : page) :
  globalFaqData (Direct.fetchPricing_resume o s) = globalFaqData s.
Proof.
  unfold Direct.fetchPricing_resume.
  destruct o as [reason|response]; [reflexivity|].
  destruct (negb (ok response)); [reflexivity|].
  destruct (body_json response) as [reason|data]; [reflexivity|].
  destruct (Direct.records data) as [records|]; [|reflexivity].
  destruct (length records =? 0)%nat; [reflexivity|].
  rewrite updateSchema_eq. reflexivity.
Qed.

Lemma globalPricingData_fetchFAQ_resume (o : settled Direct.table_payload) (s : page) :
  globalPricingData (Direct.fetchFAQ_resume o s) = globalPricingData s.
Proof.
  unfold Direct.fetchFAQ_resume.
  destruct o as [reason|response]; [reflexivity|].
  destruct (negb (ok response)); [reflexivity|].
  destruct (body_json response) as [reason|data]; [reflexivity|].
  destruct (Direct.records data) as [records|]; [|reflexivity].
  destruct (length records =? 0)%nat; [reflexivity|].
  rewrite updateSchema_eq. reflexivity.
Qed.

Lemma globalFaqData_fetchFAQ_resume (o : settled Direct.table_payload) (s1 s2 : page) :
  globalFaqData s1 = globalFaqData s2 ->
  globalFaqData (Direct.fetchFAQ_resume o s1) = globalFaqData (Direct.fetchFAQ_resume o s2).
Proof.
  intros H. unfold Direct.fetchFAQ_resume.
  destruct o as [reason|response]; [exact H|].
  destruct (negb (ok response)); [exact H|].
  destruct (body_json response) as [reason|data]; [exact H|].
  destruct (Direct.records data) as [records|]; [|exact H].
  destruct (length records =? 0)%nat; [exact H|].
  rewrite !updateSchema_eq. reflexivity.
Qed.

Lemma globalPricingData_fetchPricing_resume (o : settled Direct.table_payload)
    (s1 s2 : page) :
  globalPricingData s1 = globalPricingData s2 ->
  globalPricingData (Direct.fetchPricing_resume o s1)
  = globalPricingData (Direct.fetchPricing_resume o s2).
Proof.
  intros H. unfold Direct.fetchPricing_resume.
  destruct o as [reason|response]; [exact H|].
  destruct (negb (ok response)); [exact H|].
  destruct (body_json response) as [reason|data]; [exact H|].
  destruct (Direct.records data) as [records|]; [|exact H].
  destruct (length records =? 0)%nat; [exact H|].
  rewrite !updateSchema_eq. reflexivity.
Qed.

Lemma fetchPricing_resume_elsewhere (o : settled Direct.table_payload) (s : page)
    (k : string) :
  holds_no_panel pricingContainer s ->
  k <> pricingContainer -> k <> offer_id -> k <> faq_id ->
  document (Direct.fetchPricing_resume o s) !! k = document s !! k.
Proof.
  intros Hplain Hc Ho Hf.
  assert (Hshown : forall m c,
             identified_elements m = [] ->
             document (set_document (set_innerHTML pricingContainer m (document s))
                         {| document := document s;
                            globalPricingData := globalPricingData s;
                            globalFaqData := globalFaqData s;
                            console := c |}) !! k
             = document s !! k).
  { intros m c Hm. unfold set_document. cbn [document].
    apply lookup_set_innerHTML_plain; assumption. }
  assert (Herr : forall e,
             document (Direct.showError pricingContainer
                         (console_error "Pricing Fetch Error:" e s)) !! k
             = document s !! k).
  { intros e. apply (Hshown _ (console s ++ [("Pricing Fetch Error:", e)])). reflexivity. }
  unfold Direct.fetchPricing_resume.
  destruct o as [reason|response]; [apply Herr|].
  destruct (negb (ok response)); [apply Herr|].
  destruct (body_json response) as [reason|data]; [apply Herr|].
  destruct (Direct.records data) as [records|]; [|apply Herr].
  destruct (length records =? 0)%nat.
  - unfold set_document. cbn [document].
    apply lookup_set_innerHTML_plain; [assumption | assumption | reflexivity].
  - rewrite lookup_updateSchema_ne by assumption.
    rewrite lookup_classList_update_ne by assumption.
    unfold set_document. cbn [document].
    apply lookup_set_innerHTML_plain; [assumption | assumption | reflexivity].
Qed.

(** ** The invariant of the publisher *)

Lemma synced_same_metadata (s s' : page) :
  globalPricingData s' = globalPricingData s ->
  globalFaqData s' = globalFaqData s ->
  published offer_id s' = published offer_id s ->
  published faq_id s' = published faq_id s ->
  synced s -> synced s'.
Proof.
  intros HP HF Ho Hf [H1 H2]. unfold synced. rewrite HP, HF, Ho, Hf. auto.
Qed.

Lemma synced_shown (container : string) (m : markup) (s : page) :
  container <> offer_id -> container <> faq_id ->
  synced s -> synced (set_document (set_innerHTML container m (document s)) s).
Proof.
  intros Ho Hf. apply synced_same_metadata; try reflexivity;
    unfold published, set_document; cbn [document];
    rewrite lookup_set_innerHTML_ne by (congruence || reflexivity); reflexivity.
Qed.

Lemma synced_console_error (label : string) (e : error) (s : page) :
  synced s -> synced (console_error label e s).
Proof. intros H. exact H. Qed.

Lemma synced_direct_resume (k : kind) (o : settled Direct.table_payload) (s : page) :
  synced s -> synced (direct_resume k o s).
Proof.
  intros H. destruct k; cbn [direct_resume];
    unfold Direct.fetchPricing_resume, Direct.fetchFAQ_resume, Direct.showError;
    (destruct o as [reason|response];
       [apply synced_shown; [discriminate | discriminate | exact H]|]);
    (destruct (negb (ok response));
       [apply synced_shown; [discriminate | discriminate | exact H]|]);
    (destruct (body_json response) as [reason|data];
       [apply synced_shown; [discriminate | discriminate | exact H]|]);
    (destruct (Direct.records data) as [records|];
       [|apply synced_shown; [discriminate | discriminate | exact H]]);
    (destruct (length records =? 0)%nat;
       [apply synced_shown; [discriminate | discriminate | exact H]
       | apply updateSchema_synced]).
Qed.

Lemma synced_proxied_render (k : kind) (records : option (list record)) (s : page) :
  synced s -> synced (proxied_render k records s).
Proof.
  intros H. destruct k; cbn [proxied_render];
    unfold Proxied.renderPricing, Proxied.renderFAQ, getElementById;
    match goal with
    | |- context [document s !! ?c] => destruct (document s !! c); [|exact H]
    end;
    (destruct records as [[|r rs]|];
       [apply synced_shown; [discriminate | discriminate | exact H]
       | apply updateSchema_synced
       | apply synced_shown; [discriminate | discriminate | exact H]]).
Qed.

Lemma synced_toggleAccordion (id : string) (s : page) :
  synced s -> synced (page_of (toggleAccordion id s)).
Proof.
  destruct (toggle_presentation_only id s) as (HP & HF & Hpub).
  apply synced_same_metadata; auto.
Qed.

Lemma synced_loaded_page : synced Sample.loaded_page.
Proof. split; intros H; exfalso; apply H; reflexivity. Qed.
(** * The gateway *)

(** With the credential configured, a GET issues the two table requests,
    each with the bearer credential. *)
Lemma handler_get_configured (req : Gateway.request) (env : Gateway.environment)
    (c : ascii) (k : string) :
  Gateway.method req = "GET" ->
  Gateway.AIRTABLE_API_KEY env = Some (String c k) ->
  exists resume,
    Gateway.handler req env =
      Gateway.Await (table_request PRICING_TABLE_ID (String c k))
                    (table_request FAQ_TABLE_ID (String c k)) resume
    /\ forall a, Gateway.answer (Gateway.handler req env) a = resume a.
Proof.
  intros Hm Hk. unfold Gateway.handler. rewrite Hm, Hk. simpl.
  eexists. split; [reflexivity | intros a; reflexivity].
Qed.

(** C6. A GET that arrives while [AIRTABLE_API_KEY] is not set is answered
    with status 500 and the server configuration error body, and the call
    issues no upstream request. *)
Theorem handler_missing_credential (req : Gateway.request) (env : Gateway.environment) :
  Gateway.method req = "GET" ->
  Gateway.AIRTABLE_API_KEY env = None ->
  Gateway.handler req env = Gateway.Respond (Gateway.send 500 (Some configuration_error_body))
  /\ Gateway.requests (Gateway.handler req env) = []
  /\ forall a, Gateway.statusCode (Gateway.sent (Gateway.answer (Gateway.handler req env) a)) = 500.
Proof.
  intros Hm Hk. unfold Gateway.handler. rewrite Hm, Hk. simpl.
  repeat split; reflexivity.
Qed.

Lemma handler_missing_credential_witness :
  Gateway.handler Sample.get_request Sample.unconfigured
    = Gateway.Respond (Gateway.send 500 (Some configuration_error_body))
  /\ Gateway.requests (Gateway.handler Sample.get_request Sample.unconfigured) = []
  /\ forall a,
       Gateway.statusCode
         (Gateway.sent
            (Gateway.answer (Gateway.handler Sample.get_request Sample.unconfigured) a))
       = 500.
Proof.
  apply (handler_missing_credential Sample.get_request Sample.unconfigured);
    reflexivity.
Defined.

(** With the credential configured, a GET one of whose upstream requests
    fails is answered with status 500 and the fetch error body. *)
Lemma handler_failure_status (req : Gateway.request) (env : Gateway.environment)
    (key : string) (a : Gateway.arrivals) :
  Gateway.method req = "GET" ->
  Gateway.AIRTABLE_API_KEY env = Some key ->
  key <> "" ->
  failed (Gateway.pricing_settled a) || failed (Gateway.faq_settled a) = true ->
  exists m,
    Gateway.sent (Gateway.answer (Gateway.handler req env) a)
    = Gateway.send 500 (Some (fetch_error_body m)).
Proof.
  intros Hm Hk Hne Hfail.
  destruct key as [|c k]; [congruence|].
  unfold Gateway.handler. rewrite Hm, Hk. simpl.
  unfold Gateway.Promise_all.
  destruct a as [p f first]; simpl in *.
  destruct p as [e1|rp], f as [e2|rf]; simpl in *;
    try rewrite Hfail; eexists; reflexivity.
Qed.

(** C4. With the credential configured, a GET one of whose two upstream
    requests fails, by a network error or by a non-success status, is
    answered with status 500 and the body
    [{error: "Failed to fetch data", message: m}] and nothing else, where [m]
    is the message of the error that made the call fail: the reason of the
    request that rejected (of the first one when both reject), or the error
    the handler raises for a non-success status when neither rejects. *)
Theorem handler_upstream_failure (req : Gateway.request) (env : Gateway.environment)
    (key : string) (a : Gateway.arrivals) :
  Gateway.method req = "GET" ->
  Gateway.AIRTABLE_API_KEY env = Some key ->
  key <> "" ->
  failed (Gateway.pricing_settled a) || failed (Gateway.faq_settled a) = true ->
  exists m,
    Gateway.sent (Gateway.answer (Gateway.handler req env) a)
      = Gateway.send 500 (Some (fetch_error_body m))
    /\ (forall e, Gateway.pricing_settled a = Rejected e ->
                  rejected (Gateway.faq_settled a) = false \/ Gateway.pricing_first a = true ->
                  m = message e)
    /\ (forall e, Gateway.faq_settled a = Rejected e ->
                  rejected (Gateway.pricing_settled a) = false \/ Gateway.pricing_first a = false ->
                  m = message e)
    /\ (rejected (Gateway.pricing_settled a) = false ->
        rejected (Gateway.faq_settled a) = false ->
        m = "Failed to fetch data from Airtable").
Proof.
  intros Hm Hk Hne Hfail.
  destruct key as [|c k]; [congruence|].
  unfold Gateway.handler. rewrite Hm, Hk. simpl.
  unfold Gateway.Promise_all.
  destruct a as [p f first]; simpl in *.
  destruct p as [e1|rp], f as [e2|rf]; simpl in *.
  - destruct first; eexists; (split; [reflexivity|]); repeat split;
      intros; simplify_eq; intuition congruence.
  - eexists; (split; [reflexivity|]); repeat split; intros; simplify_eq;
      intuition congruence.
  - eexists; (split; [reflexivity|]); repeat split; intros; simplify_eq;
      intuition congruence.
  - rewrite Hfail. eexists; (split; [reflexivity|]); repeat split; intros;
      simplify_eq; reflexivity.
Qed.

Lemma handler_upstream_failure_witness :
  exists m,
    Gateway.sent (Gateway.answer (Gateway.handler Sample.get_request Sample.configured)
                                 Sample.pricing_down)
      = Gateway.send 500 (Some (fetch_error_body m))
    /\ (forall e, Gateway.pricing_settled Sample.pricing_down = Rejected e ->
                  rejected (Gateway.faq_settled Sample.pricing_down) = false
                  \/ Gateway.pricing_first Sample.pricing_down = true ->
                  m = message e)
    /\ (forall e, Gateway.faq_settled Sample.pricing_down = Rejected e ->
                  rejected (Gateway.pricing_settled Sample.pricing_down) = false
                  \/ Gateway.pricing_first Sample.pricing_down = false ->
                  m = message e)
    /\ (rejected (Gateway.pricing_settled Sample.pricing_down) = false ->
        rejected (Gateway.faq_settled Sample.pricing_down) = false ->
        m = "Failed to fetch data from Airtable").
Proof.
  apply (handler_upstream_failure Sample.get_request Sample.configured "key"
                                  Sample.pricing_down);
    [reflexivity | reflexivity | discriminate | reflexivity].
Defined.

(** C7. With the credential configured, a GET both of whose upstream
    requests succeed with a table listing is answered with status 200 and a
    body of exactly the two members [pricing] and [faq], each the [records]
    list of the corresponding payload, empty when the payload has none. *)
Theorem handler_success (req : Gateway.request) (env : Gateway.environment)
    (key : string) (a : Gateway.arrivals)
    (pricingResponse faqResponse : http_response json)
    (pricingData faqData : json) (pricing faq : list json) :
  Gateway.method req = "GET" ->
  Gateway.AIRTABLE_API_KEY env = Some key ->
  key <> "" ->
  Gateway.pricing_settled a = Fulfilled pricingResponse ->
  Gateway.faq_settled a = Fulfilled faqResponse ->
  ok pricingResponse = true ->
  ok faqResponse = true ->
  body_json pricingResponse = inr pricingData ->
  body_json faqResponse = inr faqData ->
  listed_records pricingData = Some pricing ->
  listed_records faqData = Some faq ->
  Gateway.answer (Gateway.handler req env) a
    = {| Gateway.sent := Gateway.send 200 (Some (combined_body pricing faq));
         Gateway.logged := [] |}.
Proof.
  intros Hm Hk Hne Hp Hf Hpok Hfok Hpj Hfj Hpl Hfl.
  destruct key as [|c k]; [congruence|].
  unfold Gateway.handler. rewrite Hm, Hk. simpl.
  unfold Gateway.Promise_all. rewrite Hp, Hf, Hpok, Hfok, Hpj, Hfj. simpl.
  unfold listed_records in Hpl, Hfl.
  destruct pricingData as [| | | | |pm]; try discriminate.
  destruct faqData as [| | | | |fm]; try discriminate.
  simpl.
  destruct (assoc "records" pm) as [[]|]; try discriminate;
    destruct (assoc "records" fm) as [[]|]; try discriminate;
    simplify_eq; reflexivity.
Qed.

Lemma handler_success_witness :
  Gateway.answer (Gateway.handler Sample.get_request Sample.configured) Sample.both_delivered
    = {| Gateway.sent := Gateway.send 200 (Some (combined_body [Sample.a_unit] []));
         Gateway.logged := [] |}.
Proof.
  apply (handler_success Sample.get_request Sample.configured "key" Sample.both_delivered
           {| ok := true; status := 200; body_json := inr (Sample.listing [Sample.a_unit]) |}
           {| ok := true; status := 200; body_json := inr (JObject []) |}
           (Sample.listing [Sample.a_unit]) (JObject []));
    solve [reflexivity | discriminate].
Defined.

(** * The Structured-Data Publisher *)

(** C1, amended.  Take [updateSchema(P, null)] and [updateSchema(null, F)] in
    either order from the same page.  When [P] and [F] are both non-empty, or
    when the page is one in which each non-empty cached list is the one its
    published document was computed from (as after any call of
    [updateSchema], and as at page load), the two orders end in the same
    page: same cached lists [P] and [F], same documents.  A non-empty [P] has
    its Offer document published and a non-empty [F] its FAQPage document;
    for an empty list no document is published and the element published
    before stays as it was.  An absent argument leaves the corresponding
    cached list untouched. *)
Theorem updateSchema_either_order (s : page) (P : list pricing_item) (F : list faq_item) :
  (P <> [] /\ F <> []) \/ synced s ->
  let s12 := updateSchema None (Some F) (updateSchema (Some P) None s) in
  let s21 := updateSchema (Some P) None (updateSchema None (Some F) s) in
  s12 = s21
  /\ globalPricingData s12 = P
  /\ globalFaqData s12 = F
  /\ (P <> [] -> published offer_id s12 = Some (Text (offerSchema P)))
  /\ (F <> [] -> published faq_id s12 = Some (Text (faqSchema F)))
  /\ (P = [] -> published offer_id s12 = published offer_id s)
  /\ (F = [] -> synced s -> published faq_id s12 = published faq_id s)
  /\ globalFaqData (updateSchema (Some P) None s) = globalFaqData s
  /\ globalPricingData (updateSchema None (Some F) s) = globalPricingData s.
Proof.
  intros H s12 s21. subst s12 s21.
  rewrite !updateSchema_eq.
  cbn [from_option Datatypes.id document globalPricingData globalFaqData console].
  destruct s as [d P0 F0 c].
  cbn [document globalPricingData globalFaqData console].
  pose proof offer_faq_ids as Hids.
  assert (Hids' : faq_id <> offer_id) by (intros E; apply Hids; symmetry; exact E).
  split; [f_equal|].
  { rewrite (publish_if_commute P F0) by exact Hids.
    rewrite publish_if_idem.
    rewrite (publish_if_commute P F _ _ _ _ (publish_if P0 _ _ _)) by exact Hids.
    rewrite publish_if_idem.
    destruct H as [[HP HF]|[HsP HsF]].
    - rewrite !(publish_if_nonempty F) by exact HF.
      rewrite !(publish_if_nonempty P) by exact HP.
      rewrite !publish_absorb. reflexivity.
    - unfold published in HsP, HsF. cbn [document globalPricingData globalFaqData] in *.
      rewrite (publish_if_synced P0) by exact HsP.
      rewrite (publish_if_commute F0 P) by exact Hids'.
      rewrite (publish_if_synced F0) by exact HsF.
      reflexivity. }
  unfold published. cbn [document].
  repeat split.
  - intros HP. rewrite lookup_publish_if_ne by exact Hids'.
    rewrite (publish_if_nonempty P) by exact HP. apply lookup_publish_eq.
  - intros HF. rewrite (publish_if_nonempty F) by exact HF. apply lookup_publish_eq.
  - intros ->. rewrite !publish_if_empty.
    rewrite !lookup_publish_if_ne by exact Hids'. reflexivity.
  - intros -> [_ HsF]. unfold published in HsF.
    cbn [document globalFaqData] in HsF.
    rewrite publish_if_empty.
    rewrite (publish_if_commute F0 P) by exact Hids'.
    rewrite (publish_if_synced F0) by exact HsF.
    rewrite !lookup_publish_if_ne by exact Hids. reflexivity.
Qed.

Lemma updateSchema_either_order_witness :
  (let s12 := updateSchema None (Some Sample.one_question)
                (updateSchema (Some Sample.three_prices) None Sample.loaded_page) in
   let s21 := updateSchema (Some Sample.three_prices) None
                (updateSchema None (Some Sample.one_question) Sample.loaded_page) in
   s12 = s21
   /\ published offer_id s12 = Some (Text (offerSchema Sample.three_prices))
   /\ published faq_id s12 = Some (Text (faqSchema Sample.one_question)))
  /\ (let earlier := updateSchema (Some Sample.three_prices) None Sample.loaded_page in
      let s12 := updateSchema None (Some Sample.one_question)
                   (updateSchema (Some []) None earlier) in
      let s21 := updateSchema (Some []) None
                   (updateSchema None (Some Sample.one_question) earlier) in
      s12 = s21
      /\ globalPricingData s12 = []
      /\ published offer_id s12 = published offer_id earlier).
Proof.
  split.
  - destruct (updateSchema_either_order Sample.loaded_page Sample.three_prices
                Sample.one_question)
      as (Hsame & _ & _ & Hoffer & Hfaq & _).
    { left. split; discriminate. }
    cbv zeta. split; [exact Hsame|].
    split; [apply Hoffer | apply Hfaq]; discriminate.
  - destruct (updateSchema_either_order
                (updateSchema (Some Sample.three_prices) None Sample.loaded_page)
                [] Sample.one_question)
      as (Hsame & Hcache & _ & _ & _ & Hkept & _).
    { right. apply updateSchema_synced. }
    cbv zeta. split; [exact Hsame|]. split; [exact Hcache|].
    apply Hkept. reflexivity.
Defined.

(** Against C1 as stated: with an empty pricing list, neither order publishes
    the Offer document of that list.  From the page as loaded there is no
    Offer element at all afterwards; from a page that has published the
    summary of three prices, that summary stays in the head although the
    cached list is now empty. *)
Lemma updateSchema_empty_list_publishes_nothing :
  let after s :=
    updateSchema None (Some Sample.one_question) (updateSchema (Some []) None s) in
  let after' s :=
    updateSchema (Some []) None (updateSchema None (Some Sample.one_question) s) in
  let earlier := updateSchema (Some Sample.three_prices) None Sample.loaded_page in
  published offer_id (after Sample.loaded_page) = None
  /\ published offer_id (after' Sample.loaded_page) = None
  /\ globalPricingData (after earlier) = []
  /\ published offer_id (after earlier) = Some (Text (offerSchema Sample.three_prices))
  /\ published offer_id (after earlier) <> Some (Text (offerSchema [])).
Proof.
  cbv zeta. repeat split; try (vm_compute; reflexivity).
  vm_compute. discriminate.
Qed.

(** C2.  Whenever a call of [updateSchema] leaves a non-empty cached pricing
    list all of whose prices are finite numbers, the Offer document in the
    head after the call is the Aggregate Offer Summary of that list: currency
    USD, [lowPrice] the least and [highPrice] the greatest of the prices,
    [offerCount] their number, availability InStock.  The page before the
    call and the arguments of the call are arbitrary: the document is
    computed from the cached list alone. *)
Theorem offer_summary_published (a : option (list pricing_item))
    (b : option (list faq_item)) (s : page) (prices : list Q) :
  globalPricingData (updateSchema a b s) = map priced_at prices ->
  prices <> [] ->
  exists low high,
    In low prices /\ In high prices
    /\ (forall q, In q prices -> (low <= q)%Q /\ (q <= high)%Q)
    /\ published offer_id (updateSchema a b s)
       = Some (Text (offer_summary low high (length prices))).
Proof.
  intros Hcache Hne.
  destruct (Math_min_finite prices Hne) as (low & Hlow & Hlin & Hlle).
  destruct (Math_max_finite prices Hne) as (high & Hhigh & Hhin & Hhle).
  exists low, high. repeat split; auto.
  rewrite published_offer_after_update.
  - rewrite Hcache. unfold offerSchema, offer_summary.
    rewrite Hlow, Hhigh, length_map. reflexivity.
  - rewrite Hcache. destruct prices; [congruence | discriminate].
Qed.

Lemma offer_summary_published_witness :
  exists low high,
    In low [1000; 1500; 1200]%Q /\ In high [1000; 1500; 1200]%Q
    /\ (forall q, In q [1000; 1500; 1200]%Q -> (low <= q)%Q /\ (q <= high)%Q)
    /\ published offer_id (updateSchema (Some Sample.three_prices) None Sample.loaded_page)
       = Some (Text (offer_summary low high 3)).
Proof.
  apply (offer_summary_published (Some Sample.three_prices) None Sample.loaded_page
                                 [1000; 1500; 1200]%Q);
    [reflexivity | discriminate].
Defined.

(** The case of the prices 1000, 1500 and 1200, from any page. *)
Lemma offer_summary_three_prices (b : option (list faq_item)) (s : page) :
  published offer_id (updateSchema (Some Sample.three_prices) b s)
  = Some (Text (offer_summary 1000 1500 3)).
Proof.
  rewrite published_offer_after_update.
  - rewrite updateSchema_eq. reflexivity.
  - rewrite updateSchema_eq. discriminate.
Qed.

(** * The Data Renderer *)

(** C8.  When the fetch of a kind succeeds with zero records, the renderer of
    that kind, in either variant of the script, puts the fixed notice of the
    kind in its container and leaves both script elements of the head and
    both cached lists exactly as they were: the publisher is not called. *)
Theorem zero_records_keep_metadata (k : kind) (s : page) (code : Z) :
  is_Some (document s !! container_of k) ->
  notice_only (container_of k) (Notice (no_data_message k)) s
    (direct_resume k (table_listing code []) s)
  /\ notice_only (container_of k) (Notice (no_data_message k)) s
       (proxied_render k (Some []) s).
Proof.
  intros H. destruct k; split;
    try (apply notice_shown; [exact H | discriminate | discriminate]);
    unfold proxied_render, Proxied.renderPricing, Proxied.renderFAQ, getElementById;
    destruct H as [e He]; cbn [container_of] in He; rewrite He;
    apply notice_shown; solve [eauto | discriminate].
Qed.

Lemma zero_records_keep_metadata_witness :
  is_Some (document Sample.listed_page !! container_of Faq)
  /\ published faq_id Sample.listed_page
     = Some (Text (faqSchema (faqData_of [Sample.pets])))
  /\ notice_only (container_of Faq) (Notice (no_data_message Faq)) Sample.listed_page
       (direct_resume Faq (table_listing 200 []) Sample.listed_page)
  /\ notice_only (container_of Faq) (Notice (no_data_message Faq)) Sample.listed_page
       (proxied_render Faq (Some []) Sample.listed_page).
Proof.
  assert (H : is_Some (document Sample.listed_page !! container_of Faq))
    by (vm_compute; eauto).
  split; [exact H|]. split; [vm_compute; reflexivity|].
  apply (zero_records_keep_metadata Faq Sample.listed_page 200 H).
Defined.

Lemma published_offer_kept (fd : list faq_item) (shown s : page) :
  synced s ->
  globalPricingData shown = globalPricingData s ->
  published offer_id shown = published offer_id s ->
  published offer_id (updateSchema None (Some fd) shown) = published offer_id s.
Proof.
  intros [Hs _] HP Ho. unfold published in *. rewrite updateSchema_eq.
  cbn [document from_option Datatypes.id].
  rewrite lookup_publish_if_ne by discriminate.
  destruct (globalPricingData shown) as [|x l] eqn:E.
  - rewrite publish_if_empty. exact Ho.
  - rewrite publish_if_nonempty by discriminate.
    rewrite lookup_publish_eq. symmetry. rewrite HP. apply Hs.
    rewrite <- HP. discriminate.
Qed.

Lemma published_offer_renderFAQ (records : option (list record)) (s : page) :
  synced s ->
  published offer_id (Proxied.renderFAQ records s) = published offer_id s.
Proof.
  intros H. unfold Proxied.renderFAQ, getElementById.
  destruct (document s !! faqContainer) as [e|]; [|reflexivity].
  assert (Hshown : forall m,
             published offer_id (set_document (set_innerHTML faqContainer m (document s)) s)
             = published offer_id s).
  { intros m. unfold published, set_document. cbn [document].
    rewrite lookup_set_innerHTML_ne by (discriminate || reflexivity). reflexivity. }
  destruct records as [[|r rs]|]; [apply Hshown| |apply Hshown].
  apply published_offer_kept; [exact H | reflexivity|].
  rewrite published_classList_update. apply Hshown.
Qed.

(** Through the gateway, with no pricing record and any FAQ records. *)
Lemma zero_pricing_records_through_gateway (code : Z) (faq : option (list record))
    (s : page) :
  synced s ->
  is_Some (document s !! pricingContainer) ->
  let s' := Proxied.fetchData_resume
              (Fulfilled {| ok := true; status := code;
                            body_json := inr {| Proxied.pricing := Some [];
                                                Proxied.faq := faq |} |}) s in
  published offer_id s' = published offer_id s
  /\ globalPricingData s' = globalPricingData s.
Proof.
  intros Hs Hc s'. subst s'. unfold Proxied.fetchData_resume. cbn [ok negb body_json].
  cbn [Proxied.pricing Proxied.faq].
  assert (Hn : notice_only pricingContainer no_availability s
                 (Proxied.renderPricing (Some []) s)).
  { unfold Proxied.renderPricing, getElementById. destruct Hc as [e He]. rewrite He.
    apply notice_shown; solve [eauto | discriminate]. }
  destruct Hn as (_ & Ho & _ & HP & _).
  split.
  - rewrite published_offer_renderFAQ.
    + unfold published. rewrite Ho. reflexivity.
    + apply (synced_proxied_render Pricing (Some []) s), Hs.
  - transitivity (globalPricingData (Proxied.renderPricing (Some []) s)); [|exact HP].
    unfold Proxied.renderFAQ, getElementById.
    destruct (document (Proxied.renderPricing (Some []) s) !! faqContainer);
      [|reflexivity].
    destruct faq as [[|r rs]|]; try reflexivity.
    rewrite updateSchema_eq. reflexivity.
Qed.

(** What the code bears out of the normalization of prices.  Once a
    non-empty list of records has been rendered by either variant of the
    script:
    - a price that is a string is normalized by removing every [$] and [,]
      and parsing the rest; for a string of digits, [$] and [,] with at least
      one digit the result is the number its digits denote (the bound keeps
      the statement within the integers that binary64 holds exactly);
    - the cached list is the list of the records whose price is usable: a
      record whose price is absent or fails to parse contributes no entry,
      and every entry carries a number that is not NaN;
    - every record has its row in the table, and the price cell of a record
      whose price is absent (no value, or the empty string) shows
      [Call for pricing]. *)
Theorem price_normalization (records : list record) (s s' : page) (code : Z) :
  records <> [] ->
  is_Some (document s !! pricingContainer) ->
  s' = direct_resume Pricing (table_listing code records) s
  \/ s' = proxied_render Pricing (Some records) s ->
  (forall r str, In r records -> field r "Current Price" = VString str ->
                 price (pricing_item_of r) = VNumber (parseFloat (strip_currency str)))
  /\ (forall str ds, currency_digits str = Some ds -> ds <> [] ->
                     digits_value ds < 2 ^ 53 ->
                     parseFloat (strip_currency str) = Finite (inject_Z (digits_value ds)))
  /\ globalPricingData s' = pricingData_of records
  /\ (forall before r after,
        records = before ++ r :: after ->
        unusable_price (field r "Current Price") = true ->
        pricingData_of records = pricingData_of before ++ pricingData_of after)
  /\ (forall item, In item (pricingData_of records) ->
                   exists x, price item = VNumber x /\ number_isNaN x = false)
  /\ published pricingContainer s' = Some (PricingTable (map pricing_row_of records))
  /\ (forall r, In r records -> absent_price (field r "Current Price") = true ->
                unusable_price (field r "Current Price") = true
                /\ price_text (pricing_row_of r) = "Call for pricing").
Proof.
  intros Hne Hc Hs'.
  destruct (pricing_rendered records s s' code Hne Hc Hs')
    as (shown & -> & Hshown & _).
  destruct (after_pricing_update (pricingData_of records) shown) as (Hcache & Hpub & _).
  repeat split.
  - intros r str _ H. unfold pricing_item_of. rewrite H. reflexivity.
  - intros str ds Hds Hne' _.
    apply parseFloat_digits; [apply strip_currency_digits, Hds | exact Hne'].
  - exact Hcache.
  - intros before r after -> Hr.
    rewrite pricingData_of_app, pricingData_of_cons, Hr. reflexivity.
  - intros item Hin. unfold pricingData_of in Hin.
    apply List.filter_In in Hin. destruct Hin as [Hin Hkept].
    apply List.in_map_iff in Hin. destruct Hin as (r & <- & _).
    rewrite kept_pricing_item_of in Hkept.
    unfold pricing_item_of, unusable_price in *. cbn [price].
    destruct (field r "Current Price") as [| |x|str]; try discriminate;
      eexists; (split; [reflexivity|]);
      apply negb_true_iff in Hkept; exact Hkept.
  - rewrite Hpub. exact Hshown.
  - apply absent_price_unusable. assumption.
  - apply price_text_absent. assumption.
Qed.

Lemma price_normalization_witness :
  [Sample.studio; Sample.loft] <> []
  /\ is_Some (document Sample.loaded_page !! pricingContainer)
  /\ parseFloat (strip_currency "$1,250") = Finite 1250
  /\ globalPricingData (proxied_render Pricing (Some [Sample.studio; Sample.loft])
                                       Sample.loaded_page)
     = [ {| price := VNumber (Finite 1250) |} ]
  /\ price_text (pricing_row_of Sample.loft) = "Call for pricing".
Proof.
  assert (H1 : [Sample.studio; Sample.loft] <> []) by discriminate.
  assert (H2 : is_Some (document Sample.loaded_page !! pricingContainer))
    by (vm_compute; eauto).
  destruct (price_normalization [Sample.studio; Sample.loft] Sample.loaded_page
              (proxied_render Pricing (Some [Sample.studio; Sample.loft]) Sample.loaded_page)
              200 H1 H2 (or_intror eq_refl))
    as (_ & Hdigits & Hcache & _ & _ & _ & Habsent).
  split; [exact H1|]. split; [exact H2|]. split; [|split].
  - apply (Hdigits "$1,250" [1; 2; 5; 0]); [reflexivity | discriminate | reflexivity].
  - rewrite Hcache. vm_compute. reflexivity.
  - apply (Habsent Sample.loft); [right; left; reflexivity | reflexivity].
Defined.

(** C3.  The code at a record whose price is the string [TBD]: the price
    fails to parse and the record is left out of the cached list, as the
    claim says; but in both variants the price cell of its row shows what the
    currency formatter makes of the raw string, [$NaN], where the claim says
    [Call for pricing].  The cell test looks at the truthiness of the raw
    field only, so a non-empty string that is no number is formatted. *)
Lemma unparseable_price_cell :
  unusable_price (field Sample.den "Current Price") = true
  /\ pricingData_of [Sample.den] = []
  /\ price_text (pricing_row_of Sample.den) = "$NaN"
  /\ price_text (pricing_row_of Sample.den) <> "Call for pricing"
  /\ published pricingContainer
       (proxied_render Pricing (Some [Sample.den]) Sample.loaded_page)
     = Some (PricingTable [ {| unit := VString "Den"; price_text := "$NaN";
                               promo := VUndefined |} ])
  /\ published pricingContainer
       (direct_resume Pricing (table_listing 200 [Sample.den]) Sample.loaded_page)
     = Some (PricingTable [ {| unit := VString "Den"; price_text := "$NaN";
                               promo := VUndefined |} ]).
Proof.
  split; [vm_compute; reflexivity|]. split; [vm_compute; reflexivity|].
  split; [vm_compute; reflexivity|]. split; [vm_compute; discriminate|].
  split; vm_compute; reflexivity.
Qed.

(** The same cell for a price that does parse once normalized: the string
    [$1,250] enters the cached list as 1250 and is shown as [$NaN]. *)
Lemma formatted_price_cell :
  pricingData_of [Sample.studio] = [ {| price := VNumber (Finite 1250) |} ]
  /\ price_text (pricing_row_of Sample.studio) = "$NaN"
  /\ price_text (pricing_row_of Sample.flat) = "$1,000".
Proof. repeat split; vm_compute; reflexivity. Qed.

(** C10.  When a pricing fetch succeeds with at least one record and every
    record has a price that is absent or fails to parse, the renderer calls
    [updateSchema] with a pricing list that is present and empty, on a page
    that still has the caches and the script elements it had before the
    fetch: the cached pricing list becomes empty and the Offer element of
    the head is the one that was there before, so that an Offer document
    published earlier stays in the head, computed from the list the cache
    held, while the cache no longer holds that list. *)
Theorem unusable_prices_empty_the_cache (records : list record) (s s' : page) (code : Z) :
  records <> [] ->
  Forall (fun r => unusable_price (field r "Current Price") = true) records ->
  is_Some (document s !! pricingContainer) ->
  s' = direct_resume Pricing (table_listing code records) s
  \/ s' = proxied_render Pricing (Some records) s ->
  (exists shown,
     s' = updateSchema (Some []) None shown
     /\ globalPricingData shown = globalPricingData s
     /\ globalFaqData shown = globalFaqData s
     /\ document shown !! offer_id = document s !! offer_id
     /\ document shown !! faq_id = document s !! faq_id)
  /\ globalPricingData s' = []
  /\ document s' !! offer_id = document s !! offer_id
  /\ (synced s -> globalPricingData s <> [] ->
      published offer_id s' = Some (Text (offerSchema (globalPricingData s)))).
Proof.
  intros Hne Hall Hc Hs'.
  destruct (pricing_rendered records s s' code Hne Hc Hs')
    as (shown & -> & _ & Hoffer & Hfaq & Hfd & Hpd).
  rewrite (pricingData_of_unusable records Hall).
  destruct (after_pricing_update [] shown) as (Hcache & _ & Hstale).
  assert (Hkept : document (updateSchema (Some []) None shown) !! offer_id
                  = document s !! offer_id)
    by (rewrite Hstale by reflexivity; exact Hoffer).
  split; [exists shown; split; [reflexivity|]; split; [exact Hpd|]; split; [exact Hfd|];
          split; [exact Hoffer | exact Hfaq]|].
  split; [exact Hcache|]. split; [exact Hkept|].
  intros [Hsync _] Hold. unfold published. rewrite Hkept. exact (Hsync Hold).
Qed.

Lemma unusable_prices_empty_the_cache_witness :
  [Sample.loft; Sample.den] <> []
  /\ Forall (fun r => unusable_price (field r "Current Price") = true)
            [Sample.loft; Sample.den]
  /\ is_Some (document Sample.listed_page !! pricingContainer)
  /\ globalPricingData Sample.listed_page = [ {| price := VNumber (Finite 1250) |} ]
  /\ published offer_id Sample.listed_page = Some (Text (offer_summary 1250 1250 1))
  /\ globalPricingData (proxied_render Pricing (Some [Sample.loft; Sample.den])
                                       Sample.listed_page) = []
  /\ published offer_id (proxied_render Pricing (Some [Sample.loft; Sample.den])
                                        Sample.listed_page)
     = Some (Text (offer_summary 1250 1250 1)).
Proof.
  assert (H1 : [Sample.loft; Sample.den] <> []) by discriminate.
  assert (H2 : Forall (fun r => unusable_price (field r "Current Price") = true)
                      [Sample.loft; Sample.den])
    by (repeat constructor).
  assert (H3 : is_Some (document Sample.listed_page !! pricingContainer))
    by (vm_compute; eauto).
  destruct (unusable_prices_empty_the_cache [Sample.loft; Sample.den] Sample.listed_page
              (proxied_render Pricing (Some [Sample.loft; Sample.den]) Sample.listed_page)
              200 H1 H2 H3 (or_intror eq_refl))
    as (_ & Hcache & Hstale & _).
  split; [exact H1|]. split; [exact H2|]. split; [exact H3|].
  split; [vm_compute; reflexivity|]. split; [vm_compute; reflexivity|].
  split; [exact Hcache|].
  unfold published. rewrite Hstale. vm_compute. reflexivity.
Defined.

(** * The accordion *)

(** C9, amended.  Let the content element and the icon element of a panel
    exist and be in step: the content is hidden exactly when the icon is not
    rotated.  Then two successive calls of [toggleAccordion] on the panel
    both return, and afterwards each of the two elements has a class list
    with the same tokens as before the first call, hence the same visible
    state; nothing else of either element has changed.  The order of the
    tokens may have changed, since a token that is added again is appended:
    the class list of the content is exactly the one before when the panel
    was open, that of the icon when the panel was closed.  Every other
    element, both cached lists and the content of every element, the
    published documents among them, are untouched; a call of
    [toggleAccordion], on any id and however it completes, changes no cached
    list and no content. *)
Theorem toggle_twice (id : string) (s : page) (c i : element) :
  document s !! id = Some c ->
  document s !! ("icon-" +:+ id) = Some i ->
  contains "hidden" (classList c) = negb (contains "rotate-180" (classList i)) ->
  exists s1 s2 c2 i2,
    toggleAccordion id s = Normal s1
    /\ toggleAccordion id s1 = Normal s2
    /\ document s2 !! id = Some c2
    /\ document s2 !! ("icon-" +:+ id) = Some i2
    /\ (forall token, contains token (classList c2) = contains token (classList c))
    /\ (forall token, contains token (classList i2) = contains token (classList i))
    /\ c2 = set_classList (classList c2) c
    /\ i2 = set_classList (classList i2) i
    /\ (contains "hidden" (classList c) = false -> c2 = c)
    /\ (contains "rotate-180" (classList i) = false -> i2 = i)
    /\ (forall k, k <> id -> k <> "icon-" +:+ id -> document s2 !! k = document s !! k)
    /\ globalPricingData s2 = globalPricingData s
    /\ globalFaqData s2 = globalFaqData s
    /\ (forall k, published k s1 = published k s)
    /\ (forall k, published k s2 = published k s)
    /\ (forall id' s',
          globalPricingData (page_of (toggleAccordion id' s')) = globalPricingData s'
          /\ globalFaqData (page_of (toggleAccordion id' s')) = globalFaqData s'
          /\ forall k, published k (page_of (toggleAccordion id' s')) = published k s').
Proof.
  intros Hc Hi Hsync.
  destruct (contains "hidden" (classList c)) eqn:Hh.
  - (* the panel is closed: it opens, then closes *)
    assert (Hr : contains "rotate-180" (classList i) = false)
      by (destruct (contains "rotate-180" (classList i)); [discriminate | reflexivity]).
    destruct (after_toggle_step (remove "hidden") (add "rotate-180") id s c i Hc Hi)
      as (Hc1 & Hi1 & Hk1 & HP1 & HF1 & Hpub1).
    set (s1 := classList_update (add "rotate-180") ("icon-" +:+ id)
                 (classList_update (remove "hidden") id s)) in *.
    assert (Hh1 : contains "hidden"
                    (classList (set_classList (remove "hidden" (classList c)) c)) = false).
    { cbn [classList set_classList]. rewrite contains_remove. reflexivity. }
    destruct (after_toggle_step (add "hidden") (remove "rotate-180") id s1 _ _ Hc1 Hi1)
      as (Hc2 & Hi2 & Hk2 & HP2 & HF2 & Hpub2).
    set (s2 := classList_update (remove "rotate-180") ("icon-" +:+ id)
                 (classList_update (add "hidden") id s1)) in *.
    rewrite set_classList_twice, classList_set_classList in Hc2, Hi2.
    exists s1, s2. do 2 eexists.
    split; [exact (toggle_hidden id s c i Hc Hi Hh)|].
    split; [exact (toggle_shown id s1 _ _ Hc1 Hi1 Hh1)|].
    split; [exact Hc2|]. split; [exact Hi2|].
    cbn [classList set_classList].
    split; [apply same_tokens_add_remove, Hh|].
    split; [rewrite (remove_add_absent _ _ Hr); reflexivity|].
    split; [reflexivity|]. split; [reflexivity|].
    split; [discriminate|].
    split; [intros _; rewrite (remove_add_absent _ _ Hr); apply set_classList_same|].
    split; [intros k Hk Hk'; rewrite Hk2, Hk1 by assumption; reflexivity|].
    split; [congruence|]. split; [congruence|].
    split; [exact Hpub1|].
    split; [intros k; rewrite Hpub2; apply Hpub1|].
    intros id' s'. apply toggle_presentation_only.
  - (* the panel is open: it closes, then opens *)
    assert (Hr : contains "rotate-180" (classList i) = true)
      by (destruct (contains "rotate-180" (classList i)); [reflexivity | discriminate]).
    destruct (after_toggle_step (add "hidden") (remove "rotate-180") id s c i Hc Hi)
      as (Hc1 & Hi1 & Hk1 & HP1 & HF1 & Hpub1).
    set (s1 := classList_update (remove "rotate-180") ("icon-" +:+ id)
                 (classList_update (add "hidden") id s)) in *.
    assert (Hh1 : contains "hidden"
                    (classList (set_classList (add "hidden" (classList c)) c)) = true).
    { cbn [classList set_classList]. rewrite contains_add. reflexivity. }
    destruct (after_toggle_step (remove "hidden") (add "rotate-180") id s1 _ _ Hc1 Hi1)
      as (Hc2 & Hi2 & Hk2 & HP2 & HF2 & Hpub2).
    set (s2 := classList_update (add "rotate-180") ("icon-" +:+ id)
                 (classList_update (remove "hidden") id s1)) in *.
    rewrite set_classList_twice, classList_set_classList in Hc2, Hi2.
    exists s1, s2. do 2 eexists.
    split; [exact (toggle_shown id s c i Hc Hi Hh)|].
    split; [exact (toggle_hidden id s1 _ _ Hc1 Hi1 Hh1)|].
    split; [exact Hc2|]. split; [exact Hi2|].
    cbn [classList set_classList].
    split; [rewrite (remove_add_absent _ _ Hh); reflexivity|].
    split; [apply same_tokens_add_remove, Hr|].
    split; [reflexivity|]. split; [reflexivity|].
    split; [intros _; rewrite (remove_add_absent _ _ Hh); apply set_classList_same|].
    split; [rewrite Hr; discriminate|].
    split; [intros k Hk Hk'; rewrite Hk2, Hk1 by assumption; reflexivity|].
    split; [congruence|]. split; [congruence|].
    split; [exact Hpub1|].
    split; [intros k; rewrite Hpub2; apply Hpub1|].
    intros id' s'. apply toggle_presentation_only.
Qed.

Lemma toggle_twice_witness :
  document Sample.listed_page !! "faq-0" = Some Sample.closed_panel
  /\ document Sample.listed_page !! ("icon-" +:+ "faq-0") = Some Sample.closed_icon
  /\ contains "hidden" (classList Sample.closed_panel)
     = negb (contains "rotate-180" (classList Sample.closed_icon))
  /\ exists s2 c2,
       toggled_twice "faq-0" Sample.listed_page = Some s2
       /\ document s2 !! "faq-0" = Some c2
       /\ forall token,
            contains token (classList c2) = contains token (classList Sample.closed_panel).
Proof.
  assert (H1 : document Sample.listed_page !! "faq-0" = Some Sample.closed_panel)
    by (vm_compute; reflexivity).
  assert (H2 : document Sample.listed_page !! ("icon-" +:+ "faq-0")
               = Some Sample.closed_icon)
    by (vm_compute; reflexivity).
  assert (H3 : contains "hidden" (classList Sample.closed_panel)
               = negb (contains "rotate-180" (classList Sample.closed_icon)))
    by reflexivity.
  split; [exact H1|]. split; [exact H2|]. split; [exact H3|].
  destruct (toggle_twice "faq-0" Sample.listed_page Sample.closed_panel
                         Sample.closed_icon H1 H2 H3)
    as (s1 & s2 & c2 & i2 & Ht1 & Ht2 & Hc2 & _ & Htokens & _).
  exists s2, c2. split; [|split; [exact Hc2 | exact Htokens]].
  unfold toggled_twice. rewrite Ht1, Ht2. reflexivity.
Defined.

(** Against C9 as stated: on the accordion as rendered, two calls on the
    first panel leave its content element with [hidden] at the end of the
    class list instead of at the front. *)
Lemma toggle_twice_reorders_classes :
  classes "faq-0" Sample.listed_page
  = Some ["hidden"; "bg-gray-50"; "p-4"; "border-t"; "border-gray-100";
          "text-secondary"; "leading-relaxed"; "prose"; "max-w-none"]
  /\ classes_after_two_toggles "faq-0" Sample.listed_page
     = Some ["bg-gray-50"; "p-4"; "border-t"; "border-gray-100";
             "text-secondary"; "leading-relaxed"; "prose"; "max-w-none"; "hidden"]
  /\ classes_after_two_toggles "faq-0" Sample.listed_page
     <> classes "faq-0" Sample.listed_page.
Proof.
  split; [vm_compute; reflexivity|]. split; [vm_compute; reflexivity|].
  vm_compute. discriminate.
Qed.

(** * Independence of the two kinds *)

Lemma holds_no_panel_after_faq (o : settled Direct.table_payload) (s : page) :
  holds_no_panel pricingContainer s ->
  holds_no_panel pricingContainer (Direct.fetchFAQ_resume o s).
Proof.
  intros H e. rewrite fetchFAQ_resume_elsewhere by (discriminate || reflexivity).
  apply H.
Qed.

Lemma pricing_leaves_the_rest (o : settled Direct.table_payload) (s : page) :
  holds_no_panel pricingContainer s ->
  agree_docs pricing_or_metadata (Direct.fetchPricing_resume o s) s.
Proof.
  intros H k Hk. unfold pricing_or_metadata, pricing_own, metadata in Hk.
  apply fetchPricing_resume_elsewhere; [exact H | tauto | tauto | tauto].
Qed.

Lemma faq_leaves_the_rest (o : settled Direct.table_payload) (s : page) :
  agree_docs faq_or_metadata (Direct.fetchFAQ_resume o s) s.
Proof.
  intros k Hk. unfold faq_or_metadata, faq_own, metadata in Hk.
  apply fetchFAQ_resume_elsewhere; [tauto | apply not_panel_key; tauto | tauto | tauto].
Qed.

Lemma not_own_faqContainer : ~ pricing_or_metadata faqContainer.
Proof. unfold pricing_or_metadata, pricing_own, metadata. intros [H|[H|H]]; discriminate H. Qed.

Lemma not_own_pricingContainer : ~ faq_or_metadata pricingContainer.
Proof.
  unfold faq_or_metadata, faq_own, metadata.
  intros [[H|H]|[H|H]]; discriminate H.
Qed.

Lemma faq_own_excludes (k : string) :
  k = pricingContainer \/ k = offer_id \/ k = faq_id -> ~ faq_own k.
Proof. unfold faq_own. intros [-> | [-> | ->]] [H | H]; discriminate H. Qed.

Lemma started_holds_no_panel (token : string) (s : page) (p : element) :
  document s !! pricingContainer = Some p ->
  holds_no_panel pricingContainer
    (fst (Direct.fetchFAQ_start token (fst (Direct.fetchPricing_start token s)))).
Proof.
  intros Hp e.
  unfold Direct.fetchPricing_start, Direct.fetchFAQ_start, getElementById.
  rewrite Hp. cbn [fst].
  assert (Hloading : document (showLoading pricingContainer s) !! pricingContainer
                     = Some (set_content LoadingIndicator p)).
  { unfold showLoading, set_document. cbn [document].
    apply lookup_set_innerHTML_eq, Hp. }
  destruct (document (showLoading pricingContainer s) !! faqContainer); cbn [fst].
  - unfold showLoading at 1. unfold set_document. cbn [document].
    rewrite lookup_set_innerHTML_ne by (discriminate || reflexivity).
    rewrite Hloading. intros [= <-]. reflexivity.
  - rewrite Hloading. intros [= <-]. reflexivity.
Qed.

(** C5, amended.  In the script that queries the tables itself, whatever the
    outcome of the pricing fetch, the FAQ fetch-and-render ends with the same
    FAQ container, the same panels and the same cached FAQ list as without
    it, in either order of arrival, and the other way round: the only
    elements the two kinds share are the two script elements that
    [updateSchema] writes.  When the pricing fetch fails, those too are as
    without it, and likewise when the FAQ fetch fails.  Through the gateway
    the two kinds travel together: when either upstream request fails the
    answer is not a success, and [fetchData] then shows the error message in
    both containers. *)
Theorem kinds_coupled_by_metadata_only
    (s : page) (pricing_outcome faq_outcome failing : settled Direct.table_payload)
    (req : Gateway.request) (env : Gateway.environment) (key : string)
    (a : Gateway.arrivals) (p f : element) :
  holds_no_panel pricingContainer s ->
  failed failing = true ->
  document s !! pricingContainer = Some p ->
  document s !! faqContainer = Some f ->
  Gateway.method req = "GET" ->
  Gateway.AIRTABLE_API_KEY env = Some key ->
  key <> "" ->
  failed (Gateway.pricing_settled a) || failed (Gateway.faq_settled a) = true ->
  let P := Direct.fetchPricing_resume in
  let F := Direct.fetchFAQ_resume in
  (globalFaqData (F faq_outcome (P pricing_outcome s)) = globalFaqData (F faq_outcome s)
   /\ agree_docs pricing_or_metadata (F faq_outcome (P pricing_outcome s)) (F faq_outcome s)
   /\ globalFaqData (P pricing_outcome (F faq_outcome s)) = globalFaqData (F faq_outcome s)
   /\ agree_docs pricing_or_metadata (P pricing_outcome (F faq_outcome s)) (F faq_outcome s))
  /\ (globalPricingData (P pricing_outcome (F faq_outcome s))
      = globalPricingData (P pricing_outcome s)
      /\ agree_docs faq_or_metadata (P pricing_outcome (F faq_outcome s)) (P pricing_outcome s)
      /\ globalPricingData (F faq_outcome (P pricing_outcome s))
         = globalPricingData (P pricing_outcome s)
      /\ agree_docs faq_or_metadata (F faq_outcome (P pricing_outcome s))
                    (P pricing_outcome s))
  /\ (agree_outside pricing_own (F faq_outcome (P failing s)) (F faq_outcome s)
      /\ agree_outside pricing_own (P failing (F faq_outcome s)) (F faq_outcome s))
  /\ (agree_outside faq_own (P pricing_outcome (F failing s)) (P pricing_outcome s)
      /\ agree_outside faq_own (F failing (P pricing_outcome s)) (P pricing_outcome s))
  /\ (let r := Gateway.sent (Gateway.answer (Gateway.handler req env) a) in
      Gateway.seen_ok r = false
      /\ forall b,
           let s' := Proxied.fetchData_resume
                       (Fulfilled {| ok := Gateway.seen_ok r;
                                     status := Gateway.statusCode r;
                                     body_json := b |}) s in
           published pricingContainer s' = Some (ErrorBox "Unable to load current rates.")
           /\ published faqContainer s' = Some (ErrorBox "Unable to load current rates.")).
Proof.
  intros Hplain Hfailing Hp Hf Hm Hk Hne Hfail P F. subst P F.
  split; [|split; [|split; [|split]]].
  - split; [apply globalFaqData_fetchFAQ_resume, globalFaqData_fetchPricing_resume|].
    split.
    { apply fetchFAQ_resume_docs;
        [right; left; reflexivity | right; right; reflexivity
        | apply not_own_faqContainer | apply pricing_leaves_the_rest, Hplain]. }
    split; [apply globalFaqData_fetchPricing_resume|].
    apply pricing_leaves_the_rest, holds_no_panel_after_faq, Hplain.
  - split; [apply globalPricingData_fetchPricing_resume,
                  globalPricingData_fetchFAQ_resume|].
    split.
    { apply fetchPricing_resume_docs;
        [right; left; reflexivity | right; right; reflexivity
        | apply not_own_pricingContainer | apply faq_leaves_the_rest]. }
    split; [apply globalPricingData_fetchFAQ_resume|].
    apply faq_leaves_the_rest.
  - split.
    + apply fetchFAQ_resume_agree;
        [discriminate | discriminate | discriminate
        | apply failed_pricing_frame; assumption].
    + apply failed_pricing_frame;
        [exact Hfailing | apply holds_no_panel_after_faq, Hplain].
  - split.
    + apply fetchPricing_resume_agree;
        [apply faq_own_excludes; tauto | apply faq_own_excludes; tauto
        | apply faq_own_excludes; tauto | apply failed_faq_frame, Hfailing].
    + apply failed_faq_frame, Hfailing.
  - destruct (handler_failure_status req env key a Hm Hk Hne Hfail) as (m & ->).
    cbv zeta. split; [reflexivity|].
    intros b. apply (fetchData_resume_failed _ s p f); [reflexivity | exact Hp | exact Hf].
Qed.

Lemma kinds_coupled_by_metadata_only_witness :
  holds_no_panel pricingContainer Sample.loaded_page
  /\ failed (Rejected Sample.network_down : settled Direct.table_payload) = true
  /\ Gateway.seen_ok
       (Gateway.sent (Gateway.answer (Gateway.handler Sample.get_request Sample.configured)
                                     Sample.pricing_down)) = false
  /\ agree_outside pricing_own
       (Direct.fetchFAQ_resume (table_listing 200 [Sample.pets])
          (Direct.fetchPricing_resume (Rejected Sample.network_down) Sample.loaded_page))
       (Direct.fetchFAQ_resume (table_listing 200 [Sample.pets]) Sample.loaded_page).
Proof.
  assert (H0 : holds_no_panel pricingContainer Sample.loaded_page).
  { intros e He. vm_compute in He. injection He as <-. reflexivity. }
  assert (H1 : failed (Rejected Sample.network_down : settled Direct.table_payload) = true)
    by reflexivity.
  destruct (kinds_coupled_by_metadata_only Sample.loaded_page
              (table_listing 200 [Sample.flat]) (table_listing 200 [Sample.pets])
              (Rejected Sample.network_down)
              Sample.get_request Sample.configured "key" Sample.pricing_down
              (Sample.container ["h-64"; "flex"; "items-center"; "justify-center"])
              (Sample.container ["min-h-[200px]"; "flex"; "items-center"; "justify-center"])
              H0 H1 eq_refl eq_refl eq_refl eq_refl
              ltac:(discriminate) eq_refl)
    as (_ & _ & (Hfirst & _) & _ & (Hanswer & _)).
  split; [exact H0|]. split; [exact H1|]. split; [exact Hanswer | exact Hfirst].
Defined.

(** Against C5 as stated: the pricing request of the gateway meets a network
    error while its FAQ request succeeds with one question.  The answer is
    the 500 error body, without the question that a success of both requests
    would have carried, and [fetchData] puts the error message in the FAQ
    container, where the same question delivered to [fetchData] is rendered
    as an accordion of one panel. *)
Lemma pricing_failure_blocks_faq_through_gateway :
  let failed_answer :=
    Gateway.sent (Gateway.answer (Gateway.handler Sample.get_request Sample.configured)
                                 Sample.pricing_down) in
  let full_answer :=
    Gateway.sent (Gateway.answer (Gateway.handler Sample.get_request Sample.configured)
                                 Sample.both_listed) in
  failed (Gateway.faq_settled Sample.pricing_down) = false
  /\ failed_answer = Gateway.send 500 (Some (fetch_error_body "fetch failed"))
  /\ full_answer
     = Gateway.send 200 (Some (combined_body [Sample.a_unit] [Sample.a_question]))
  /\ (forall b,
        published faqContainer
          (Proxied.fetchData_resume
             (Fulfilled {| ok := Gateway.seen_ok failed_answer;
                           status := Gateway.statusCode failed_answer;
                           body_json := b |})
             Sample.loaded_page)
        = Some (ErrorBox "Unable to load current rates."))
  /\ published faqContainer
       (Proxied.fetchData_resume
          (Fulfilled {| ok := Gateway.seen_ok full_answer;
                        status := Gateway.statusCode full_answer;
                        body_json := inr {| Proxied.pricing := Some [Sample.flat];
                                            Proxied.faq := Some [Sample.pets] |} |})
          Sample.loaded_page)
     = Some (FaqAccordion [ {| heading := VString "Are pets allowed?";
                               body := VString "Yes." |} ]).
Proof.
  cbv zeta. split; [reflexivity|]. split; [reflexivity|]. split; [reflexivity|].
  split; [intros b; vm_compute; reflexivity | vm_compute; reflexivity].
Qed.

(** * Further properties of the gateway *)

(** X1. A request whose method is not GET reaches no upstream table: a
    preflight ([OPTIONS]) is answered 200 with no body, any other method 405
    with [{error: "Method not allowed"}], whatever the environment holds. *)
Theorem handler_other_methods (req : Gateway.request) (env : Gateway.environment) :
  Gateway.method req <> "GET" ->
  Gateway.requests (Gateway.handler req env) = []
  /\ (Gateway.method req = "OPTIONS" ->
      Gateway.handler req env = Gateway.Respond (Gateway.send 200 None))
  /\ (Gateway.method req <> "OPTIONS" ->
      Gateway.handler req env
      = Gateway.Respond
          (Gateway.send 405 (Some (JObject [("error", JString "Method not allowed")])))).
Proof.
  intros Hget. unfold Gateway.handler.
  destruct (String.eqb (Gateway.method req) "OPTIONS") eqn:Eo.
  - apply String.eqb_eq in Eo.
    split; [reflexivity|]. split; [reflexivity | congruence].
  - apply String.eqb_neq in Eo.
    destruct (String.eqb (Gateway.method req) "GET") eqn:Eg.
    + apply String.eqb_eq in Eg. congruence.
    + split; [reflexivity|]. split; [congruence | reflexivity].
Qed.

Lemma handler_other_methods_witness :
  Gateway.requests (Gateway.handler {| Gateway.method := "POST" |} Sample.configured) = []
  /\ Gateway.handler {| Gateway.method := "POST" |} Sample.configured
     = Gateway.Respond
         (Gateway.send 405 (Some (JObject [("error", JString "Method not allowed")]))).
Proof.
  destruct (handler_other_methods {| Gateway.method := "POST" |} Sample.configured)
    as (Hreq & _ & H405); [discriminate|].
  split; [exact Hreq | apply H405; discriminate].
Defined.

(** X2. Whatever the request, the environment and the way the upstream
    requests settle, the response carries the four headers set at the top
    of the handler, its status is 200, 405 or 500, and it has no body
    exactly when the request is a preflight. *)
Theorem handler_headers_and_status (req : Gateway.request) (env : Gateway.environment)
    (a : Gateway.arrivals) :
  let r := Gateway.sent (Gateway.answer (Gateway.handler req env) a) in
  Gateway.headers r = Gateway.cors_headers
  /\ (Gateway.statusCode r = 200 \/ Gateway.statusCode r = 405 \/ Gateway.statusCode r = 500)
  /\ (Gateway.body r = None <-> Gateway.method req = "OPTIONS").
Proof.
  cbv zeta. unfold Gateway.handler.
  destruct (String.eqb (Gateway.method req) "OPTIONS") eqn:Eo.
  { apply String.eqb_eq in Eo. simpl. split; [reflexivity|]. split; [auto | tauto]. }
  apply String.eqb_neq in Eo.
  destruct (String.eqb (Gateway.method req) "GET") eqn:Eg; cbn [negb].
  2:{ simpl; (split; [reflexivity|]); (split; [auto|]); (split; [discriminate | tauto]). }
  destruct (Gateway.AIRTABLE_API_KEY env) as [[|c k]|].
  1,3: simpl; (split; [reflexivity|]); (split; [auto|]); (split; [discriminate | tauto]).
  cbn [Gateway.answer].
  destruct (Gateway.Promise_all a) as [e|[pr fr]];
    [simpl; (split; [reflexivity|]); (split; [auto|]); (split; [discriminate | tauto])|].
  destruct (negb (ok pr) || negb (ok fr));
    [simpl; (split; [reflexivity|]); (split; [auto|]); (split; [discriminate | tauto])|].
  destruct (body_json pr) as [e|pd];
    [simpl; (split; [reflexivity|]); (split; [auto|]); (split; [discriminate | tauto])|].
  destruct (body_json fr) as [e|fd];
    [simpl; (split; [reflexivity|]); (split; [auto|]); (split; [discriminate | tauto])|].
  destruct (get pd "records") as [e|precs];
    [simpl; (split; [reflexivity|]); (split; [auto|]); (split; [discriminate | tauto])|].
  destruct (get fd "records") as [e|frecs];
    simpl; (split; [reflexivity|]); (split; [auto|]); (split; [discriminate | tauto]).
Qed.

(** X3. The handler issues upstream requests exactly for a GET with a
    non-empty [AIRTABLE_API_KEY]: then one request per table, each with the
    key as bearer credential.  An empty key counts as a missing one
    ([!AIRTABLE_API_KEY]) and is answered with the configuration error. *)
Theorem handler_requests (req : Gateway.request) (env : Gateway.environment) :
  (forall key, Gateway.method req = "GET" ->
               Gateway.AIRTABLE_API_KEY env = Some key -> key <> "" ->
     Gateway.requests (Gateway.handler req env)
     = [ {| url := "https://api.airtable.com/v0/appd7mB2vELacH4Fh/tbliVrYxBgWFJ3AF1";
            authorization := Some ("Bearer " +:+ key) |};
         {| url := "https://api.airtable.com/v0/appd7mB2vELacH4Fh/tblkfsPmorGvt1o2q";
            authorization := Some ("Bearer " +:+ key) |} ])
  /\ (Gateway.method req <> "GET"
      \/ Gateway.AIRTABLE_API_KEY env = None
      \/ Gateway.AIRTABLE_API_KEY env = Some "" ->
      Gateway.requests (Gateway.handler req env) = [])
  /\ (Gateway.method req = "GET" -> Gateway.AIRTABLE_API_KEY env = Some "" ->
      Gateway.handler req env
      = Gateway.Respond (Gateway.send 500 (Some configuration_error_body))).
Proof.
  split; [|split].
  - intros key Hm Hk Hne. destruct key as [|c k]; [congruence|].
    unfold Gateway.handler. rewrite Hm, Hk. reflexivity.
  - intros H. unfold Gateway.handler.
    destruct (String.eqb (Gateway.method req) "OPTIONS"); [reflexivity|].
    destruct (String.eqb (Gateway.method req) "GET") eqn:Eg; [|reflexivity].
    apply String.eqb_eq in Eg.
    destruct H as [H|[H|H]]; [congruence | rewrite H; reflexivity | rewrite H; reflexivity].
  - intros Hm Hk. unfold Gateway.handler. rewrite Hm, Hk. reflexivity.
Qed.

Lemma handler_requests_witness :
  Gateway.requests (Gateway.handler Sample.get_request Sample.configured)
  = [ {| url := "https://api.airtable.com/v0/appd7mB2vELacH4Fh/tbliVrYxBgWFJ3AF1";
         authorization := Some "Bearer key" |};
      {| url := "https://api.airtable.com/v0/appd7mB2vELacH4Fh/tblkfsPmorGvt1o2q";
         authorization := Some "Bearer key" |} ]
  /\ Gateway.requests
       (Gateway.handler Sample.get_request {| Gateway.AIRTABLE_API_KEY := Some "" |}) = [].
Proof.
  split.
  - apply (handler_requests Sample.get_request Sample.configured);
      [reflexivity | reflexivity | discriminate].
  - apply (handler_requests Sample.get_request {| Gateway.AIRTABLE_API_KEY := Some "" |}).
    right. right. reflexivity.
Defined.

Lemma failure_reply_facts (e : error) (P : Prop) :
  ~ P ->
  let r := {| Gateway.sent := Gateway.send 500 (Some (fetch_error_body (message e)));
              Gateway.logged := [("Airtable API Error:", e)] |} in
  (Gateway.statusCode (Gateway.sent r) = 200 <-> P)
  /\ (Gateway.statusCode (Gateway.sent r) = 200 -> Gateway.logged r = [])
  /\ (Gateway.statusCode (Gateway.sent r) <> 200 ->
      exists e', Gateway.logged r = [("Airtable API Error:", e')]
                 /\ Gateway.sent r = Gateway.send 500 (Some (fetch_error_body (message e')))).
Proof.
  intros HP. cbv zeta. cbn [Gateway.sent Gateway.logged Gateway.send Gateway.statusCode].
  split; [split; [discriminate | tauto]|].
  split; [discriminate|]. intros _. exists e. split; reflexivity.
Qed.

Lemma success_reply_facts (b : json) (P : Prop) :
  P ->
  let r := {| Gateway.sent := Gateway.send 200 (Some b); Gateway.logged := [] |} in
  (Gateway.statusCode (Gateway.sent r) = 200 <-> P)
  /\ (Gateway.statusCode (Gateway.sent r) = 200 -> Gateway.logged r = [])
  /\ (Gateway.statusCode (Gateway.sent r) <> 200 ->
      exists e', Gateway.logged r = [("Airtable API Error:", e')]
                 /\ Gateway.sent r = Gateway.send 500 (Some (fetch_error_body (message e')))).
Proof.
  intros HP. cbv zeta. cbn [Gateway.sent Gateway.logged Gateway.send Gateway.statusCode].
  split; [tauto|]. split; [reflexivity|]. intros H. exfalso. apply H. reflexivity.
Qed.

(** X4. For a GET with the credential configured, the answer is 200 exactly
    when both requests are fulfilled with a success status and a body that
    parses to something other than [null]; it then logs nothing.  Every
    other answer is the 500 failure body carrying the message of the one
    error written to the log. *)
Theorem handler_success_iff (req : Gateway.request) (env : Gateway.environment)
    (key : string) (a : Gateway.arrivals) :
  Gateway.method req = "GET" ->
  Gateway.AIRTABLE_API_KEY env = Some key ->
  key <> "" ->
  let r := Gateway.answer (Gateway.handler req env) a in
  (Gateway.statusCode (Gateway.sent r) = 200 <->
   exists pr fr pd fd,
     Gateway.pricing_settled a = Fulfilled pr /\ Gateway.faq_settled a = Fulfilled fr
     /\ ok pr = true /\ ok fr = true
     /\ body_json pr = inr pd /\ body_json fr = inr fd
     /\ pd <> JNull /\ fd <> JNull)
  /\ (Gateway.statusCode (Gateway.sent r) = 200 -> Gateway.logged r = [])
  /\ (Gateway.statusCode (Gateway.sent r) <> 200 ->
      exists e, Gateway.logged r = [("Airtable API Error:", e)]
                /\ Gateway.sent r = Gateway.send 500 (Some (fetch_error_body (message e)))).
Proof.
  intros Hm Hk Hne. destruct key as [|c k]; [congruence|].
  cbv zeta. unfold Gateway.handler. rewrite Hm, Hk.
  simpl (String.eqb "GET" "OPTIONS"). simpl (String.eqb "GET" "GET").
  cbn [negb Gateway.answer]. unfold Gateway.Promise_all.
  destruct a as [p f first].
  cbn [Gateway.pricing_settled Gateway.faq_settled Gateway.pricing_first].
  destruct p as [e1|pr], f as [e2|fr];
    try (apply failure_reply_facts; intros (? & ? & ? & ? & H1 & H2 & _); discriminate).
  destruct (ok pr) eqn:Hp, (ok fr) eqn:Hf; cbn [negb orb];
    try (apply failure_reply_facts;
         intros (? & ? & ? & ? & H1 & H2 & H3 & H4 & _);
         injection H1 as <-; injection H2 as <-; congruence).
  destruct (body_json pr) as [e|pd] eqn:Hpd;
    [apply failure_reply_facts;
     intros (? & ? & ? & ? & H1 & H2 & _ & _ & H5 & _);
     injection H1 as <-; congruence|].
  destruct (body_json fr) as [e|fd] eqn:Hfd;
    [apply failure_reply_facts;
     intros (? & ? & ? & ? & H1 & H2 & _ & _ & _ & H6 & _);
     injection H2 as <-; congruence|].
  destruct (get pd "records") as [e|precs] eqn:Hgp.
  { apply failure_reply_facts.
    intros (? & ? & ? & ? & H1 & H2 & _ & _ & H5 & _ & H7 & _).
    injection H1 as <-. rewrite Hpd in H5. injection H5 as <-.
    destruct pd; try discriminate Hgp. congruence. }
  destruct (get fd "records") as [e|frecs] eqn:Hgf.
  { apply failure_reply_facts.
    intros (? & ? & ? & ? & H1 & H2 & _ & _ & _ & H6 & _ & H8).
    injection H2 as <-. rewrite Hfd in H6. injection H6 as <-.
    destruct fd; try discriminate Hgf. congruence. }
  apply success_reply_facts.
  exists pr, fr, pd, fd. repeat split; try reflexivity; try assumption;
    intros ->; discriminate.
Qed.

Lemma handler_success_iff_witness :
  Gateway.statusCode
    (Gateway.sent (Gateway.answer (Gateway.handler Sample.get_request Sample.configured)
                                  Sample.pricing_down)) <> 200
  /\ exists e,
       Gateway.logged (Gateway.answer (Gateway.handler Sample.get_request Sample.configured)
                                      Sample.pricing_down)
       = [("Airtable API Error:", e)]
       /\ Gateway.sent (Gateway.answer (Gateway.handler Sample.get_request Sample.configured)
                                       Sample.pricing_down)
          = Gateway.send 500 (Some (fetch_error_body (message e))).
Proof.
  assert (H : Gateway.statusCode
                (Gateway.sent
                   (Gateway.answer (Gateway.handler Sample.get_request Sample.configured)
                                   Sample.pricing_down)) <> 200) by discriminate.
  split; [exact H|].
  destruct (handler_success_iff Sample.get_request Sample.configured "key" Sample.pricing_down)
    as (_ & _ & Hfail); [reflexivity | reflexivity | discriminate |].
  exact (Hfail H).
Defined.


(** X5. The answer does not depend on which credential is configured: two
    non-empty keys give the same response and the same log, so the key
    reaches the upstream requests only. *)
Theorem handler_answer_ignores_credential (req : Gateway.request) (key key' : string)
    (a : Gateway.arrivals) :
  key <> "" -> key' <> "" ->
  Gateway.answer (Gateway.handler req {| Gateway.AIRTABLE_API_KEY := Some key |}) a
  = Gateway.answer (Gateway.handler req {| Gateway.AIRTABLE_API_KEY := Some key' |}) a.
Proof.
  intros Hk Hk'. destruct key as [|c k]; [congruence|]. destruct key' as [|c' k']; [congruence|].
  unfold Gateway.handler. cbn [Gateway.AIRTABLE_API_KEY].
  destruct (String.eqb (Gateway.method req) "OPTIONS"); [reflexivity|].
  destruct (negb (String.eqb (Gateway.method req) "GET")); reflexivity.
Qed.

Lemma handler_answer_ignores_credential_witness :
  Gateway.answer (Gateway.handler Sample.get_request {| Gateway.AIRTABLE_API_KEY := Some "key" |})
                 Sample.both_listed
  = Gateway.answer (Gateway.handler Sample.get_request
                      {| Gateway.AIRTABLE_API_KEY := Some "another key" |})
                   Sample.both_listed.
Proof.
  apply (handler_answer_ignores_credential Sample.get_request "key" "another key"
           Sample.both_listed); discriminate.
Defined.



(** * Further properties of the Structured-Data Publisher *)

(** X7. [updateSchema] is idempotent: a second call with the same
    arguments changes nothing, and neither does a later call that passes no
    list at all. *)
Theorem updateSchema_idempotent (a : option (list pricing_item)) (b : option (list faq_item))
    (s : page) :
  updateSchema a b (updateSchema a b s) = updateSchema a b s
  /\ updateSchema None None (updateSchema a b s) = updateSchema a b s.
Proof.
  rewrite !updateSchema_eq. cbn [globalPricingData globalFaqData document console].
  assert (Ha : forall (A : Type) (x : A) (o : option A), default (default x o) o = default x o)
    by (intros A x [y|]; reflexivity).
  rewrite !Ha. cbn [default from_option].
  set (P := default (globalPricingData s) a). set (F := default (globalFaqData s) b).
  assert (E : publish_if F (faqSchema F) faq_id
                (publish_if P (offerSchema P) offer_id
                   (publish_if F (faqSchema F) faq_id
                      (publish_if P (offerSchema P) offer_id (document s))))
              = publish_if F (faqSchema F) faq_id
                  (publish_if P (offerSchema P) offer_id (document s))).
  { rewrite (publish_if_commute P F _ _ offer_id faq_id) by exact offer_faq_ids.
    rewrite !publish_if_idem. reflexivity. }
  split; rewrite E; reflexivity.
Qed.

Lemma lookup_publish (j : json) (id k : string) (d : dom) :
  publish j id d !! k
  = if decide (id = k) then Some (set_content (Text j) (default fresh_script (d !! id)))
    else d !! k.
Proof. unfold publish. rewrite lookup_insert. reflexivity. Qed.

Lemma lookup_publish_if_shape {A : Type} (l : list A) (j : json) (id k : string) (d : dom) :
  publish_if l j id d !! k = d !! k
  \/ (k = id
      /\ publish_if l j id d !! k
         = Some (set_content (Text j) (default fresh_script (d !! id)))).
Proof.
  unfold publish_if. destruct (0 <? length l)%nat; [|left; reflexivity].
  rewrite lookup_publish. case_decide; [right; subst; split; reflexivity | left; reflexivity].
Qed.

(** X8. [updateSchema] writes the two script elements and nothing else of
    the page: the console and every other element are as before, no element
    is removed, an element that was there keeps its tag, type and classes,
    and the only elements that can appear are the two script elements, of
    type [application/ld+json]. *)
Theorem updateSchema_touches_only_metadata (a : option (list pricing_item))
    (b : option (list faq_item)) (s : page) :
  console (updateSchema a b s) = console s
  /\ (forall k, k <> offer_id -> k <> faq_id ->
                document (updateSchema a b s) !! k = document s !! k)
  /\ (forall k e, document s !! k = Some e ->
        exists e', document (updateSchema a b s) !! k = Some e'
                   /\ tagName e' = tagName e /\ type e' = type e
                   /\ classList e' = classList e)
  /\ (forall k e', document s !! k = None ->
        document (updateSchema a b s) !! k = Some e' ->
        (k = offer_id \/ k = faq_id)
        /\ tagName e' = "script" /\ type e' = "application/ld+json" /\ classList e' = []).
Proof.
  rewrite updateSchema_eq. cbn [console document].
  set (P := default (globalPricingData s) a). set (F := default (globalFaqData s) b).
  split; [reflexivity|]. split; [|split].
  - intros k Ho Hf. rewrite !lookup_publish_if_ne by congruence. reflexivity.
  - intros k e He.
    destruct (lookup_publish_if_shape F (faqSchema F) faq_id k
                (publish_if P (offerSchema P) offer_id (document s))) as [E|[-> E]];
      rewrite E.
    + destruct (lookup_publish_if_shape P (offerSchema P) offer_id k (document s))
        as [E'|[-> E']]; rewrite E'.
      * exists e. auto.
      * rewrite He. eexists. split; [reflexivity|]. auto.
    + rewrite lookup_publish_if_ne by exact offer_faq_ids. rewrite He.
      eexists. split; [reflexivity|]. auto.
  - intros k e' Hnone.
    destruct (lookup_publish_if_shape F (faqSchema F) faq_id k
                (publish_if P (offerSchema P) offer_id (document s))) as [E|[-> E]];
      rewrite E.
    + destruct (lookup_publish_if_shape P (offerSchema P) offer_id k (document s))
        as [E'|[-> E']]; rewrite E'.
      * congruence.
      * rewrite Hnone. intros [= <-]. auto.
    + rewrite lookup_publish_if_ne by exact offer_faq_ids. rewrite Hnone.
      intros [= <-]. auto.
Qed.

(** X9. On a page whose documents are those of its cached lists, an update
    of one kind leaves the script element of the other kind exactly as it
    was. *)
Theorem updateSchema_leaves_other_document (P : list pricing_item) (F : list faq_item)
    (s : page) :
  synced s ->
  document (updateSchema (Some P) None s) !! faq_id = document s !! faq_id
  /\ document (updateSchema None (Some F) s) !! offer_id = document s !! offer_id.
Proof.
  intros [Hp Hf]. rewrite !updateSchema_eq. cbn [document default from_option].
  unfold published in Hp, Hf. split.
  - rewrite publish_if_synced.
    + apply lookup_publish_if_ne. exact offer_faq_ids.
    + intros Hne. rewrite lookup_publish_if_ne by exact offer_faq_ids. exact (Hf Hne).
  - rewrite lookup_publish_if_ne by (intros E; symmetry in E; exact (offer_faq_ids E)).
    rewrite publish_if_synced by exact Hp. reflexivity.
Qed.

Lemma updateSchema_leaves_other_document_witness :
  synced Sample.listed_page
  /\ document (updateSchema (Some Sample.three_prices) None Sample.listed_page) !! faq_id
     = document Sample.listed_page !! faq_id
  /\ document (updateSchema None (Some Sample.one_question) Sample.listed_page) !! offer_id
     = document Sample.listed_page !! offer_id.
Proof.
  assert (H : synced Sample.listed_page).
  { unfold Sample.listed_page.
    apply (synced_proxied_render Faq), (synced_proxied_render Pricing), synced_loaded_page. }
  split; [exact H|].
  exact (updateSchema_leaves_other_document Sample.three_prices Sample.one_question
           Sample.listed_page H).
Defined.

(** X10. [injectJsonLd] creates the script element once and overwrites its
    text afterwards: injecting twice under the same id is injecting the
    later value, a missing element is created as a [script] of type
    [application/ld+json], an existing one only has its content replaced,
    and nothing else of the page changes. *)
Theorem injectJsonLd_creates_once (j j' : json) (scriptId : string) (s : page) :
  injectJsonLd j scriptId (injectJsonLd j' scriptId s) = injectJsonLd j scriptId s
  /\ (document s !! scriptId = None ->
      document (injectJsonLd j scriptId s) !! scriptId
      = Some {| tagName := "script"; type := "application/ld+json"; classList := [];
                content := Text j |})
  /\ (forall e, document s !! scriptId = Some e ->
                document (injectJsonLd j scriptId s) !! scriptId = Some (set_content (Text j) e))
  /\ (forall k, k <> scriptId -> document (injectJsonLd j scriptId s) !! k = document s !! k)
  /\ globalPricingData (injectJsonLd j scriptId s) = globalPricingData s
  /\ globalFaqData (injectJsonLd j scriptId s) = globalFaqData s
  /\ console (injectJsonLd j scriptId s) = console s.
Proof.
  rewrite !injectJsonLd_publish. cbn [document set_document globalPricingData globalFaqData console].
  split; [|split; [|split; [|split; [|split; [|split]]]]]; try reflexivity.
  - unfold set_document. cbn [document globalPricingData globalFaqData console].
    rewrite publish_publish. reflexivity.
  - intros Hn. rewrite lookup_publish. case_decide; [|congruence]. rewrite Hn. reflexivity.
  - intros e He. rewrite lookup_publish. case_decide; [|congruence]. rewrite He. reflexivity.
  - intros k Hk. apply lookup_publish_ne. congruence.
Qed.

Lemma usable_pricingData_of (records : list record) :
  Forall usable_item (pricingData_of records).
Proof.
  unfold pricingData_of. apply List.Forall_forall. intros item Hin.
  apply filter_In in Hin. destruct Hin as [Hin Hk].
  apply in_map_iff in Hin. destruct Hin as (r & <- & _).
  unfold kept, pricing_item_of, usable_item in *. cbn [price] in *.
  destruct (field r "Current Price") as [| |x|str]; cbn in Hk; try discriminate Hk.
  - exists x. split; [reflexivity|]. unfold isNaN in Hk. cbn in Hk.
    destruct (number_isNaN x); [discriminate Hk | reflexivity].
  - eexists. split; [reflexivity|]. unfold isNaN in Hk. cbn in Hk.
    destruct (number_isNaN (parseFloat (strip_currency str))); [discriminate Hk | reflexivity].
Qed.

Lemma or_truthy (v : value) (fallback : string) :
  fallback <> "" -> truthy (or v (VString fallback)) = true.
Proof.
  intros Hf. unfold or. destruct (truthy v) eqn:E; [exact E|].
  cbn. destruct (String.eqb_spec fallback ""); [congruence | reflexivity].
Qed.

Lemma worded_faqData_of (records : list record) :
  Forall worded_item (faqData_of records).
Proof.
  unfold faqData_of. apply List.Forall_forall. intros item Hin.
  apply in_map_iff in Hin. destruct Hin as (r & <- & _).
  split; cbn [question answer faq_item_of]; apply or_truthy; discriminate.
Qed.

Lemma caches_proxied_render (k : kind) (records : option (list record)) (s : page) :
  (globalPricingData (proxied_render k records s) = globalPricingData s
   \/ exists rs, globalPricingData (proxied_render k records s) = pricingData_of rs)
  /\ (globalFaqData (proxied_render k records s) = globalFaqData s
      \/ exists rs, globalFaqData (proxied_render k records s) = faqData_of rs).
Proof.
  destruct k; cbn [proxied_render];
    [unfold Proxied.renderPricing | unfold Proxied.renderFAQ];
    (destruct (getElementById _ _); [|split; left; reflexivity]);
    (destruct records as [[|r rs]|]; try (split; left; reflexivity));
    rewrite updateSchema_eq;
    cbn [globalPricingData globalFaqData default from_option classList_update set_document];
    split;
      try (left; reflexivity); right; eexists; reflexivity.
Qed.

Lemma caches_direct_resume (k : kind) (o : settled Direct.table_payload) (s : page) :
  (globalPricingData (direct_resume k o s) = globalPricingData s
   \/ exists rs, globalPricingData (direct_resume k o s) = pricingData_of rs)
  /\ (globalFaqData (direct_resume k o s) = globalFaqData s
      \/ exists rs, globalFaqData (direct_resume k o s) = faqData_of rs).
Proof.
  destruct k; cbn [direct_resume];
    [unfold Direct.fetchPricing_resume | unfold Direct.fetchFAQ_resume];
    (destruct o as [e|resp]; [split; left; reflexivity|]);
    (destruct (negb (ok resp)); [split; left; reflexivity|]);
    (destruct (body_json resp) as [e|data]; [split; left; reflexivity|]);
    (destruct (Direct.records data) as [rs|]; [|split; left; reflexivity]);
    (destruct (length rs =? 0)%nat; [split; left; reflexivity|]);
    rewrite updateSchema_eq;
    cbn [globalPricingData globalFaqData default from_option classList_update set_document];
    split;
      try (left; reflexivity); right; eexists; reflexivity.
Qed.

Lemma caches_after (e : event) (s : page) :
  (globalPricingData (after e s) = globalPricingData s
   \/ exists rs, globalPricingData (after e s) = pricingData_of rs)
  /\ (globalFaqData (after e s) = globalFaqData s
      \/ exists rs, globalFaqData (after e s) = faqData_of rs).
Proof.
  destruct e as [token|o|token|o| |o|id]; cbn [after].
  - unfold Direct.fetchPricing_start. destruct (getElementById _ _); split; left; reflexivity.
  - exact (caches_direct_resume Pricing o s).
  - unfold Direct.fetchFAQ_start. destruct (getElementById _ _); split; left; reflexivity.
  - exact (caches_direct_resume Faq o s).
  - unfold Proxied.fetchData_start.
    destruct (getElementById _ _); [destruct (getElementById _ _)|]; split; left; reflexivity.
  - unfold Proxied.fetchData_resume.
    destruct o as [e|resp]; [split; left; reflexivity|].
    destruct (negb (ok resp)); [split; left; reflexivity|].
    destruct (body_json resp) as [e|data]; [split; left; reflexivity|].
    destruct (caches_proxied_render Pricing (Proxied.pricing data) s) as [Hp1 Hf1].
    destruct (caches_proxied_render Faq (Proxied.faq data)
                (Proxied.renderPricing (Proxied.pricing data) s)) as [Hp2 Hf2].
    cbn [proxied_render] in *. split.
    + destruct Hp2 as [Hp2|Hp2]; [rewrite Hp2; exact Hp1 | right; exact Hp2].
    + destruct Hf2 as [Hf2|Hf2]; [rewrite Hf2; exact Hf1 | right; exact Hf2].
  - destruct (toggle_presentation_only id s) as (Hp & Hf & _).
    split; left; assumption.
Qed.

Lemma synced_after (e : event) (s : page) : synced s -> synced (after e s).
Proof.
  intros Hs. destruct e as [token|o|token|o| |o|id]; cbn [after].
  - unfold Direct.fetchPricing_start. destruct (getElementById _ _); [|exact Hs].
    cbn [fst]. apply synced_shown; [discriminate | discriminate | exact Hs].
  - exact (synced_direct_resume Pricing o s Hs).
  - unfold Direct.fetchFAQ_start. destruct (getElementById _ _); [|exact Hs].
    cbn [fst]. apply synced_shown; [discriminate | discriminate | exact Hs].
  - exact (synced_direct_resume Faq o s Hs).
  - unfold Proxied.fetchData_start.
    destruct (getElementById _ _); [destruct (getElementById _ _)|]; try exact Hs.
    cbn [fst]. apply synced_shown; [discriminate | discriminate |].
    apply synced_shown; [discriminate | discriminate | exact Hs].
  - assert (Hc : forall e, synced (Proxied.showError faqContainer None
                             (Proxied.showError pricingContainer None
                                (console_error "Data Fetch Error:" e s)))).
    { intros e. apply synced_shown; [discriminate | discriminate |].
      apply synced_shown; [discriminate | discriminate |].
      apply synced_console_error, Hs. }
    unfold Proxied.fetchData_resume.
    destruct o as [e|resp]; [apply Hc|].
    destruct (negb (ok resp)); [apply Hc|].
    destruct (body_json resp) as [e|data]; [apply Hc|].
    apply (synced_proxied_render Faq), (synced_proxied_render Pricing), Hs.
  - apply synced_toggleAccordion, Hs.
Qed.

Lemma well_cached_after (e : event) (s : page) : well_cached s -> well_cached (after e s).
Proof.
  intros [Hp Hf]. destruct (caches_after e s) as [Cp Cf]. split.
  - destruct Cp as [->|[rs ->]]; [exact Hp | apply usable_pricingData_of].
  - destruct Cf as [->|[rs ->]]; [exact Hf | apply worded_faqData_of].
Qed.

(** X11. An invariant of every run of the script, in either variant and
    whatever the order in which requests are started, settle and panels are
    clicked: each cached list that is not empty is the one its published
    document was computed from, every cached price is a number other than
    NaN, and every cached question and answer is truthy. *)
Theorem published_documents_follow_the_caches (events : list event) (s : page) :
  synced s -> well_cached s ->
  synced (history events s) /\ well_cached (history events s).
Proof.
  unfold history. revert s. induction events as [|e events IH]; intros s Hs Hw.
  - split; assumption.
  - cbn [fold_left]. apply IH; [apply synced_after, Hs | apply well_cached_after, Hw].
Qed.

Lemma published_documents_follow_the_caches_witness :
  synced Sample.loaded_page /\ well_cached Sample.loaded_page
  /\ synced
       (history [ RatesRequested;
                  RatesSettled
                    (Sample.delivered {| Proxied.pricing := Some [Sample.studio; Sample.den];
                                         Proxied.faq := Some [Sample.pets] |});
                  Clicked "faq-0";
                  FaqSettled (Rejected Sample.network_down) ]
                Sample.loaded_page)
  /\ well_cached
       (history [ RatesRequested;
                  RatesSettled
                    (Sample.delivered {| Proxied.pricing := Some [Sample.studio; Sample.den];
                                         Proxied.faq := Some [Sample.pets] |});
                  Clicked "faq-0";
                  FaqSettled (Rejected Sample.network_down) ]
                Sample.loaded_page).
Proof.
  assert (Hw : well_cached Sample.loaded_page) by (split; constructor).
  split; [exact synced_loaded_page|]. split; [exact Hw|].
  exact (published_documents_follow_the_caches _ Sample.loaded_page synced_loaded_page Hw).
Defined.

(** * Further properties of the Data Renderer *)

(** ** Decimal numerals and panel ids *)

Lemma span_digits_uint (d : Decimal.uint) :
  span_digits (NilEmpty.string_of_uint d) = (digits_of_uint d, "").
Proof.
  induction d; simpl; [reflexivity| ..];
    change (is_digit _) with true; cbv iota; rewrite IHd; reflexivity.
Qed.

Lemma fold_digits_acc (d : Decimal.uint) (acc : positive) :
  fold_left (fun a x => 10 * a + x) (digits_of_uint d) (Z.pos acc)
  = Z.pos (Pos.of_uint_acc d acc).
Proof.
  revert acc. induction d; intros acc; simpl; [reflexivity| ..];
    rewrite <- IHd; f_equal; lia.
Qed.

Lemma digits_value_uint (d : Decimal.uint) :
  digits_value (digits_of_uint d) = Z.of_N (N.of_uint d).
Proof.
  unfold digits_value, N.of_uint.
  induction d; simpl; try reflexivity; try exact IHd;
    change 1 with (Z.pos 1) at 1 || idtac; try apply (fold_digits_acc d).
Qed.

Lemma digits_of_uint_nonempty (n : N) : digits_of_uint (N.to_uint n) <> [].
Proof.
  destruct n as [|p]; [discriminate|].
  unfold N.to_uint. pose proof (DecimalPos.Unsigned.to_uint_nonnil p) as H.
  destruct (Pos.to_uint p); [congruence | discriminate ..].
Qed.

Lemma decimal_digits (n : Z) :
  0 <= n ->
  exists ds, span_digits (decimal n) = (ds, "") /\ ds <> [] /\ digits_value ds = n.
Proof.
  intros Hn. unfold decimal, NilZero.string_of_uint.
  pose proof (digits_of_uint_nonempty (Z.to_N n)) as Hne.
  pose proof (digits_value_uint (N.to_uint (Z.to_N n))) as Hv.
  rewrite DecimalN.Unsigned.of_to, Z2N.id in Hv by exact Hn.
  destruct (N.to_uint (Z.to_N n)) eqn:E; [simpl in Hne; congruence| ..];
    rewrite <- E in *; exists (digits_of_uint (N.to_uint (Z.to_N n)));
    (split; [apply span_digits_uint | split; assumption]).
Qed.

Lemma parseFloat_decimal (n : Z) :
  0 <= n -> parseFloat (decimal n) = Finite (inject_Z n).
Proof.
  intros Hn. destruct (decimal_digits n Hn) as (ds & Hspan & Hne & Hv).
  rewrite (parseFloat_digits _ ds Hspan Hne), Hv. reflexivity.
Qed.

Lemma decimal_inj (a b : Z) : 0 <= a -> 0 <= b -> decimal a = decimal b -> a = b.
Proof.
  intros Ha Hb H.
  pose proof (parseFloat_decimal a Ha) as Ea. rewrite H, (parseFloat_decimal b Hb) in Ea.
  injection Ea. congruence.
Qed.

Lemma panel_id_inj (i j : nat) : panel_id i = panel_id j -> i = j.
Proof.
  unfold panel_id. intros H.
  assert (E : decimal (Z.of_nat i) = decimal (Z.of_nat j)).
  { change ("faq-" +:+ decimal (Z.of_nat i))
      with (String "f" (String "a" (String "q" (String "-" (decimal (Z.of_nat i)))))) in H.
    change ("faq-" +:+ decimal (Z.of_nat j))
      with (String "f" (String "a" (String "q" (String "-" (decimal (Z.of_nat j)))))) in H.
    congruence. }
  apply decimal_inj in E; lia.
Qed.

Lemma panel_id_not_icon (i j : nat) : panel_id i <> "icon-" +:+ panel_id j.
Proof. unfold panel_id. intros H. discriminate H. Qed.

Lemma icon_id_inj (i j : nat) : "icon-" +:+ panel_id i = "icon-" +:+ panel_id j -> i = j.
Proof.
  intros H. apply panel_id_inj.
  change ("icon-" +:+ panel_id i)
    with (String "i" (String "c" (String "o" (String "n" (String "-" (panel_id i)))))) in H.
  change ("icon-" +:+ panel_id j)
    with (String "i" (String "c" (String "o" (String "n" (String "-" (panel_id j)))))) in H.
  congruence.
Qed.

Lemma lookup_map {A B : Type} (f : A -> B) (l : list A) (i : nat) :
  map f l !! i = f <$> (l !! i).
Proof. revert i. induction l as [|a l IH]; intros [|i]; simpl; auto. Qed.

(** The two elements of the panel at position [i] of an accordion that has
    been attached. *)
Lemma lookup_attach_panel (panels : list faq_panel) (base i : nat) (p : faq_panel) (d : dom) :
  panels !! i = Some p ->
  attach (panels_elements base panels) d !! panel_id (base + i)
  = Some (closed_panel_with (body p))
  /\ attach (panels_elements base panels) d !! ("icon-" +:+ panel_id (base + i))
     = Some panel_icon.
Proof.
  revert base i. induction panels as [|q rest IH]; intros base i Hp; [discriminate Hp|].
  cbn [panels_elements panel_elements app attach fold_right].
  destruct i as [|i].
  - injection Hp as ->. rewrite Nat.add_0_r. split.
    + rewrite lookup_insert_ne by (intros E; symmetry in E; exact (panel_id_not_icon _ _ E)).
      rewrite lookup_insert_eq. reflexivity.
    + rewrite lookup_insert_eq. reflexivity.
  - cbn in Hp. replace (base + S i)%nat with (S base + i)%nat by lia.
    destruct (IH (S base) i Hp) as [E1 E2]. split.
    + rewrite lookup_insert_ne by (intros E; symmetry in E; exact (panel_id_not_icon _ _ E)).
      rewrite lookup_insert_ne by (intros E; apply panel_id_inj in E; lia).
      exact E1.
    + rewrite lookup_insert_ne by (intros E; apply icon_id_inj in E; lia).
      rewrite lookup_insert_ne by (apply panel_id_not_icon).
      exact E2.
Qed.

Lemma panel_key_differs (k k' : string) :
  is_panel_key k = true -> is_panel_key k' = false -> k <> k'.
Proof. congruence. Qed.

(** What the FAQ renderer of either variant leaves behind for a list that is
    not empty. *)
Lemma faq_rendered_form (records : list record) (s s' : page) (code : Z) :
  records <> [] ->
  is_Some (document s !! faqContainer) ->
  s' = direct_resume Faq (table_listing code records) s
  \/ s' = proxied_render Faq (Some records) s ->
  s' = updateSchema None (Some (faqData_of records))
         (classList_update
            (remove_all ["min-h-[200px]"; "flex"; "items-center"; "justify-center"])
            faqContainer
            (set_document
               (set_innerHTML faqContainer (FaqAccordion (map faq_panel_of records))
                  (document s)) s)).
Proof.
  intros Hne [e He] [-> | ->].
  - cbn [direct_resume table_listing]. unfold Direct.fetchFAQ_resume.
    cbn [ok negb body_json Direct.records].
    destruct records as [|r rs]; [congruence|]. reflexivity.
  - cbn [proxied_render]. unfold Proxied.renderFAQ, getElementById. rewrite He.
    destruct records as [|r rs]; [congruence|]. reflexivity.
Qed.

Lemma lookup_rendered_panel (records : list record) (s : page) (e : element)
    (a : option (list pricing_item)) (b : option (list faq_item))
    (f : list string -> list string) (i : nat) (r : record) :
  document s !! faqContainer = Some e ->
  records !! i = Some r ->
  let s' := updateSchema a b
              (classList_update f faqContainer
                 (set_document
                    (set_innerHTML faqContainer (FaqAccordion (map faq_panel_of records))
                       (document s)) s)) in
  document s' !! panel_id i = Some (closed_panel_with (body (faq_panel_of r)))
  /\ document s' !! ("icon-" +:+ panel_id i) = Some panel_icon.
Proof.
  intros He Hr. cbv zeta.
  destruct (panel_id_key i) as [K1 K2].
  assert (Hp : map faq_panel_of records !! i = Some (faq_panel_of r))
    by (rewrite lookup_map, Hr; reflexivity).
  split.
  - rewrite lookup_updateSchema_ne
      by (apply (panel_key_differs _ _ K1); reflexivity).
    rewrite lookup_classList_update_ne
      by (apply (panel_key_differs _ _ K1); reflexivity).
    cbn [document set_document]. unfold set_innerHTML. rewrite He.
    rewrite lookup_insert_ne
      by (intros E; symmetry in E; revert E; apply (panel_key_differs _ _ K1); reflexivity).
    cbn [identified_elements].
    exact (proj1 (lookup_attach_panel _ 0 i _ _ Hp)).
  - rewrite lookup_updateSchema_ne
      by (apply (panel_key_differs _ _ K2); reflexivity).
    rewrite lookup_classList_update_ne
      by (apply (panel_key_differs _ _ K2); reflexivity).
    cbn [document set_document]. unfold set_innerHTML. rewrite He.
    rewrite lookup_insert_ne
      by (intros E; symmetry in E; revert E; apply (panel_key_differs _ _ K2); reflexivity).
    cbn [identified_elements].
    exact (proj2 (lookup_attach_panel _ 0 i _ _ Hp)).
Qed.

(** ** The FAQ accordion, rendered *)

(** What a FAQ render of at least one record leaves behind, short of its
    panels. *)
Lemma faq_rendered_summary (records : list record) (s s' : page) (code : Z) :
  records <> [] ->
  is_Some (document s !! faqContainer) ->
  s' = direct_resume Faq (table_listing code records) s
  \/ s' = proxied_render Faq (Some records) s ->
  published faqContainer s' = Some (FaqAccordion (map faq_panel_of records))
  /\ globalFaqData s' = faqData_of records
  /\ published faq_id s' = Some (Text (faqSchema (faqData_of records)))
  /\ globalPricingData s' = globalPricingData s
  /\ console s' = console s
  /\ synced s'.
Proof.
  intros Hne Hc Hs'. pose proof (faq_rendered_form records s s' code Hne Hc Hs') as E.
  destruct Hc as [e He]. subst s'.
  set (shown := classList_update
                  (remove_all ["min-h-[200px]"; "flex"; "items-center"; "justify-center"])
                  faqContainer
                  (set_document
                     (set_innerHTML faqContainer
                        (FaqAccordion (map faq_panel_of records)) (document s)) s)).
  assert (Hdata : globalFaqData (updateSchema None (Some (faqData_of records)) shown)
                  = faqData_of records)
    by (rewrite updateSchema_eq; reflexivity).
  pose proof (updateSchema_synced None (Some (faqData_of records)) shown) as Hsync.
  split; [|split; [|split; [|split; [|split]]]].
  - unfold published, shown. rewrite lookup_updateSchema_ne by discriminate.
    rewrite lookup_classList_update_eq. cbn [document set_document].
    rewrite (lookup_set_innerHTML_eq _ _ _ e He). reflexivity.
  - exact Hdata.
  - destruct Hsync as [_ Hf]. rewrite Hdata in Hf. apply Hf.
    destruct records; [congruence | discriminate].
  - rewrite updateSchema_eq. reflexivity.
  - rewrite updateSchema_eq. reflexivity.
  - exact Hsync.
Qed.

(** X12. A successful FAQ fetch with at least one record, in either variant:
    the container holds the accordion with one panel per record in upstream
    order, the cached FAQ list and the published FAQPage document are those
    of the records, the cached pricing list and the console are untouched,
    and the panel at position [i] has its content element [faq-i], closed
    and holding the answer (or the literal [Answer]), and its icon
    [icon-faq-i], not rotated. *)
Theorem faq_panels_rendered (records : list record) (s s' : page) (code : Z) :
  records <> [] ->
  is_Some (document s !! faqContainer) ->
  s' = direct_resume Faq (table_listing code records) s
  \/ s' = proxied_render Faq (Some records) s ->
  published faqContainer s' = Some (FaqAccordion (map faq_panel_of records))
  /\ globalFaqData s' = faqData_of records
  /\ published faq_id s' = Some (Text (faqSchema (faqData_of records)))
  /\ globalPricingData s' = globalPricingData s
  /\ console s' = console s
  /\ forall i r, records !! i = Some r ->
       map faq_panel_of records !! i
       = Some {| heading := or (field r "Question") (VString "Question");
                 body := or (field r "Answer") (VString "Answer") |}
       /\ faqData_of records !! i
          = Some {| question := or (field r "Question") (VString "Question");
                    answer := or (field r "Answer") (VString "Answer") |}
       /\ document s' !! panel_id i
          = Some (closed_panel_with (or (field r "Answer") (VString "Answer")))
       /\ document s' !! ("icon-" +:+ panel_id i) = Some panel_icon.
Proof.
  intros Hne Hc Hs'.
  destruct (faq_rendered_summary records s s' code Hne Hc Hs')
    as (Hshown & Hdata & Hdoc & Hpricing & Hconsole & _).
  pose proof (faq_rendered_form records s s' code Hne Hc Hs') as E.
  destruct Hc as [e He].
  split; [exact Hshown|]. split; [exact Hdata|]. split; [exact Hdoc|].
  split; [exact Hpricing|]. split; [exact Hconsole|].
  intros i r Hr.
  split; [rewrite lookup_map, Hr; reflexivity|].
  split; [unfold faqData_of; rewrite lookup_map, Hr; reflexivity|].
  rewrite E. exact (lookup_rendered_panel records s e _ _ _ i r He Hr).
Qed.

Lemma faq_panels_rendered_witness :
  published faqContainer (proxied_render Faq (Some [Sample.pets]) Sample.loaded_page)
  = Some (FaqAccordion [ {| heading := VString "Are pets allowed?";
                            body := VString "Yes." |} ])
  /\ globalFaqData (proxied_render Faq (Some [Sample.pets]) Sample.loaded_page)
     = [ {| question := VString "Are pets allowed?"; answer := VString "Yes." |} ]
  /\ document (proxied_render Faq (Some [Sample.pets]) Sample.loaded_page) !! panel_id 0
     = Some (closed_panel_with (VString "Yes.")).
Proof.
  assert (H1 : [Sample.pets] <> []) by discriminate.
  assert (H2 : is_Some (document Sample.loaded_page !! faqContainer))
    by (vm_compute; eauto).
  destruct (faq_panels_rendered [Sample.pets] Sample.loaded_page
              (proxied_render Faq (Some [Sample.pets]) Sample.loaded_page) 200
              H1 H2 (or_intror eq_refl))
    as (Hshown & Hdata & _ & _ & _ & Hpanels).
  split; [exact Hshown|]. split; [exact Hdata|].
  destruct (Hpanels 0%nat Sample.pets eq_refl) as (_ & _ & Hpanel & _).
  exact Hpanel.
Defined.


(** X13. Every panel of a freshly rendered accordion opens on its first
    click: [toggleAccordion] returns, the content element has lost [hidden],
    the icon has gained [rotate-180], and every other panel, the accordion
    markup, the cached FAQ list and the published FAQPage document are as
    they were. *)
Theorem rendered_panel_opens (records : list record) (s s' : page) (code : Z)
    (i : nat) (r : record) :
  is_Some (document s !! faqContainer) ->
  s' = direct_resume Faq (table_listing code records) s
  \/ s' = proxied_render Faq (Some records) s ->
  records !! i = Some r ->
  exists opened,
    toggleAccordion (panel_id i) s' = Normal opened
    /\ classes (panel_id i) opened
       = Some ["bg-gray-50"; "p-4"; "border-t"; "border-gray-100"; "text-secondary";
               "leading-relaxed"; "prose"; "max-w-none"]
    /\ classes ("icon-" +:+ panel_id i) opened
       = Some ["w-5"; "h-5"; "text-primary"; "transform"; "transition-transform";
               "duration-200"; "rotate-180"]
    /\ (forall j, j <> i ->
          document opened !! panel_id j = document s' !! panel_id j
          /\ document opened !! ("icon-" +:+ panel_id j)
             = document s' !! ("icon-" +:+ panel_id j))
    /\ published faqContainer opened = published faqContainer s'
    /\ globalFaqData opened = globalFaqData s'
    /\ published faq_id opened = published faq_id s'.
Proof.
  intros Hc Hs' Hr.
  assert (Hne : records <> []) by (intros ->; discriminate Hr).
  pose proof (faq_rendered_form records s s' code Hne Hc Hs') as E.
  destruct Hc as [e He].
  destruct (lookup_rendered_panel records s e None (Some (faqData_of records))
              (remove_all ["min-h-[200px]"; "flex"; "items-center"; "justify-center"])
              i r He Hr) as [Hp Hi].
  cbv zeta in Hp, Hi. rewrite <- E in Hp, Hi.
  assert (Hh : contains "hidden" (classList (closed_panel_with (body (faq_panel_of r)))) = true)
    by reflexivity.
  destruct (after_toggle_step (remove "hidden") (add "rotate-180") (panel_id i) s' _ _ Hp Hi)
    as (Ec & Ei & Hk & _ & Hfd & Hpub).
  eexists. split; [exact (toggle_hidden (panel_id i) s' _ _ Hp Hi Hh)|].
  split; [unfold classes; rewrite Ec; reflexivity|].
  split; [unfold classes; rewrite Ei; reflexivity|].
  split; [|split; [apply Hpub | split; [exact Hfd | apply Hpub]]].
  intros j Hj. split; apply Hk.
  - intros Ej. apply panel_id_inj in Ej. congruence.
  - apply panel_id_not_icon.
  - intros Ej. symmetry in Ej. exact (panel_id_not_icon _ _ Ej).
  - intros Ej. apply icon_id_inj in Ej. congruence.
Qed.

Lemma rendered_panel_opens_witness :
  exists opened,
    toggleAccordion (panel_id 0) (proxied_render Faq (Some [Sample.pets]) Sample.loaded_page)
    = Normal opened
    /\ classes (panel_id 0) opened
       = Some ["bg-gray-50"; "p-4"; "border-t"; "border-gray-100"; "text-secondary";
               "leading-relaxed"; "prose"; "max-w-none"]
    /\ classes ("icon-" +:+ panel_id 0) opened
       = Some ["w-5"; "h-5"; "text-primary"; "transform"; "transition-transform";
               "duration-200"; "rotate-180"].
Proof.
  assert (H : is_Some (document Sample.loaded_page !! faqContainer))
    by (vm_compute; eauto).
  destruct (rendered_panel_opens [Sample.pets] Sample.loaded_page
              (proxied_render Faq (Some [Sample.pets]) Sample.loaded_page) 200
              0 Sample.pets H (or_intror eq_refl) eq_refl)
    as (opened & Ht & Hc & Hi & _).
  exists opened. split; [exact Ht|]. split; [exact Hc | exact Hi].
Defined.


(** ** Placeholder classes *)

Lemma filter_filter_andb {A : Type} (p q : A -> bool) (l : list A) :
  List.filter p (List.filter q l) = List.filter (fun x => q x && p x) l.
Proof.
  induction l as [|a l IH]; [reflexivity|]. simpl.
  destruct (q a); simpl; [destruct (p a)|]; rewrite IH; reflexivity.
Qed.

Lemma remove_all_without (tokens cl : list string) :
  remove_all tokens cl = without tokens cl.
Proof.
  unfold remove_all, without. revert cl.
  induction tokens as [|t ts IH]; intros cl; cbn [fold_left].
  - induction cl as [|c cl IHc]; [reflexivity|]. simpl. f_equal. exact IHc.
  - rewrite IH. unfold remove. rewrite filter_filter_andb.
    apply List.filter_ext. intros u. unfold contains. cbn [existsb].
    rewrite (String.eqb_sym t u). destruct (String.eqb u t); reflexivity.
Qed.

Lemma without_twice (cl : list string) :
  without ["h-80"; "flex"; "items-center"; "justify-center"]
    (without ["h-64"; "flex"; "items-center"; "justify-center"] cl)
  = without ["h-64"; "h-80"; "flex"; "items-center"; "justify-center"] cl.
Proof.
  unfold without. rewrite filter_filter_andb. apply List.filter_ext. intros t.
  unfold contains. cbn [existsb].
  destruct (String.eqb t "h-64"), (String.eqb t "h-80"), (String.eqb t "flex"),
    (String.eqb t "items-center"), (String.eqb t "justify-center"); reflexivity.
Qed.

(** X14. The placeholder classes of a container are taken off exactly by a
    render of at least one record, the remaining classes keeping their
    order; with no record the class list stays as it was.  The variant that
    asks the gateway also takes off [h-80] from the pricing container, the
    other variant does not. *)
Theorem placeholder_classes_removed (v : variant) (k : kind) (records : list record)
    (s : page) (e : element) :
  document s !! container_of k = Some e ->
  classes (container_of k) (rendered v k records s)
  = Some (match records with
          | [] => classList e
          | _ :: _ => without (placeholder_classes v k) (classList e)
          end).
Proof.
  intros He. unfold classes.
  destruct v, k; cbn [rendered direct_resume proxied_render table_listing container_of] in *;
    [unfold Direct.fetchPricing_resume | unfold Direct.fetchFAQ_resume
     | unfold Proxied.renderPricing, getElementById; rewrite He
     | unfold Proxied.renderFAQ, getElementById; rewrite He];
    unfold table_listing; cbn [ok negb body_json Direct.records];
    (destruct records as [|r rs];
     [cbn [length Nat.eqb document set_document];
      rewrite (lookup_set_innerHTML_eq _ _ _ e He); reflexivity|]);
    cbn [length Nat.eqb];
    rewrite lookup_updateSchema_ne by discriminate;
    rewrite !lookup_classList_update_eq; cbn [document set_document];
    rewrite (lookup_set_innerHTML_eq _ _ _ e He);
    cbn [fmap option_fmap option_map classList set_classList set_content placeholder_classes];
    rewrite !remove_all_without, ?without_twice; reflexivity.
Qed.

Lemma placeholder_classes_removed_witness :
  classes pricingContainer (rendered Asking Pricing [Sample.studio] Sample.loaded_page)
  = Some []
  /\ classes pricingContainer (rendered Asking Pricing [] Sample.loaded_page)
     = Some ["h-64"; "flex"; "items-center"; "justify-center"].
Proof.
  assert (H : document Sample.loaded_page !! container_of Pricing
              = Some (Sample.container ["h-64"; "flex"; "items-center"; "justify-center"]))
    by (vm_compute; reflexivity).
  split.
  - exact (placeholder_classes_removed Asking Pricing [Sample.studio] Sample.loaded_page _ H).
  - exact (placeholder_classes_removed Asking Pricing [] Sample.loaded_page _ H).
Defined.


(** ** The price cell and the summary *)

(** White space around a price is trimmed as ECMAScript trims it: a price
    that starts with a no-break space is read, counts in the summary and is
    formatted. *)
Lemma padded_price_is_read :
  parseFloat (no_break_space +:+ "1250") = Finite 1250
  /\ unusable_price (VString (no_break_space +:+ "$1,250" +:+ no_break_space)) = false
  /\ pricingData_of [Sample.priced "Suite" (VString (no_break_space +:+ "1250"))]
     = [ {| price := VNumber (Finite 1250) |} ]
  /\ formatCurrency (VString (no_break_space +:+ "1250" +:+ no_break_space)) = "$1,250".
Proof. repeat split; vm_compute; reflexivity. Qed.

Lemma format_usd_not_fallback (x : number) : Intl.format_usd x <> "Call for pricing".
Proof.
  destruct x as [|[|]|q]; cbn [Intl.format_usd]; try discriminate.
  destruct (Qle_bool 0 q); intros H; discriminate H.
Qed.

Lemma number_isNaN_true (x : number) : number_isNaN x = true -> x = NaN.
Proof. destruct x; [reflexivity | discriminate ..]. Qed.

(** X15. The cached pricing list is the normalized prices of the usable
    records, in upstream order.  The price cell shows [Call for pricing]
    exactly when the price is falsy, while a record counts in the summary
    exactly when its price is usable; the two disagree in two cases only: a
    numeric zero shows the fallback yet counts (with price 0), and a
    non-empty string that does not parse shows a formatted cell yet does not
    count. *)
Theorem price_cell_and_summary :
  (forall records,
     pricingData_of records = map pricing_item_of (List.filter usable_record records))
  /\ forall r,
       let v := field r "Current Price" in
       (price_text (pricing_row_of r) = "Call for pricing" <-> truthy v = false)
       /\ (kept (pricing_item_of r) = true <-> unusable_price v = false)
       /\ (truthy v = false /\ kept (pricing_item_of r) = true
           <-> exists q, v = VNumber (Finite q) /\ (q == 0)%Q)
       /\ (truthy v = true /\ kept (pricing_item_of r) = false
           <-> exists str, v = VString str /\ str <> ""
                           /\ parseFloat (strip_currency str) = NaN).
Proof.
  split.
  - induction records as [|r rs IH]; [reflexivity|].
    rewrite pricingData_of_cons. cbn [List.filter]. unfold usable_record at 1.
    destruct (unusable_price (field r "Current Price")); cbn [negb map]; rewrite IH;
      reflexivity.
  - intros r. cbv zeta. rewrite kept_pricing_item_of.
    unfold pricing_row_of, formatCurrency. cbn [price_text].
    split; [|split; [|split]].
    + destruct (truthy (field r "Current Price")).
      * split; [intros H; exfalso; exact (format_usd_not_fallback _ H) | discriminate].
      * split; reflexivity.
    + destruct (unusable_price (field r "Current Price")); cbn; split; congruence.
    + destruct (field r "Current Price") as [| |[|b|q]|str]; cbn.
      1-4: split; [intros [H1 H2]; first [discriminate H1 | discriminate H2]
                  | intros (q' & H & _); discriminate H].
      * split.
        -- intros [H _]. exists q. split; [reflexivity|].
           apply Qeq_bool_iff. destruct (Qeq_bool q 0); [reflexivity | discriminate H].
        -- intros (q' & [= <-] & Hq). apply Qeq_bool_iff in Hq. rewrite Hq.
           split; reflexivity.
      * split; [|intros (q' & H & _); discriminate H].
        intros [H1 H2]. destruct str; [discriminate H2 | discriminate H1].
    + destruct (field r "Current Price") as [| |[|b|q]|str]; cbn.
      1-5: split; [intros [H1 H2]; first [discriminate H1 | discriminate H2]
                  | intros (str' & H & _); discriminate H].
      split.
      * intros [H1 H2]. exists str. split; [reflexivity|]. split.
        -- intros ->. discriminate H1.
        -- apply number_isNaN_true.
           destruct (number_isNaN (parseFloat (strip_currency str)));
             [reflexivity | discriminate H2].
      * intros (str' & [= <-] & Hne & Hnan). rewrite Hnan. split; [|reflexivity].
        destruct str; [congruence | reflexivity].
Qed.

Lemma strip_currency_chars (l : list ascii) :
  strip_currency (string_of_list_ascii l)
  = string_of_list_ascii (List.filter (fun c => negb (currency_mark c)) l).
Proof.
  induction l as [|c l IH]; [reflexivity|].
  cbn [string_of_list_ascii strip_currency List.filter]. unfold currency_mark at 1.
  destruct (Ascii.eqb c "$" || Ascii.eqb c ",")%bool; cbn [negb string_of_list_ascii];
    rewrite IH; reflexivity.
Qed.

Lemma group_from_right_plain (l : list ascii) (k : nat) :
  List.Forall (fun c => currency_mark c = false) l ->
  List.filter (fun c => negb (currency_mark c)) (Intl.group_from_right l k) = l.
Proof.
  intros H. revert k. induction H as [|c l Hc _ IH]; intros k; [reflexivity|].
  cbn [Intl.group_from_right]. destruct (Nat.eqb k 3); cbn [List.filter].
  - change (currency_mark ","%char) with true. cbn [negb]. rewrite Hc. cbn [negb].
    rewrite IH. reflexivity.
  - rewrite Hc. cbn [negb]. rewrite IH. reflexivity.
Qed.

Lemma span_all_digits (s : string) (ds : list Z) :
  span_digits s = (ds, "") ->
  List.Forall (fun c => currency_mark c = false) (list_ascii_of_string s).
Proof.
  revert ds. induction s as [|c r IH]; intros ds H; [constructor|].
  cbn [span_digits] in H. destruct (is_digit c) eqn:Hd; [|discriminate H].
  destruct (span_digits r) as [ds' rest] eqn:Hr. injection H as _ ->.
  cbn [list_ascii_of_string]. constructor; [|exact (IH ds' eq_refl)].
  exact (proj1 (digit_is_plain c Hd)).
Qed.

Lemma strip_currency_grouped (n : Z) : 0 <= n -> strip_currency (Intl.grouped n) = decimal n.
Proof.
  intros Hn. destruct (decimal_digits n Hn) as (ds & Hspan & _).
  pose proof (span_all_digits _ _ Hspan) as Hplain.
  unfold Intl.grouped. rewrite strip_currency_chars, List.filter_rev.
  rewrite group_from_right_plain.
  - rewrite rev_involutive. apply string_of_list_ascii_of_string.
  - apply List.Forall_rev. exact Hplain.
Qed.

Lemma round_magnitude_nonneg (q : Q) : 0 <= Intl.round_magnitude q.
Proof. unfold Intl.round_magnitude. apply Z.div_pos; lia. Qed.

(** X16. What [formatCurrency] writes for a non-negative amount (below 2^53)
    is read back by the price normalization as the amount rounded to the
    nearest integer: the text is [$] and the grouped digits, removing [$]
    and [,] leaves the plain digits, and [parseFloat] reads their number. *)
Theorem formatted_price_reads_back (q : Q) :
  Qle_bool 0 q = true ->
  Intl.round_magnitude q < 2 ^ 53 ->
  let shown := formatCurrency (VNumber (Finite q)) in
  shown = "$" +:+ Intl.grouped (Intl.round_magnitude q)
  /\ strip_currency shown = decimal (Intl.round_magnitude q)
  /\ parseFloat (strip_currency shown) = Finite (inject_Z (Intl.round_magnitude q))
  /\ forall r, field r "Current Price" = VString shown ->
               pricing_item_of r
               = {| price := VNumber (Finite (inject_Z (Intl.round_magnitude q))) |}.
Proof.
  intros Hq _. cbv zeta. unfold formatCurrency. cbn [ToNumber Intl.format_usd]. rewrite Hq.
  change ("" +:+ "$" +:+ Intl.grouped (Intl.round_magnitude q))
    with (String "$" (Intl.grouped (Intl.round_magnitude q))).
  assert (Hs : strip_currency (String "$" (Intl.grouped (Intl.round_magnitude q)))
               = decimal (Intl.round_magnitude q)).
  { cbn [strip_currency]. change (Ascii.eqb "$" "$" || Ascii.eqb "$" ",")%bool with true.
    cbv iota. apply strip_currency_grouped, round_magnitude_nonneg. }
  assert (Hp : parseFloat (strip_currency (String "$" (Intl.grouped (Intl.round_magnitude q))))
               = Finite (inject_Z (Intl.round_magnitude q))).
  { rewrite Hs. apply parseFloat_decimal, round_magnitude_nonneg. }
  split; [reflexivity|]. split; [exact Hs|]. split; [exact Hp|].
  intros r Hr. unfold pricing_item_of. rewrite Hr, Hp. reflexivity.
Qed.

Lemma formatted_price_reads_back_witness :
  formatCurrency (VNumber (Finite (2501 # 2))) = "$1,251"
  /\ parseFloat (strip_currency (formatCurrency (VNumber (Finite (2501 # 2)))))
     = Finite (inject_Z 1251).
Proof.
  destruct (formatted_price_reads_back (2501 # 2)) as (H1 & _ & H3 & _);
    [reflexivity | vm_compute; reflexivity |].
  split; [exact H1 | exact H3].
Defined.

Lemma currency_mark_cases (c : ascii) :
  currency_mark c = true -> c = "$"%char \/ c = ","%char.
Proof.
  unfold currency_mark. intros H. apply orb_true_iff in H.
  destruct H as [H|H]; apply Ascii.eqb_eq in H; auto.
Qed.

Lemma white_space_plain (c : ascii) : is_white_space c = true -> currency_mark c = false.
Proof.
  intros H. destruct (currency_mark c) eqn:E; [|reflexivity].
  destruct (currency_mark_cases c E) as [-> | ->]; discriminate H.
Qed.

Lemma digit_plain (c : ascii) : is_digit c = true -> currency_mark c = false.
Proof. intros H. exact (proj1 (digit_is_plain c H)). Qed.

Lemma mark_is_low (c : ascii) : currency_mark c = true -> (code c < 128)%N.
Proof.
  intros H. destruct (currency_mark_cases c H) as [-> | ->]; reflexivity.
Qed.

Lemma high_byte_plain (c : ascii) : (128 <= code c)%N -> currency_mark c = false.
Proof.
  intros H. destruct (currency_mark c) eqn:E; [|reflexivity].
  apply mark_is_low in E. lia.
Qed.

Lemma white_space2_plain (c c1 : ascii) :
  is_white_space2 c c1 = true -> currency_mark c = false /\ currency_mark c1 = false.
Proof.
  unfold is_white_space2. rewrite andb_true_iff, !N.eqb_eq. intros [H H1].
  split; apply high_byte_plain; lia.
Qed.

Lemma white_space3_plain (c c1 c2 : ascii) :
  is_white_space3 c c1 c2 = true ->
  currency_mark c = false /\ currency_mark c1 = false /\ currency_mark c2 = false.
Proof.
  unfold is_white_space3. cbv zeta.
  rewrite !orb_true_iff, !andb_true_iff, !orb_true_iff, !andb_true_iff, !N.eqb_eq, !N.leb_le.
  intros H. repeat split; apply high_byte_plain; intuition lia.
Qed.

(** What a function that skips white space at the head of a string leaves
    of the marks: by induction on the length, since the white space is one
    to three bytes long. *)
Lemma has_mark_trim_start_upto (n : nat) (s : string) :
  (String.length s <= n)%nat ->
  has_currency_mark (trim_start s) = has_currency_mark s.
Proof.
  revert s. induction n as [|n IH]; intros s Hn.
  - destruct s; [reflexivity | simpl in Hn; lia].
  - destruct s as [|c r]; [reflexivity|]. cbn [trim_start].
    destruct (is_white_space c) eqn:E.
    { rewrite IH by (simpl in Hn; lia). cbn [has_currency_mark].
      rewrite (white_space_plain c E). reflexivity. }
    destruct r as [|c1 r1]; [reflexivity|].
    destruct (is_white_space2 c c1) eqn:E2.
    { destruct (white_space2_plain c c1 E2) as [H H1].
      rewrite IH by (simpl in Hn; lia). cbn [has_currency_mark]. rewrite H, H1. reflexivity. }
    destruct r1 as [|c2 r2]; [reflexivity|].
    destruct (is_white_space3 c c1 c2) eqn:E3; [|reflexivity].
    destruct (white_space3_plain c c1 c2 E3) as (H & H1 & H2).
    rewrite IH by (simpl in Hn; lia). cbn [has_currency_mark]. rewrite H, H1, H2. reflexivity.
Qed.

Lemma has_mark_trim_start (s : string) :
  has_currency_mark (trim_start s) = has_currency_mark s.
Proof. exact (has_mark_trim_start_upto (String.length s) s (Nat.le_refl _)). Qed.

Lemma only_white_space_plain_upto (n : nat) (s : string) :
  (String.length s <= n)%nat ->
  only_white_space s = true -> has_currency_mark s = false.
Proof.
  revert s. induction n as [|n IH]; intros s Hn.
  - destruct s; [reflexivity | simpl in Hn; lia].
  - destruct s as [|c r]; [reflexivity|]. cbn [only_white_space].
    destruct (is_white_space c) eqn:E.
    { intros H. cbn [has_currency_mark]. rewrite (white_space_plain c E).
      apply IH; [simpl in Hn; lia | exact H]. }
    destruct r as [|c1 r1]; [discriminate|].
    destruct (is_white_space2 c c1) eqn:E2.
    { destruct (white_space2_plain c c1 E2) as [H0 H1].
      intros H. cbn [has_currency_mark]. rewrite H0, H1.
      apply IH; [simpl in Hn; lia | exact H]. }
    destruct r1 as [|c2 r2]; [discriminate|].
    destruct (is_white_space3 c c1 c2) eqn:E3; [|discriminate].
    destruct (white_space3_plain c c1 c2 E3) as (H0 & H1 & H2).
    intros H. cbn [has_currency_mark]. rewrite H0, H1, H2.
    apply IH; [simpl in Hn; lia | exact H].
Qed.

Lemma has_mark_trim_end (s : string) :
  has_currency_mark (trim_end s) = has_currency_mark s.
Proof.
  induction s as [|c r IH]; [reflexivity|]. cbn [trim_end].
  destruct (only_white_space (String c r)) eqn:E.
  - symmetry. exact (only_white_space_plain_upto _ _ (Nat.le_refl _) E).
  - cbn [has_currency_mark]. rewrite IH. reflexivity.
Qed.

Lemma has_mark_span_digits (s : string) (ds : list Z) (rest : string) :
  span_digits s = (ds, rest) -> has_currency_mark s = has_currency_mark rest.
Proof.
  revert ds rest. induction s as [|c r IH]; intros ds rest H.
  - injection H as _ <-. reflexivity.
  - cbn [span_digits] in H. destruct (is_digit c) eqn:D.
    + destruct (span_digits r) as [ds' rest'] eqn:E. injection H as _ <-.
      cbn [has_currency_mark]. rewrite (digit_plain c D). exact (IH _ _ eq_refl).
    + injection H as _ <-. reflexivity.
Qed.

Lemma has_mark_strip_prefix (p s rest : string) :
  strip_prefix p s = Some rest ->
  has_currency_mark s = has_currency_mark p || has_currency_mark rest.
Proof.
  revert s. induction p as [|a p IH]; intros s H.
  - injection H as ->. reflexivity.
  - destruct s as [|b s]; [discriminate H|]. cbn [strip_prefix] in H.
    destruct (Ascii.eqb a b) eqn:E; [|discriminate H].
    apply Ascii.eqb_eq in E. subst b. cbn [has_currency_mark].
    rewrite (IH s H). apply orb_assoc.
Qed.

Lemma has_mark_exponent_part (s : string) (e : Z) (rest : string) :
  exponent_part s = (e, rest) -> has_currency_mark s = has_currency_mark rest.
Proof.
  destruct s as [|c r]; cbn [exponent_part]; [intros [= _ <-]; reflexivity|].
  destruct (Ascii.eqb c "e" || Ascii.eqb c "E")%bool eqn:E; [|intros [= _ <-]; reflexivity].
  assert (Hc : currency_mark c = false).
  { apply orb_true_iff in E. destruct E as [E|E]; apply Ascii.eqb_eq in E; subst c;
      reflexivity. }
  assert (Hsign : forall sign r1,
             has_currency_mark r = has_currency_mark r1 ->
             match span_digits r1 with
             | ([], _) => (0, String c r)
             | (ds, r2) => (sign * digits_value ds, r2)
             end = (e, rest) ->
             has_currency_mark (String c r) = has_currency_mark rest).
  { intros sign r1 Hr H. destruct (span_digits r1) as [[|d ds] r2] eqn:S.
    - injection H as _ <-. reflexivity.
    - injection H as _ <-. cbn [has_currency_mark]. rewrite Hc, Hr.
      exact (has_mark_span_digits _ _ _ S). }
  destruct r as [|s1 r'].
  - apply (Hsign 1 ""). reflexivity.
  - destruct (Ascii.eqb s1 "+") eqn:Ep; [apply Ascii.eqb_eq in Ep; subst s1|].
    { apply (Hsign 1 r'). reflexivity. }
    destruct (Ascii.eqb s1 "-") eqn:Em; [apply Ascii.eqb_eq in Em; subst s1|].
    { apply (Hsign (-1) r'). reflexivity. }
    intros H. apply (Hsign 1 (String s1 r')); [reflexivity|].
    revert H. clear -Ep Em.
    destruct s1 as [[] [] [] [] [] [] [] []]; try discriminate Ep; try discriminate Em;
      exact (fun H => H).
Qed.

Lemma has_mark_unsigned (s : string) (x : number) (rest : string) :
  str_unsigned_decimal_literal s = Some (x, rest) ->
  has_currency_mark s = has_currency_mark rest.
Proof.
  unfold str_unsigned_decimal_literal. intros H.
  destruct (strip_prefix "Infinity" s) as [r|] eqn:P.
  { injection H as _ <-. rewrite (has_mark_strip_prefix _ _ _ P). reflexivity. }
  destruct (span_digits s) as [ds1 r1] eqn:S1.
  rewrite (has_mark_span_digits _ _ _ S1).
  cbv beta iota in H.
  match type of H with
  | context [match ?m with pair _ _ => _ end] => destruct m as [[ds2 r2] dotted] eqn:M
  end.
  assert (Hmid : has_currency_mark r1 = has_currency_mark r2).
  { clear H. destruct r1 as [|c r]; [injection M as _ <- _; reflexivity|].
    destruct (Ascii.eqb c ".") eqn:Ec.
    - apply Ascii.eqb_eq in Ec. subst c.
      destruct (span_digits r) as [ds r'] eqn:S2.
      destruct ds1 as [|d1 ds1], ds as [|d ds]; injection M as _ <- _;
        try reflexivity; cbn [has_currency_mark];
        rewrite (has_mark_span_digits _ _ _ S2); reflexivity.
    - destruct c as [[] [] [] [] [] [] [] []]; try discriminate Ec;
        injection M as _ <- _; reflexivity. }
  rewrite Hmid.
  destruct (exponent_part r2) as [e r3] eqn:X.
  pose proof (has_mark_exponent_part _ _ _ X) as Hx.
  destruct ds1 as [|d1 ds1]; [destruct ds2 as [|d2 ds2]; [discriminate H|]|];
    injection H as _ <-; exact Hx.
Qed.

Lemma has_mark_decimal_literal (s : string) (x : number) (rest : string) :
  str_decimal_literal s = Some (x, rest) ->
  has_currency_mark s = has_currency_mark rest.
Proof.
  destruct s as [|c r]; [intros H; exact (has_mark_unsigned _ _ _ H)|].
  destruct (Ascii.eqb c "+") eqn:Ep; [apply Ascii.eqb_eq in Ep; subst c|].
  { cbn [str_decimal_literal]. intros H. exact (has_mark_unsigned _ _ _ H). }
  destruct (Ascii.eqb c "-") eqn:Em; [apply Ascii.eqb_eq in Em; subst c|].
  { cbn [str_decimal_literal]. intros H.
    destruct (str_unsigned_decimal_literal r) as [[y rest']|] eqn:U; [|discriminate H].
    injection H as _ <-. exact (has_mark_unsigned _ _ _ U). }
  intros H. apply (has_mark_unsigned _ x). revert H. clear -Ep Em.
  destruct c as [[] [] [] [] [] [] [] []]; try discriminate Ep; try discriminate Em;
    exact (fun H => H).
Qed.

Lemma radix_digit_mark (radix : Z) (c : ascii) :
  currency_mark c = true -> radix_digit radix c = None.
Proof.
  intros H. destruct (currency_mark_cases c H) as [-> | ->];
    unfold radix_digit; cbn; rewrite Z.ltb_irrefl; reflexivity.
Qed.

Lemma radix_value_plain (radix acc : Z) (s : string) (n : Z) :
  radix_value radix acc s = Some n -> has_currency_mark s = false.
Proof.
  revert acc. induction s as [|c r IH]; intros acc H; [reflexivity|].
  cbn [radix_value] in H. cbn [has_currency_mark].
  destruct (currency_mark c) eqn:E.
  - rewrite (radix_digit_mark radix c E) in H. discriminate H.
  - destruct (radix_digit radix c); [|discriminate H]. exact (IH _ H).
Qed.

Lemma non_decimal_plain (s : string) (n : Z) :
  non_decimal_integer_literal s = Some n -> has_currency_mark s = false.
Proof.
  intros H. destruct s as [|z s1]; [discriminate H|].
  destruct (Ascii.eqb z "0") eqn:Ez.
  2:{ exfalso. destruct z as [[] [] [] [] [] [] [] []]; try discriminate Ez;
        destruct s1 as [|c [|d r]]; discriminate H. }
  apply Ascii.eqb_eq in Ez. subst z.
  destruct s1 as [|c [|d r]]; try discriminate H.
  cbn [non_decimal_integer_literal] in H.
  assert (Hbody : has_currency_mark (String d r) = false).
  { destruct (Ascii.eqb c "x" || Ascii.eqb c "X")%bool;
      [exact (radix_value_plain _ _ _ _ H)|].
    destruct (Ascii.eqb c "o" || Ascii.eqb c "O")%bool;
      [exact (radix_value_plain _ _ _ _ H)|].
    destruct (Ascii.eqb c "b" || Ascii.eqb c "B")%bool;
      [exact (radix_value_plain _ _ _ _ H) | discriminate H]. }
  assert (Hc : currency_mark c = false).
  { destruct (currency_mark c) eqn:E; [|reflexivity].
    destruct (currency_mark_cases c E) as [-> | ->]; discriminate H. }
  change (has_currency_mark (String "0" (String c (String d r))))
    with (currency_mark "0" || (currency_mark c || has_currency_mark (String d r))).
  rewrite Hc, Hbody. reflexivity.
Qed.

Lemma marked_is_not_a_number (s : string) :
  has_currency_mark s = true -> StringToNumber s = NaN.
Proof.
  intros H. unfold StringToNumber.
  assert (Ht : has_currency_mark (trim s) = true)
    by (unfold trim; rewrite has_mark_trim_end, has_mark_trim_start; exact H).
  destruct (trim s) as [|c t] eqn:T; [discriminate Ht|].
  destruct (non_decimal_integer_literal (String c t)) as [n|] eqn:N.
  { rewrite (non_decimal_plain _ _ N) in Ht. discriminate Ht. }
  destruct (str_decimal_literal (String c t)) as [[x rest]|] eqn:D; [|reflexivity].
  destruct rest as [|c' rest']; [|reflexivity].
  rewrite (has_mark_decimal_literal _ _ _ D) in Ht. discriminate Ht.
Qed.

(** X17. A price given as a string with a [$] or a [,] in it, the strings
    the normalization is written for, always shows as [$NaN] in its price
    cell, since the cell formats the raw string; the summary nevertheless
    takes the record, with the number of its digits, when the string is made
    of digits, [$] and [,] only and that number is below 2^53, where it is
    read without rounding. *)
Theorem currency_formatted_price_cell (r : record) (str : string) :
  field r "Current Price" = VString str ->
  has_currency_mark str = true ->
  price_text (pricing_row_of r) = "$NaN"
  /\ forall ds, currency_digits str = Some ds -> ds <> [] ->
                digits_value ds < 2 ^ 53 ->
                pricing_item_of r = {| price := VNumber (Finite (inject_Z (digits_value ds))) |}
                /\ kept (pricing_item_of r) = true.
Proof.
  intros Hf Hm. split.
  - unfold pricing_row_of, formatCurrency. cbn [price_text]. rewrite Hf.
    assert (Hne : truthy (VString str) = true)
      by (destruct str; [discriminate Hm | reflexivity]).
    rewrite Hne. cbn [ToNumber]. rewrite (marked_is_not_a_number str Hm). reflexivity.
  - intros ds Hd Hne _.
    pose proof (parseFloat_digits _ ds (strip_currency_digits _ _ Hd) Hne) as Hp.
    assert (Hitem : pricing_item_of r
                    = {| price := VNumber (Finite (inject_Z (digits_value ds))) |})
      by (unfold pricing_item_of; rewrite Hf, Hp; reflexivity).
    split; [exact Hitem|]. rewrite Hitem. reflexivity.
Qed.

Lemma currency_formatted_price_cell_witness :
  price_text (pricing_row_of Sample.studio) = "$NaN"
  /\ pricing_item_of Sample.studio = {| price := VNumber (Finite (inject_Z 1250)) |}
  /\ kept (pricing_item_of Sample.studio) = true.
Proof.
  destruct (currency_formatted_price_cell Sample.studio "$1,250") as (H1 & H2);
    [reflexivity | reflexivity |].
  split; [exact H1|].
  exact (H2 [1; 2; 5; 0] eq_refl ltac:(discriminate) ltac:(vm_compute; reflexivity)).
Defined.

(** * Further properties of the fetch-and-render operations *)

Lemma container_is_plain (k : kind) :
  is_panel_key (container_of k) = false
  /\ container_of k <> offer_id /\ container_of k <> faq_id.
Proof. destruct k; (split; [reflexivity | split; discriminate]). Qed.

(** A container shows [m]: what changes and what does not. *)
Lemma shown_facts (k : kind) (m : markup) (s : page) (e : element) :
  document s !! container_of k = Some e ->
  let s' := set_document (set_innerHTML (container_of k) m (document s)) s in
  published (container_of k) s' = Some m
  /\ classes (container_of k) s' = Some (classList e)
  /\ globalPricingData s' = globalPricingData s
  /\ globalFaqData s' = globalFaqData s
  /\ console s' = console s
  /\ (forall k', k' <> container_of k -> is_panel_key k' = false ->
                 document s' !! k' = document s !! k').
Proof.
  intros He. cbv zeta. unfold published, classes.
  cbn [document set_document globalPricingData globalFaqData console].
  rewrite (lookup_set_innerHTML_eq _ _ _ e He).
  split; [reflexivity|]. split; [reflexivity|]. split; [reflexivity|].
  split; [reflexivity|]. split; [reflexivity|].
  intros k' Hk Hp. apply lookup_set_innerHTML_ne; assumption.
Qed.

Lemma direct_resume_unreadable (k : kind) (o : settled Direct.table_payload) (s : page) :
  readable_listing o = None ->
  exists err,
    direct_resume k o s
    = set_document
        (set_innerHTML (container_of k) unable_to_load
           (document (console_error (fetch_error_label k) err s)))
        (console_error (fetch_error_label k) err s)
    /\ (forall reason, o = Rejected reason -> err = reason)
    /\ (forall r, o = Fulfilled r -> ok r = false -> err = Error (status_error_message k))
    /\ (forall r reason, o = Fulfilled r -> ok r = true -> body_json r = inl reason ->
                         err = reason)
    /\ (forall r data, o = Fulfilled r -> ok r = true -> body_json r = inr data ->
                       err = Direct.undefined_length).
Proof.
  intros H. destruct o as [reason|r]; cbn [readable_listing] in H.
  - exists reason. split; [destruct k; reflexivity|].
    split; [congruence|]. split; [discriminate|]. split; discriminate.
  - destruct (ok r) eqn:Hok.
    + destruct (body_json r) as [reason|data] eqn:Hb.
      * exists reason.
        split; [destruct k; cbn [direct_resume];
                [unfold Direct.fetchPricing_resume | unfold Direct.fetchFAQ_resume];
                rewrite Hok, Hb; reflexivity|].
        split; [discriminate|]. split; [congruence|]. split; congruence.
      * exists Direct.undefined_length.
        split; [destruct k; cbn [direct_resume];
                [unfold Direct.fetchPricing_resume | unfold Direct.fetchFAQ_resume];
                rewrite Hok, Hb, H; reflexivity|].
        split; [discriminate|]. split; [congruence|]. split; congruence.
    + exists (Error (status_error_message k)).
      split; [destruct k; cbn [direct_resume];
              [unfold Direct.fetchPricing_resume | unfold Direct.fetchFAQ_resume];
              rewrite Hok; reflexivity|].
      split; [discriminate|]. split; [congruence|]. split; congruence.
Qed.

Lemma direct_resume_readable (k : kind) (o : settled Direct.table_payload) (s : page)
    (records : list record) (code : Z) :
  readable_listing o = Some records ->
  direct_resume k o s = direct_resume k (table_listing code records) s.
Proof.
  intros H. destruct o as [reason|r]; cbn [readable_listing] in H; [discriminate H|].
  destruct (ok r) eqn:Hok; [|discriminate H].
  destruct (body_json r) as [reason|data] eqn:Hb; [discriminate H|].
  destruct k; cbn [direct_resume];
    [unfold Direct.fetchPricing_resume | unfold Direct.fetchFAQ_resume];
    unfold table_listing; cbn [ok body_json Direct.records negb];
    rewrite Hok, Hb, H; reflexivity.
Qed.

Lemma console_direct_success (k : kind) (records : list record) (code : Z) (s : page) :
  console (direct_resume k (table_listing code records) s) = console s.
Proof.
  destruct k; cbn [direct_resume];
    [unfold Direct.fetchPricing_resume | unfold Direct.fetchFAQ_resume];
    unfold table_listing; cbn [ok body_json Direct.records negb];
    (destruct (length records =? 0)%nat; [reflexivity|]);
    rewrite updateSchema_eq; reflexivity.
Qed.

(** X18. The outcome of a fetch in the script that queries the tables
    itself depends on the listing it can read, and on nothing else of the
    response.  When there is none (the request is rejected, the status is
    not a success, the body does not parse or has no [records]) the
    container shows the fixed error message with its classes as they were,
    one entry is added to the console under the label of the kind, carrying
    the reason, and both cached lists and both script elements are
    untouched.  When there is one, nothing is logged. *)
Theorem direct_fetch_outcome (k : kind) (o : settled Direct.table_payload) (s : page)
    (e : element) :
  document s !! container_of k = Some e ->
  let s' := direct_resume k o s in
  (readable_listing o = None ->
   published (container_of k) s' = Some unable_to_load
   /\ classes (container_of k) s' = Some (classList e)
   /\ (exists err,
         console s' = console s ++ [(fetch_error_label k, err)]
         /\ (forall reason, o = Rejected reason -> err = reason)
         /\ (forall r, o = Fulfilled r -> ok r = false ->
                       err = Error (status_error_message k))
         /\ (forall r reason, o = Fulfilled r -> ok r = true ->
                              body_json r = inl reason -> err = reason))
   /\ globalPricingData s' = globalPricingData s
   /\ globalFaqData s' = globalFaqData s
   /\ document s' !! offer_id = document s !! offer_id
   /\ document s' !! faq_id = document s !! faq_id)
  /\ (forall records, readable_listing o = Some records ->
        s' = direct_resume k (table_listing 200 records) s
        /\ console s' = console s).
Proof.
  intros He. cbv zeta. split.
  - intros Hu. destruct (direct_resume_unreadable k o s Hu) as (err & -> & H1 & H2 & H3 & _).
    destruct (container_is_plain k) as (Kp & Ko & Kf).
    destruct (shown_facts k unable_to_load (console_error (fetch_error_label k) err s) e He)
      as (Hpub & Hcl & Hp & Hf & Hc & Hrest).
    split; [exact Hpub|]. split; [exact Hcl|].
    split; [exists err; split; [exact Hc|]; split; [exact H1|]; split; [exact H2 | exact H3]|].
    split; [exact Hp|]. split; [exact Hf|].
    split; [apply Hrest; [congruence | reflexivity] | apply Hrest; [congruence | reflexivity]].
  - intros records Hr. rewrite (direct_resume_readable k o s records 200 Hr).
    split; [reflexivity | apply console_direct_success].
Qed.

Lemma direct_fetch_outcome_witness :
  published (container_of Faq)
    (direct_resume Faq (Rejected Sample.network_down) Sample.listed_page)
  = Some unable_to_load
  /\ console (direct_resume Faq (Rejected Sample.network_down) Sample.listed_page)
     = [("FAQ Fetch Error:", Sample.network_down)]
  /\ globalFaqData (direct_resume Faq (Rejected Sample.network_down) Sample.listed_page)
     = globalFaqData Sample.listed_page.
Proof.
  assert (H : is_Some (document Sample.listed_page !! container_of Faq))
    by (vm_compute; eauto).
  destruct H as [e He].
  destruct (direct_fetch_outcome Faq (Rejected Sample.network_down) Sample.listed_page e He)
    as [Hfail _].
  destruct (Hfail eq_refl) as (Hpub & _ & (err & Hc & Herr & _) & _ & Hfd & _).
  split; [exact Hpub|]. split; [|exact Hfd].
  rewrite Hc, (Herr _ eq_refl). reflexivity.
Defined.

(** X19. A payload without a list of records is an error for the script that
    queries the tables itself ([data.records.length] throws, the container
    shows the error message and the [TypeError] is logged), but no data for
    the script that asks the gateway: there a missing list is rendered as an
    empty one, with the notice and nothing logged. *)
Theorem missing_records_error_or_no_data (k : kind) (s : page) (e : element) (code : Z) :
  document s !! container_of k = Some e ->
  let missing := Fulfilled {| ok := true; status := code;
                              body_json := inr {| Direct.records := None |} |} in
  published (container_of k) (direct_resume k missing s) = Some unable_to_load
  /\ console (direct_resume k missing s)
     = console s
       ++ [(fetch_error_label k,
            TypeError "Cannot read properties of undefined (reading 'length')")]
  /\ proxied_render k None s = proxied_render k (Some []) s
  /\ published (container_of k) (proxied_render k None s)
     = Some (Notice (no_data_message k))
  /\ console (proxied_render k None s) = console s.
Proof.
  intros He. cbv zeta.
  destruct (shown_facts k unable_to_load
              (console_error (fetch_error_label k) Direct.undefined_length s) e He)
    as (Hpub & _ & _ & _ & Hc & _).
  destruct (shown_facts k (Notice (no_data_message k)) s e He) as (Hpub' & _ & _ & _ & Hc' & _).
  destruct k; cbn [direct_resume proxied_render container_of] in *;
    unfold Direct.fetchPricing_resume, Direct.fetchFAQ_resume,
      Proxied.renderPricing, Proxied.renderFAQ, getElementById;
    cbn [ok negb body_json Direct.records]; rewrite He;
    (split; [exact Hpub|]); (split; [exact Hc|]); (split; [reflexivity|]);
    (split; [exact Hpub' | exact Hc']).
Qed.

Lemma missing_records_error_or_no_data_witness :
  published (container_of Pricing)
    (direct_resume Pricing
       (Fulfilled {| ok := true; status := 200;
                     body_json := inr {| Direct.records := None |} |})
       Sample.loaded_page)
  = Some unable_to_load
  /\ published (container_of Pricing) (proxied_render Pricing None Sample.loaded_page)
     = Some (Notice (no_data_message Pricing)).
Proof.
  assert (H : document Sample.loaded_page !! container_of Pricing
              = Some (Sample.container ["h-64"; "flex"; "items-center"; "justify-center"]))
    by (vm_compute; reflexivity).
  destruct (missing_records_error_or_no_data Pricing Sample.loaded_page _ 200 H)
    as (H1 & _ & _ & H4 & _).
  split; [exact H1 | exact H4].
Defined.

Lemma fetchData_resume_unreadable (o : settled Proxied.rates_payload) (s : page) :
  readable_rates o = None ->
  exists err,
    Proxied.fetchData_resume o s
    = Proxied.showError faqContainer None
        (Proxied.showError pricingContainer None (console_error "Data Fetch Error:" err s))
    /\ (forall reason, o = Rejected reason -> err = reason)
    /\ (forall r, o = Fulfilled r -> ok r = false ->
                  err = Error ("HTTP error! status: " +:+ decimal (status r)))
    /\ (forall r reason, o = Fulfilled r -> ok r = true -> body_json r = inl reason ->
                         err = reason).
Proof.
  intros H. unfold Proxied.fetchData_resume.
  destruct o as [reason|r]; cbn [readable_rates] in H.
  - exists reason. split; [reflexivity|]. split; [congruence|]. split; discriminate.
  - destruct (ok r) eqn:Hok.
    + destruct (body_json r) as [reason|data] eqn:Hb; [|discriminate H].
      exists reason. cbn [negb]. split; [reflexivity|].
      split; [discriminate|]. split; congruence.
    + eexists. cbn [negb]. split; [reflexivity|].
      split; [discriminate|]. split; [intros r' [= <-] _; reflexivity | congruence].
Qed.

(** The page after the [catch] block of [fetchData]. *)
Lemma fetchData_catch_facts (err : error) (s : page) (p f : element) :
  document s !! pricingContainer = Some p ->
  document s !! faqContainer = Some f ->
  let s' := Proxied.showError faqContainer None
              (Proxied.showError pricingContainer None
                 (console_error "Data Fetch Error:" err s)) in
  published pricingContainer s' = Some unable_to_load
  /\ published faqContainer s' = Some unable_to_load
  /\ classes pricingContainer s' = Some (classList p)
  /\ classes faqContainer s' = Some (classList f)
  /\ console s' = console s ++ [("Data Fetch Error:", err)]
  /\ globalPricingData s' = globalPricingData s
  /\ globalFaqData s' = globalFaqData s
  /\ document s' !! offer_id = document s !! offer_id
  /\ document s' !! faq_id = document s !! faq_id.
Proof.
  intros Hp Hf. cbv zeta.
  set (s0 := console_error "Data Fetch Error:" err s).
  destruct (shown_facts Pricing unable_to_load s0 p Hp)
    as (Hpub1 & Hcl1 & Hpd1 & Hfd1 & Hc1 & Hrest1).
  cbn [container_of] in *.
  set (s1 := Proxied.showError pricingContainer None s0) in *.
  assert (Hf1 : document s1 !! faqContainer = Some f).
  { unfold s1, Proxied.showError. cbn [default from_option].
    rewrite Hrest1 by (discriminate || reflexivity). exact Hf. }
  destruct (shown_facts Faq unable_to_load s1 f Hf1)
    as (Hpub2 & Hcl2 & Hpd2 & Hfd2 & Hc2 & Hrest2).
  cbn [container_of] in *.
  set (s1' := set_document
                (set_innerHTML pricingContainer unable_to_load (document s0)) s0) in *.
  set (s2 := set_document (set_innerHTML faqContainer unable_to_load (document s1)) s1) in *.
  change (Proxied.showError faqContainer None s1) with s2.
  assert (E : forall k', k' <> faqContainer -> is_panel_key k' = false ->
                         document s2 !! k' = document s1' !! k') by exact Hrest2.
  unfold published, classes in *.
  split; [rewrite E by (discriminate || reflexivity); exact Hpub1|].
  split; [exact Hpub2|].
  split; [rewrite E by (discriminate || reflexivity); exact Hcl1|].
  split; [exact Hcl2|].
  split; [exact (eq_trans Hc2 Hc1)|].
  split; [exact (eq_trans Hpd2 Hpd1)|].
  split; [exact (eq_trans Hfd2 Hfd1)|].
  split; (rewrite E by (discriminate || reflexivity);
          apply Hrest1; (discriminate || reflexivity)).
Qed.

(** X20. When the payload of [/api/rates] cannot be read (the request is
    rejected, the status is not a success, or the body does not parse),
    [fetchData] shows the fixed error message in both containers, their
    classes as they were, logs one entry under [Data Fetch Error:] (for a
    non-success status the error [HTTP error! status: ] followed by the
    status), and leaves both cached lists and both script elements
    untouched. *)
Theorem fetchData_failure_report (o : settled Proxied.rates_payload) (s : page)
    (p f : element) :
  document s !! pricingContainer = Some p ->
  document s !! faqContainer = Some f ->
  readable_rates o = None ->
  let s' := Proxied.fetchData_resume o s in
  published pricingContainer s' = Some unable_to_load
  /\ published faqContainer s' = Some unable_to_load
  /\ classes pricingContainer s' = Some (classList p)
  /\ classes faqContainer s' = Some (classList f)
  /\ (exists err,
        console s' = console s ++ [("Data Fetch Error:", err)]
        /\ (forall reason, o = Rejected reason -> err = reason)
        /\ (forall r, o = Fulfilled r -> ok r = false ->
                      err = Error ("HTTP error! status: " +:+ decimal (status r)))
        /\ (forall r reason, o = Fulfilled r -> ok r = true -> body_json r = inl reason ->
                             err = reason))
  /\ globalPricingData s' = globalPricingData s
  /\ globalFaqData s' = globalFaqData s
  /\ document s' !! offer_id = document s !! offer_id
  /\ document s' !! faq_id = document s !! faq_id.
Proof.
  intros Hp Hf Hu. cbv zeta.
  destruct (fetchData_resume_unreadable o s Hu) as (err & -> & Herr).
  destruct (fetchData_catch_facts err s p f Hp Hf)
    as (H1 & H2 & H3 & H4 & H5 & H6 & H7 & H8 & H9).
  split; [exact H1|]. split; [exact H2|]. split; [exact H3|]. split; [exact H4|].
  split; [exists err; split; [exact H5 | exact Herr]|].
  split; [exact H6|]. split; [exact H7|]. split; [exact H8 | exact H9].
Qed.

Lemma fetchData_failure_report_witness :
  published pricingContainer
    (Proxied.fetchData_resume (Sample.refused 500 {| Proxied.pricing := None;
                                                     Proxied.faq := None |})
                              Sample.loaded_page)
  = Some unable_to_load
  /\ console
       (Proxied.fetchData_resume (Sample.refused 500 {| Proxied.pricing := None;
                                                        Proxied.faq := None |})
                                 Sample.loaded_page)
     = [("Data Fetch Error:", Error "HTTP error! status: 500")].
Proof.
  assert (Hp : document Sample.loaded_page !! pricingContainer
               = Some (Sample.container ["h-64"; "flex"; "items-center"; "justify-center"]))
    by (vm_compute; reflexivity).
  assert (Hf : document Sample.loaded_page !! faqContainer
               = Some (Sample.container
                         ["min-h-[200px]"; "flex"; "items-center"; "justify-center"]))
    by (vm_compute; reflexivity).
  destruct (fetchData_failure_report
              (Sample.refused 500 {| Proxied.pricing := None; Proxied.faq := None |})
              Sample.loaded_page _ _ Hp Hf eq_refl)
    as (H1 & _ & _ & _ & (err & Hc & _ & Hstatus & _) & _).
  split; [exact H1|].
  rewrite Hc, (Hstatus _ eq_refl eq_refl). reflexivity.
Defined.

Lemma renderPricing_form (records : list record) (s : page) (p : element) :
  records <> [] ->
  document s !! pricingContainer = Some p ->
  Proxied.renderPricing (Some records) s
  = updateSchema (Some (pricingData_of records)) None
      (classList_update
         (remove_all ["h-80"; "flex"; "items-center"; "justify-center"]) pricingContainer
         (classList_update
            (remove_all ["h-64"; "flex"; "items-center"; "justify-center"]) pricingContainer
            (set_document
               (set_innerHTML pricingContainer (PricingTable (map pricing_row_of records))
                  (document s)) s))).
Proof.
  intros Hne Hp. unfold Proxied.renderPricing, getElementById. rewrite Hp.
  destruct records as [|r rs]; [congruence | reflexivity].
Qed.

(** X21. When [/api/rates] delivers at least one record of each kind,
    [fetchData] is the pricing render followed by the FAQ render, and the
    FAQ render leaves what the pricing render made as it is: the pricing
    container, the cached pricing list and the Offer document.  The FAQ
    container then holds the accordion of the FAQ records, the cached FAQ
    list and the FAQPage document are those of the records, and nothing is
    logged. *)
Theorem fetchData_renders_both (P F : list record) (code : Z) (s : page) (p f : element) :
  document s !! pricingContainer = Some p ->
  document s !! faqContainer = Some f ->
  P <> [] -> F <> [] ->
  let priced := Proxied.renderPricing (Some P) s in
  let s' := Proxied.fetchData_resume
              (Fulfilled {| ok := true; status := code;
                            body_json := inr {| Proxied.pricing := Some P;
                                                Proxied.faq := Some F |} |}) s in
  s' = Proxied.renderFAQ (Some F) priced
  /\ document s' !! pricingContainer = document priced !! pricingContainer
  /\ globalPricingData s' = globalPricingData priced
  /\ published offer_id s' = published offer_id priced
  /\ published faqContainer s' = Some (FaqAccordion (map faq_panel_of F))
  /\ globalFaqData s' = faqData_of F
  /\ published faq_id s' = Some (Text (faqSchema (faqData_of F)))
  /\ console s' = console s.
Proof.
  intros Hp Hf HP HF. cbv zeta. unfold Proxied.fetchData_resume.
  cbn [ok negb body_json Proxied.pricing Proxied.faq].
  set (s1 := Proxied.renderPricing (Some P) s).
  pose proof (renderPricing_form P s p HP Hp) as E1. fold s1 in E1.
  assert (Hf1 : document s1 !! faqContainer = Some f).
  { rewrite E1, lookup_updateSchema_ne by discriminate.
    rewrite !lookup_classList_update_ne by discriminate.
    cbn [document set_document].
    rewrite lookup_set_innerHTML_ne by (discriminate || reflexivity). exact Hf. }
  assert (Hsync1 : synced s1) by (rewrite E1; apply updateSchema_synced).
  assert (Hconsole1 : console s1 = console s)
    by (rewrite E1, updateSchema_eq; reflexivity).
  assert (Hsome : is_Some (document s1 !! faqContainer)) by (rewrite Hf1; eauto).
  change (Proxied.renderFAQ (Some F) s1) with (proxied_render Faq (Some F) s1).
  destruct (faq_rendered_summary F s1 (proxied_render Faq (Some F) s1) 200 HF Hsome
              (or_intror eq_refl))
    as (Hshown & Hfaq & Hdoc & Hpricing & Hconsole & _).
  assert (Hsame : proxied_render Faq (Some F) s1
                  = direct_resume Faq (table_listing 200 F) s1).
  { rewrite (faq_rendered_form F s1 _ 200 HF Hsome (or_intror eq_refl)).
    symmetry. exact (faq_rendered_form F s1 _ 200 HF Hsome (or_introl eq_refl)). }
  split; [reflexivity|]. split.
  - rewrite Hsame. cbn [direct_resume].
    apply fetchFAQ_resume_elsewhere; (discriminate || reflexivity).
  - split; [exact Hpricing|].
    split; [exact (published_offer_renderFAQ (Some F) s1 Hsync1)|].
    split; [exact Hshown|]. split; [exact Hfaq|].
    split; [exact Hdoc | rewrite Hconsole; exact Hconsole1].
Qed.

Lemma fetchData_renders_both_witness :
  let s' := Proxied.fetchData_resume
              (Sample.delivered {| Proxied.pricing := Some [Sample.flat; Sample.loft];
                                   Proxied.faq := Some [Sample.pets] |})
              Sample.loaded_page in
  globalPricingData s' = [ {| price := Sample.amount 1000 |} ]
  /\ published offer_id s' = Some (Text (offer_summary 1000 1000 1))
  /\ published faq_id s' = Some (Text (faqSchema (faqData_of [Sample.pets]))).
Proof.
  assert (Hp : document Sample.loaded_page !! pricingContainer
               = Some (Sample.container ["h-64"; "flex"; "items-center"; "justify-center"]))
    by (vm_compute; reflexivity).
  assert (Hf : document Sample.loaded_page !! faqContainer
               = Some (Sample.container
                         ["min-h-[200px]"; "flex"; "items-center"; "justify-center"]))
    by (vm_compute; reflexivity).
  destruct (fetchData_renders_both [Sample.flat; Sample.loft] [Sample.pets] 200
              Sample.loaded_page _ _ Hp Hf ltac:(discriminate) ltac:(discriminate))
    as (_ & _ & Hdata & Hoffer & _ & _ & Hfaq & _).
  cbv zeta. split; [|split; [|exact Hfaq]].
  - etransitivity; [exact Hdata | vm_compute; reflexivity].
  - etransitivity; [exact Hoffer | vm_compute; reflexivity].
Defined.


(** X23. [fetchData] starts all or nothing: if either container is missing it
    changes nothing and issues no request, not even a loading indicator in
    the container that exists; otherwise both containers show the loading
    indicator and the one request, to [/api/rates], carries no credential.
    Cached lists, console and script elements are as before. *)
Theorem fetchData_start_all_or_nothing (s : page) :
  (document s !! pricingContainer = None \/ document s !! faqContainer = None ->
   Proxied.fetchData_start s = (s, None))
  /\ forall p f,
       document s !! pricingContainer = Some p ->
       document s !! faqContainer = Some f ->
       exists s',
         Proxied.fetchData_start s
         = (s', Some {| url := "/api/rates"; authorization := None |})
         /\ published pricingContainer s' = Some LoadingIndicator
         /\ published faqContainer s' = Some LoadingIndicator
         /\ classes pricingContainer s' = Some (classList p)
         /\ classes faqContainer s' = Some (classList f)
         /\ globalPricingData s' = globalPricingData s
         /\ globalFaqData s' = globalFaqData s
         /\ console s' = console s
         /\ document s' !! offer_id = document s !! offer_id
         /\ document s' !! faq_id = document s !! faq_id.
Proof.
  split.
  - intros H. unfold Proxied.fetchData_start, getElementById.
    destruct H as [H|H]; rewrite H; [reflexivity|].
    destruct (document s !! pricingContainer); reflexivity.
  - intros p f Hp Hf. unfold Proxied.fetchData_start, getElementById. rewrite Hp, Hf.
    eexists. split; [reflexivity|].
    destruct (shown_facts Pricing LoadingIndicator s p Hp)
      as (Hpub1 & Hcl1 & Hpd1 & Hfd1 & Hc1 & Hrest1).
    cbn [container_of] in *.
    set (s1 := showLoading pricingContainer s) in *.
    assert (Hf1 : document s1 !! faqContainer = Some f)
      by (etransitivity; [apply Hrest1; (discriminate || reflexivity) | exact Hf]).
    destruct (shown_facts Faq LoadingIndicator s1 f Hf1)
      as (Hpub2 & Hcl2 & Hpd2 & Hfd2 & Hc2 & Hrest2).
    cbn [container_of] in *.
    set (s2 := showLoading faqContainer s1) in *.
    unfold published, classes in *.
    split; [rewrite Hrest2 by (discriminate || reflexivity); exact Hpub1|].
    split; [exact Hpub2|].
    split; [rewrite Hrest2 by (discriminate || reflexivity); exact Hcl1|].
    split; [exact Hcl2|].
    split; [exact (eq_trans Hpd2 Hpd1)|].
    split; [exact (eq_trans Hfd2 Hfd1)|].
    split; [exact (eq_trans Hc2 Hc1)|].
    split; (rewrite Hrest2 by (discriminate || reflexivity);
            apply Hrest1; (discriminate || reflexivity)).
Qed.

Lemma handler_status_cases (req : Gateway.request) (env : Gateway.environment)
    (a : Gateway.arrivals) :
  Gateway.statusCode (Gateway.sent (Gateway.answer (Gateway.handler req env) a)) = 200
  \/ Gateway.seen_ok (Gateway.sent (Gateway.answer (Gateway.handler req env) a)) = false.
Proof.
  unfold Gateway.handler.
  destruct (String.eqb (Gateway.method req) "OPTIONS"); [left; reflexivity|].
  destruct (negb (String.eqb (Gateway.method req) "GET")); [right; reflexivity|].
  destruct (Gateway.AIRTABLE_API_KEY env) as [[|c k]|]; try (right; reflexivity).
  cbn [Gateway.answer].
  destruct (Gateway.Promise_all a) as [e|[pr fr]]; [right; reflexivity|].
  destruct (negb (ok pr) || negb (ok fr)); [right; reflexivity|].
  destruct (body_json pr) as [e|pd]; [right; reflexivity|].
  destruct (body_json fr) as [e|fd]; [right; reflexivity|].
  destruct (get pd "records") as [e|precs]; [right; reflexivity|].
  destruct (get fd "records") as [e|frecs]; [right; reflexivity | left; reflexivity].
Qed.

(** X24. Whatever the gateway refuses (a method other than GET or OPTIONS, a
    missing credential, an upstream failure), the script that asks it shows
    the fixed error message in both containers and logs the status of the
    refusal; cached lists and published documents stay as they were. *)
Theorem gateway_refusal_reaches_the_page (req : Gateway.request) (env : Gateway.environment)
    (a : Gateway.arrivals) (b : error + Proxied.rates_payload) (s : page) (p f : element) :
  document s !! pricingContainer = Some p ->
  document s !! faqContainer = Some f ->
  let r := Gateway.sent (Gateway.answer (Gateway.handler req env) a) in
  Gateway.statusCode r <> 200 ->
  let s' := Proxied.fetchData_resume
              (Fulfilled {| ok := Gateway.seen_ok r; status := Gateway.statusCode r;
                            body_json := b |}) s in
  published pricingContainer s' = Some unable_to_load
  /\ published faqContainer s' = Some unable_to_load
  /\ console s'
     = console s
       ++ [("Data Fetch Error:",
            Error ("HTTP error! status: " +:+ decimal (Gateway.statusCode r)))]
  /\ globalPricingData s' = globalPricingData s
  /\ globalFaqData s' = globalFaqData s
  /\ document s' !! offer_id = document s !! offer_id
  /\ document s' !! faq_id = document s !! faq_id.
Proof.
  intros Hp Hf. cbv zeta. intros Hstatus.
  destruct (handler_status_cases req env a) as [H200|Hok]; [congruence|].
  unfold Proxied.fetchData_resume. cbn [ok status]. rewrite Hok. cbn [negb].
  destruct (fetchData_catch_facts
              (Error ("HTTP error! status: "
                      +:+ decimal (Gateway.statusCode
                                     (Gateway.sent
                                        (Gateway.answer (Gateway.handler req env) a)))))
              s p f Hp Hf)
    as (H1 & H2 & _ & _ & H5 & H6 & H7 & H8 & H9).
  split; [exact H1|]. split; [exact H2|]. split; [exact H5|].
  split; [exact H6|]. split; [exact H7|]. split; [exact H8 | exact H9].
Qed.

Lemma gateway_refusal_reaches_the_page_witness :
  let r := Gateway.sent (Gateway.answer (Gateway.handler Sample.get_request Sample.unconfigured)
                                        Sample.both_listed) in
  let s' := Proxied.fetchData_resume
              (Fulfilled {| ok := Gateway.seen_ok r; status := Gateway.statusCode r;
                            body_json := inl (Error "unread") |}) Sample.listed_page in
  published faqContainer s' = Some unable_to_load
  /\ console s' = [("Data Fetch Error:", Error "HTTP error! status: 500")].
Proof.
  assert (Hp : is_Some (document Sample.listed_page !! pricingContainer))
    by (vm_compute; eauto).
  assert (Hf : is_Some (document Sample.listed_page !! faqContainer))
    by (vm_compute; eauto).
  destruct Hp as [p Hp]. destruct Hf as [f Hf].
  destruct (gateway_refusal_reaches_the_page Sample.get_request Sample.unconfigured
              Sample.both_listed (inl (Error "unread")) Sample.listed_page p f Hp Hf)
    as (_ & H2 & H3 & _); [discriminate|].
  cbv zeta. split; [exact H2|].
  etransitivity; [exact H3 | vm_compute; reflexivity].
Defined.

(** * Further properties of the accordion *)

(** X25. [toggleAccordion] returns exactly when both the content element and
    the icon element exist.  Without the content element it throws before
    anything has changed; without the icon element it throws after the
    content element has been toggled, so the panel is left half-toggled. *)
Theorem toggle_needs_both_elements (id : string) (s : page) :
  let null_classList := TypeError "Cannot read properties of null (reading 'classList')" in
  (document s !! id = None -> toggleAccordion id s = Throw null_classList s)
  /\ (forall c, document s !! id = Some c -> document s !! ("icon-" +:+ id) = None ->
        exists s',
          toggleAccordion id s = Throw null_classList s'
          /\ classes id s'
             = Some (if contains "hidden" (classList c) then remove "hidden" (classList c)
                     else add "hidden" (classList c))
          /\ (forall k, k <> id -> document s' !! k = document s !! k)
          /\ globalPricingData s' = globalPricingData s
          /\ globalFaqData s' = globalFaqData s)
  /\ (forall c i, document s !! id = Some c -> document s !! ("icon-" +:+ id) = Some i ->
        exists s', toggleAccordion id s = Normal s').
Proof.
  cbv zeta. split; [|split].
  - intros Hc. unfold toggleAccordion, getElementById. rewrite Hc. reflexivity.
  - intros c Hc Hi. unfold toggleAccordion, getElementById. rewrite Hc.
    destruct (contains "hidden" (classList c)).
    + rewrite lookup_classList_update_ne by apply icon_id_differs. rewrite Hi.
      eexists. split; [reflexivity|]. split; [|split; [|split]]; try reflexivity.
      * unfold classes. rewrite lookup_classList_update_eq, Hc. reflexivity.
      * intros k Hk. apply lookup_classList_update_ne. exact Hk.
    + rewrite lookup_classList_update_ne by apply icon_id_differs. rewrite Hi.
      eexists. split; [reflexivity|]. split; [|split; [|split]]; try reflexivity.
      * unfold classes. rewrite lookup_classList_update_eq, Hc. reflexivity.
      * intros k Hk. apply lookup_classList_update_ne. exact Hk.
  - intros c i Hc Hi.
    destruct (contains "hidden" (classList c)) eqn:Hh.
    + eexists. exact (toggle_hidden id s c i Hc Hi Hh).
    + eexists. exact (toggle_shown id s c i Hc Hi Hh).
Qed.

(** X26. One call of [toggleAccordion] on a panel whose two elements exist
    flips the presence of [hidden] on the content element and leaves the
    icon rotated exactly when the panel is now shown, whatever the icon was
    before; no other class token, no content and no other element changes,
    so every other panel keeps its state. *)
Theorem toggle_flips_one_panel (id : string) (s : page) (c i : element) :
  document s !! id = Some c ->
  document s !! ("icon-" +:+ id) = Some i ->
  exists s' c' i',
    toggleAccordion id s = Normal s'
    /\ document s' !! id = Some c'
    /\ document s' !! ("icon-" +:+ id) = Some i'
    /\ contains "hidden" (classList c') = negb (contains "hidden" (classList c))
    /\ contains "rotate-180" (classList i') = contains "hidden" (classList c)
    /\ (forall token, token <> "hidden" ->
                      contains token (classList c') = contains token (classList c))
    /\ (forall token, token <> "rotate-180" ->
                      contains token (classList i') = contains token (classList i))
    /\ content c' = content c /\ content i' = content i
    /\ (forall k, k <> id -> k <> "icon-" +:+ id -> document s' !! k = document s !! k).
Proof.
  intros Hc Hi.
  assert (Hneq : forall t u : string, t <> u -> String.eqb u t = false).
  { intros t u Hn. apply String.eqb_neq. congruence. }
  destruct (contains "hidden" (classList c)) eqn:Hh.
  - destruct (after_toggle_step (remove "hidden") (add "rotate-180") id s c i Hc Hi)
      as (Ec & Ei & Hk & _).
    eexists _, _, _. split; [exact (toggle_hidden id s c i Hc Hi Hh)|].
    split; [exact Ec|]. split; [exact Ei|].
    rewrite !classList_set_classList.
    split; [rewrite contains_remove; reflexivity|].
    split; [rewrite contains_add; reflexivity|].
    split; [intros t Ht; rewrite contains_remove, (Hneq t "hidden" Ht); reflexivity|].
    split; [intros t Ht; rewrite contains_add, (Hneq t "rotate-180" Ht); reflexivity|].
    split; [reflexivity|]. split; [reflexivity | exact Hk].
  - destruct (after_toggle_step (add "hidden") (remove "rotate-180") id s c i Hc Hi)
      as (Ec & Ei & Hk & _).
    eexists _, _, _. split; [exact (toggle_shown id s c i Hc Hi Hh)|].
    split; [exact Ec|]. split; [exact Ei|].
    rewrite !classList_set_classList.
    split; [rewrite contains_add; reflexivity|].
    split; [rewrite contains_remove; reflexivity|].
    split; [intros t Ht; rewrite contains_add, (Hneq t "hidden" Ht); reflexivity|].
    split; [intros t Ht; rewrite contains_remove, (Hneq t "rotate-180" Ht); reflexivity|].
    split; [reflexivity|]. split; [reflexivity | exact Hk].
Qed.

Lemma toggle_flips_one_panel_witness :
  exists s' c' i',
    toggleAccordion "faq-0" Sample.listed_page = Normal s'
    /\ document s' !! "faq-0" = Some c'
    /\ document s' !! ("icon-" +:+ "faq-0") = Some i'
    /\ contains "hidden" (classList c') = false
    /\ contains "rotate-180" (classList i') = true.
Proof.
  assert (H1 : document Sample.listed_page !! "faq-0" = Some Sample.closed_panel)
    by (vm_compute; reflexivity).
  assert (H2 : document Sample.listed_page !! ("icon-" +:+ "faq-0")
               = Some Sample.closed_icon)
    by (vm_compute; reflexivity).
  destruct (toggle_flips_one_panel "faq-0" Sample.listed_page Sample.closed_panel
              Sample.closed_icon H1 H2)
    as (s' & c' & i' & Ht & Hc & Hi & Hh & Hr & _).
  exists s', c', i'.
  split; [exact Ht|]. split; [exact Hc|]. split; [exact Hi|].
  split; [exact Hh | exact Hr].
Defined.
